(** * Champions Express: the club, player and statistics services

    A shallow embedding of the domain layer of the Champions Express API
    (TypeScript, Express, Prisma over SQLite):

    - [prisma/schema.prisma] and the migration: the three tables, their
      keys, the unique indexes and the cascading foreign keys;
    - [src/repositories/*.ts]: the queries sent through the Prisma client;
    - [src/services/*.ts]: validation and business rules;
    - [src/utils/http-helper.ts] and [src/controllers/*.ts]: the answers
      of the endpoints.

    The database is an explicit state, threaded through a small state and
    exception monad.  JavaScript numbers that hold identifiers, scores and
    counts are integers ([Z]), the average is a rational ([Q]); a
    well-formed JavaScript string is the byte string of its UTF-8
    encoding, on which equality and trimming are those of the string. *)

From Stdlib Require Import ZArith NArith QArith Qround List String Ascii Bool.
From Stdlib Require Import Lia Lqa Permutation Sorted.
Import ListNotations.

Local Open Scope Z_scope.

(* ================================================================== *)
(** * JavaScript primitives used by the services *)
(* ================================================================== *)

Module Js.

(** The string with the given bytes. *)
Definition bytes (codes : list nat) : string :=
  fold_right (fun n s => String (ascii_of_nat n) s) EmptyString codes.

(** The code points that [String.prototype.trim] removes, each in its
    UTF-8 encoding: ECMAScript's WhiteSpace (TAB, VT, FF, ZWNBSP and the
    Unicode category Zs) and LineTerminator (LF, CR, LS, PS). *)
Definition whiteSpace : list string :=
  map bytes
    ([[9]; [10]; [11]; [12]; [13];            (* TAB LF VT FF CR *)
     [32];                                   (* U+0020 SPACE *)
     [194; 160];                             (* U+00A0 NO-BREAK SPACE *)
     [225; 154; 128];                        (* U+1680 OGHAM SPACE MARK *)
     [226; 128; 128]; [226; 128; 129];       (* U+2000, U+2001 *)
     [226; 128; 130]; [226; 128; 131];       (* U+2002, U+2003 *)
     [226; 128; 132]; [226; 128; 133];       (* U+2004, U+2005 *)
     [226; 128; 134]; [226; 128; 135];       (* U+2006, U+2007 *)
     [226; 128; 136]; [226; 128; 137];       (* U+2008, U+2009 *)
     [226; 128; 138];                        (* U+200A HAIR SPACE *)
     [226; 128; 168]; [226; 128; 169];       (* U+2028 LS, U+2029 PS *)
     [226; 128; 175];                        (* U+202F NARROW NO-BREAK SPACE *)
     [226; 129; 159];                        (* U+205F MEDIUM MATHEMATICAL SPACE *)
     [227; 128; 128];                        (* U+3000 IDEOGRAPHIC SPACE *)
     [239; 187; 191]])%nat.                  (* U+FEFF ZERO WIDTH NO-BREAK SPACE *)

(** [s] is the encoding of one white space code point. *)
Definition isWhiteSpace (s : string) : bool :=
  existsb (fun w => (w =? s)%string) whiteSpace.

(** The rest of [s] after the prefix [w], when [s] starts with [w]. *)
Fixpoint after (w s : string) : option string :=
  match w, s with
  | EmptyString, _ => Some s
  | String a w', String b s' => if Ascii.eqb a b then after w' s' else None
  | String _ _, EmptyString => None
  end.

(** The rest of [s] after a leading white space code point. *)
Definition afterWhiteSpace (s : string) : option string :=
  fold_right (fun w found =>
                match after w s with
                | Some r => Some r
                | None => found
                end)
             None whiteSpace.

(** Leading white space is dropped code point by code point; a string
    of [n] bytes starts with at most [n] of them. *)
Fixpoint trimStartWithin (n : nat) (s : string) : string :=
  match n with
  | O => s
  | S n' =>
      match afterWhiteSpace s with
      | Some r => trimStartWithin n' r
      | None => s
      end
  end.

Definition trimStart (s : string) : string :=
  trimStartWithin (String.length s) s.

(** Trailing white space is dropped from the right: a code point goes
    when all that followed it has gone and it is white space. *)
Fixpoint trimEnd (s : string) : string :=
  match s with
  | EmptyString => EmptyString
  | String c r =>
      let kept := String c (trimEnd r) in
      if isWhiteSpace kept then EmptyString else kept
  end.

(** [s.trim()] *)
Definition trim (s : string) : string := trimEnd (trimStart s).

Arguments isWhiteSpace : simpl never.
Arguments afterWhiteSpace : simpl never.
Arguments trim : simpl never.

(** Truthiness of a number: [0] is falsy ([NaN] is not an integer). *)
Definition truthyNumber (n : Z) : bool := negb (n =? 0).

(** Truthiness of a string: only the empty string is falsy. *)
Definition truthyString (s : string) : bool := negb (s =? "")%string.

(** Truthiness of an optional property: [undefined] is falsy. *)
Definition truthyOpt {A : Type} (truthy : A -> bool) (o : option A) : bool :=
  match o with
  | Some a => truthy a
  | None => false
  end.

(** [Math.round]: the nearest integer, a half going up.  Numbers that
    are not integers are rationals here: quotients and products are
    exact, the rounding of IEEE 754 doubles is not modelled. *)
Definition round (x : Q) : Z := Qfloor (x + (1 # 2))%Q.

(** ** Objects used as maps from strings to numbers

    An object created by [{}] and filled by assignments [o[k] = v]: its
    own properties, in the order of their creation.  The properties
    inherited from [Object.prototype] are not part of the model: it is
    meant for keys other than [objectPrototypeNames]. *)
Definition Obj : Type := list (string * Z).

Definition objectPrototypeNames : list string :=
  ["constructor"; "__defineGetter__"; "__defineSetter__"; "hasOwnProperty";
   "__lookupGetter__"; "__lookupSetter__"; "isPrototypeOf";
   "propertyIsEnumerable"; "toString"; "valueOf"; "__proto__";
   "toLocaleString"]%string.

Definition plainKey (k : string) : bool :=
  negb (existsb (String.eqb k) objectPrototypeNames).

(** [o[k]], [None] standing for [undefined]. *)
Fixpoint get (o : Obj) (k : string) : option Z :=
  match o with
  | [] => None
  | (k', v) :: rest => if (k' =? k)%string then Some v else get rest k
  end.

(** [o[k] = v]: an existing property keeps its place, a new one comes
    last. *)
Fixpoint set (o : Obj) (k : string) (v : Z) : Obj :=
  match o with
  | [] => [(k, v)]
  | (k', v') :: rest =>
      if (k' =? k)%string then (k', v) :: rest else (k', v') :: set rest k v
  end.

(** [x || 0] for a possibly undefined number [x]. *)
Definition orZero (x : option Z) : Z :=
  match x with
  | Some n => if truthyNumber n then n else 0
  | None => 0
  end.

Definition digit (c : ascii) : option N :=
  let n := N_of_ascii c in
  if ((48 <=? n) && (n <=? 57))%N then Some (n - 48)%N else None.

Fixpoint decimal (s : string) (acc : N) : option N :=
  match s with
  | EmptyString => Some acc
  | String c r =>
      match digit c with
      | Some d => decimal r (10 * acc + d)%N
      | None => None
      end
  end.

(** The array index a property key denotes, if any: the key is the
    canonical decimal form of an integer below [2^32 - 1]. *)
Definition arrayIndex (k : string) : option N :=
  match k with
  | EmptyString => None
  | String c r =>
      if (c =? "0")%char && negb (r =? "")%string then None
      else
        match decimal k 0 with
        | Some n => if (n <? 4294967295)%N then Some n else None
        | None => None
        end
  end.

Definition isArrayIndex (k : string) : bool :=
  match arrayIndex k with
  | Some _ => true
  | None => false
  end.

Definition indexOf (k : string) : N :=
  match arrayIndex k with
  | Some n => n
  | None => 0%N
  end.

Section Sorting.

Context {A : Type}.

(** Insertion that keeps a list ascending by [rank]; an element goes
    behind those of equal rank. *)
Fixpoint insertAscending (rank : A -> N) (x : A) (l : list A) : list A :=
  match l with
  | [] => [x]
  | y :: rest =>
      if (rank x <? rank y)%N then x :: y :: rest
      else y :: insertAscending rank x rest
  end.

Definition sortAscending (rank : A -> N) (l : list A) : list A :=
  fold_right (insertAscending rank) [] l.

(** Insertion that keeps a list descending by [score]; an element goes
    in front of those of equal score. *)
Fixpoint insertDescending (score : A -> Z) (x : A) (l : list A) : list A :=
  match l with
  | [] => [x]
  | y :: rest =>
      if score x <? score y then y :: insertDescending score x rest
      else x :: y :: rest
  end.

(** [l.sort((a, b) => score(b) - score(a))]: [Array.prototype.sort]
    is stable, so elements of equal score keep their order. *)
Definition sortDescending (score : A -> Z) (l : list A) : list A :=
  fold_right (insertDescending score) [] l.

End Sorting.

(** [Object.entries(o)]: the properties whose key is an array index
    first, by ascending index, then the others in creation order. *)
Definition entries (o : Obj) : list (string * Z) :=
  sortAscending (fun e => indexOf (fst e))
                (filter (fun e => isArrayIndex (fst e)) o)
  ++ filter (fun e => negb (isArrayIndex (fst e))) o.

End Js.

(* ================================================================== *)
(** * Data model ([prisma/schema.prisma]) *)
(* ================================================================== *)

(** [model Club]: table [clubs], [id] autoincremented primary key,
    [name] unique. *)
Module Club.
Record t : Type := mk { id : Z; name : string }.
End Club.

(** [model Player]: table [players]; [clubId] references [clubs(id)]
    with ON DELETE CASCADE. *)
Module Player.
Record t : Type := mk {
  id : Z;
  name : string;
  nationality : string;
  position : string;
  clubId : Z
}.
End Player.

(** [model Statistics]: table [statistics]; [playerId] is unique and
    references [players(id)] with ON DELETE CASCADE. *)
Module Statistics.
Record t : Type := mk {
  id : Z;
  overall : Z;
  pace : Z;
  shooting : Z;
  passing : Z;
  dribbling : Z;
  defending : Z;
  physical : Z;
  playerId : Z
}.
End Statistics.

(** The stored state: the rows of the three tables in rowid order and,
    for each table, the largest rowid ever handed out (SQLite keeps it in
    [sqlite_sequence] for AUTOINCREMENT columns). *)
Record Db : Type := mkDb {
  clubs : list Club.t;
  players : list Player.t;
  statistics : list Statistics.t;
  seqClubs : Z;
  seqPlayers : Z;
  seqStatistics : Z
}.

(** Query results with the relations the repositories ask for. *)

(** A player of a club, [include: { statistics: true }]. *)
Record PlayerWithStatistics : Type := mkPlayerWithStatistics {
  pwsPlayer : Player.t;
  pwsStatistics : option Statistics.t
}.

(** A club, [include: { players: { include: { statistics: true } } }]. *)
Record ClubWithRelations : Type := mkClubWithRelations {
  cwrClub : Club.t;
  cwrPlayers : list PlayerWithStatistics
}.

(** A player, [include: { club: true, statistics: true }]. *)
Record PlayerWithRelations : Type := mkPlayerWithRelations {
  pwrPlayer : Player.t;
  pwrClub : option Club.t;
  pwrStatistics : option Statistics.t
}.

(* ================================================================== *)
(** * Exceptions *)
(* ================================================================== *)

(** The messages of the [new Error(...)] values thrown by the services. *)
Inductive Message : Type :=
| ClubIdInvalid            (* 'ID do clube inválido' *)
| ClubNameInvalid          (* 'Nome do clube inválido' *)
| ClubNameRequired         (* 'Nome do clube é obrigatório' *)
| ClubNameExists           (* 'Já existe um clube com este nome' *)
| ClubNameEmpty            (* 'Nome do clube não pode estar vazio' *)
| ClubNotFound             (* 'Clube não encontrado' *)
| ClubHasPlayers           (* 'Não é possível remover um clube que possui jogadores' *)
| ClubFetchFailed          (* 'Falha ao buscar clube' *)
| ClubsFetchFailed         (* 'Falha ao buscar clubes' *)
| PlayerIdInvalid          (* 'ID do jogador inválido' *)
| PlayerNameRequired       (* 'Nome do jogador é obrigatório' *)
| PlayerNationalityRequired (* 'Nacionalidade do jogador é obrigatória' *)
| PlayerPositionRequired   (* 'Posição do jogador é obrigatória' *)
| PlayerClubIdRequired     (* 'ID do clube é obrigatório' *)
| StatisticsOutOfRange     (* 'As estatísticas devem estar entre 0 e 100' *)
| PlayerNameEmpty          (* 'Nome do jogador não pode estar vazio' *)
| PlayerNationalityEmpty   (* 'Nacionalidade do jogador não pode estar vazia' *)
| PlayerPositionEmpty      (* 'Posição do jogador não pode estar vazia' *)
| MinOverallOutOfRange     (* 'Overall mínimo deve estar entre 0 e 100' *)
| MaxOverallOutOfRange     (* 'Overall máximo deve estar entre 0 e 100' *)
| MinOverallAboveMax       (* 'Overall mínimo não pode ser maior que o máximo' *)
| PlayersFetchFailed       (* 'Falha ao buscar jogadores' *)
| PlayersStatisticsFailed. (* 'Falha ao obter estatísticas dos jogadores' *)

(** Error codes of [PrismaClientKnownRequestError]. *)
Inductive PrismaCode : Type :=
| P2002   (* unique constraint failed *)
| P2003   (* foreign key constraint failed *)
| P2025.  (* record required by the operation was not found *)

Inductive Exception : Type :=
| Error (m : Message)
| PrismaClientKnownRequestError (code : PrismaCode).

(** The error taxonomy by which the exceptions are read: malformed or
    out-of-constraint input (a bad identifier, a blank or out-of-range
    field, a broken reference) is a validation error, a missing record is
    not found, a uniqueness or dependency violation is a conflict, and a
    failure wrapped by a read operation is internal. *)
Inductive ErrorKind : Type :=
| ValidationError
| NotFound
| ConflictError
| InternalError.

Definition kind (e : Exception) : ErrorKind :=
  match e with
  | Error ClubNotFound => NotFound
  | Error ClubNameExists | Error ClubHasPlayers => ConflictError
  | Error ClubFetchFailed | Error ClubsFetchFailed
  | Error PlayersFetchFailed
  | Error PlayersStatisticsFailed => InternalError
  | Error _ => ValidationError
  | PrismaClientKnownRequestError P2002 => ConflictError
  | PrismaClientKnownRequestError P2003 => ValidationError
  | PrismaClientKnownRequestError P2025 => NotFound
  end.

(* ================================================================== *)
(** * The monad of database computations *)
(* ================================================================== *)

(** An [async] method either returns a value or throws; either way it
    leaves a database behind. *)
Inductive Outcome (A : Type) : Type :=
| Threw (e : Exception)
| Returned (a : A).
Arguments Threw {A} e.
Arguments Returned {A} a.

Definition M (A : Type) : Type := Db -> Outcome A * Db.

Definition ret {A : Type} (a : A) : M A := fun db => (Returned a, db).

Definition throw {A : Type} (e : Exception) : M A := fun db => (Threw e, db).

Definition bind {A B : Type} (m : M A) (k : A -> M B) : M B :=
  fun db =>
    match m db with
    | (Threw e, db') => (Threw e, db')
    | (Returned a, db') => k a db'
    end.

(** [try { m } catch (error) { h error }] *)
Definition tryCatch {A : Type} (m : M A) (h : Exception -> M A) : M A :=
  fun db =>
    match m db with
    | (Threw e, db') => h e db'
    | (Returned a, db') => (Returned a, db')
    end.

(** [if (c) throw e;] *)
Definition throwIf (c : bool) (e : Exception) : M unit :=
  if c then throw e else ret tt.

Declare Scope db_scope.
Delimit Scope db_scope with db.
Notation "x <- m ;; k" := (bind m (fun x => k))
  (at level 61, m at next level, right associativity) : db_scope.
Notation "m ;; k" := (bind m (fun _ => k))
  (at level 61, right associativity) : db_scope.
Local Open Scope db_scope.

(* ================================================================== *)
(** * The Prisma client over the SQLite schema *)
(* ================================================================== *)

Module Prisma.

(** The largest value of an [Int] column, a signed 64-bit integer.  No
    stored row has a larger identifier.  The client refuses a larger
    integer in a query by throwing before the storage is asked; the
    model does not include that refusal, so a statement about a look-up
    by identifier takes the identifier up to this bound. *)
Definition maxInt : Z := 9223372036854775807.

(** The rowid SQLite gives to a new row of an AUTOINCREMENT table: one
    more than the largest rowid that ever existed in the table. *)
Definition nextId (seq : Z) (ids : list Z) : Z :=
  Z.max seq (fold_right Z.max 0 ids) + 1.

Definition clubById (db : Db) (id : Z) : option Club.t :=
  find (fun c => Club.id c =? id) (clubs db).

Definition playerById (db : Db) (id : Z) : option Player.t :=
  find (fun p => Player.id p =? id) (players db).

(** The statistics row of a player (relation [Player.statistics]). *)
Definition statisticsOf (db : Db) (playerId : Z) : option Statistics.t :=
  find (fun s => Statistics.playerId s =? playerId) (statistics db).

Definition withStatistics (db : Db) (p : Player.t) : PlayerWithStatistics :=
  {| pwsPlayer := p; pwsStatistics := statisticsOf db (Player.id p) |}.

(** The players of a club (relation [Club.players]). *)
Definition playersOf (db : Db) (clubId : Z) : list PlayerWithStatistics :=
  map (withStatistics db)
      (filter (fun p => Player.clubId p =? clubId) (players db)).

Definition includePlayers (db : Db) (c : Club.t) : ClubWithRelations :=
  {| cwrClub := c; cwrPlayers := playersOf db (Club.id c) |}.

Definition includeClubStatistics (db : Db) (p : Player.t)
  : PlayerWithRelations :=
  {| pwrPlayer := p;
     pwrClub := clubById db (Player.clubId p);
     pwrStatistics := statisticsOf db (Player.id p) |}.

Arguments clubById : simpl never.
Arguments playerById : simpl never.
Arguments statisticsOf : simpl never.
Arguments playersOf : simpl never.

(** ** [prisma.club] *)

Module club.

Definition findMany : M (list ClubWithRelations) :=
  fun db => (Returned (map (includePlayers db) (clubs db)), db).

(** [findUnique({ where: { id } })] *)
Definition findUnique (id : Z) : M (option ClubWithRelations) :=
  fun db => (Returned (option_map (includePlayers db) (clubById db id)), db).

(** [findFirst({ where: { name } })] *)
Definition findFirst (name : string) : M (option ClubWithRelations) :=
  fun db =>
    (Returned
       (option_map (includePlayers db)
          (find (fun c => (Club.name c =? name)%string) (clubs db))),
     db).

(** [create({ data: { name } })]: the unique index [clubs_name_key]
    rejects a name already stored. *)
Definition create (name : string) : M ClubWithRelations :=
  fun db =>
    if existsb (fun c => (Club.name c =? name)%string) (clubs db)
    then (Threw (PrismaClientKnownRequestError P2002), db)
    else
      let id := nextId (seqClubs db) (map Club.id (clubs db)) in
      let c := Club.mk id name in
      let db' := {| clubs := clubs db ++ [c];
                    players := players db;
                    statistics := statistics db;
                    seqClubs := id;
                    seqPlayers := seqPlayers db;
                    seqStatistics := seqStatistics db |} in
      (Returned (includePlayers db' c), db').

Definition rename (id : Z) (name : string) (c : Club.t) : Club.t :=
  if Club.id c =? id then Club.mk (Club.id c) name else c.

(** [update({ where: { id }, data: { name } })]; an [undefined] name
    changes nothing. *)
Definition update (id : Z) (name : option string) : M ClubWithRelations :=
  fun db =>
    match clubById db id with
    | None => (Threw (PrismaClientKnownRequestError P2025), db)
    | Some c =>
        match name with
        | None => (Returned (includePlayers db c), db)
        | Some n =>
            if existsb
                 (fun c' => (Club.name c' =? n)%string
                            && negb (Club.id c' =? id))
                 (clubs db)
            then (Threw (PrismaClientKnownRequestError P2002), db)
            else
              let db' := {| clubs := map (rename id n) (clubs db);
                            players := players db;
                            statistics := statistics db;
                            seqClubs := seqClubs db;
                            seqPlayers := seqPlayers db;
                            seqStatistics := seqStatistics db |} in
              (Returned (includePlayers db' (rename id n c)), db')
        end
    end.

(** [delete({ where: { id } })]: the players of the club and their
    statistics go with it (ON DELETE CASCADE). *)
Definition delete (id : Z) : M unit :=
  fun db =>
    match clubById db id with
    | None => (Threw (PrismaClientKnownRequestError P2025), db)
    | Some _ =>
        let gone := filter (fun p => Player.clubId p =? id) (players db) in
        (Returned tt,
         {| clubs := filter (fun c => negb (Club.id c =? id)) (clubs db);
            players :=
              filter (fun p => negb (Player.clubId p =? id)) (players db);
            statistics :=
              filter
                (fun s =>
                   negb (existsb
                           (fun p => Player.id p =? Statistics.playerId s)
                           gone))
                (statistics db);
            seqClubs := seqClubs db;
            seqPlayers := seqPlayers db;
            seqStatistics := seqStatistics db |})
    end.

End club.

(** ** [prisma.player] *)

Module player.

(** [{ gte?, lte? }] on an integer column. *)
Record IntFilter : Type := mkIntFilter {
  gte : option Z;
  lte : option Z
}.

(** The [where] object built by [findWithFilters]; an absent property
    does not constrain.  [whereStatistics] stands for
    [statistics: { overall: {...} }]: the player has a statistics row
    and its [overall] is within the bounds. *)
Record Where : Type := mkWhere {
  whereClubId : option Z;
  wherePosition : option string;
  whereNationality : option string;
  whereStatistics : option IntFilter
}.

Definition noWhere : Where :=
  {| whereClubId := None; wherePosition := None;
     whereNationality := None; whereStatistics := None |}.

Definition optTest {A : Type} (o : option A) (test : A -> bool) : bool :=
  match o with
  | Some a => test a
  | None => true
  end.

Definition matchesInt (f : IntFilter) (v : Z) : bool :=
  optTest (gte f) (fun lo => lo <=? v)
  && optTest (lte f) (fun hi => v <=? hi).

Definition matches (db : Db) (w : Where) (p : Player.t) : bool :=
  optTest (whereClubId w) (fun c => Player.clubId p =? c)
  && optTest (wherePosition w) (fun s => (Player.position p =? s)%string)
  && optTest (whereNationality w)
             (fun s => (Player.nationality p =? s)%string)
  && optTest (whereStatistics w)
             (fun f =>
                match statisticsOf db (Player.id p) with
                | Some s => matchesInt f (Statistics.overall s)
                | None => false
                end).

(** [findMany({ where, include })] *)
Definition findMany (w : Where) : M (list PlayerWithRelations) :=
  fun db =>
    (Returned (map (includeClubStatistics db)
                   (filter (matches db w) (players db))),
     db).

(** [findUnique({ where: { id }, include })] *)
Definition findUnique (id : Z) : M (option PlayerWithRelations) :=
  fun db =>
    (Returned (option_map (includeClubStatistics db) (playerById db id)),
     db).

(** [create({ data: { name, nationality, position, clubId,
    statistics: { create } | undefined }, include })]: one nested
    write.  The foreign key rejects a [clubId] without a club; the
    unique index [statistics_playerId_key] guards the statistics
    row. *)
Definition create (name nationality position : string) (clubId : Z)
           (stats : option (Z * Z * Z * Z * Z * Z * Z))
  : M PlayerWithRelations :=
  fun db =>
    match clubById db clubId with
    | None => (Threw (PrismaClientKnownRequestError P2003), db)
    | Some _ =>
        let id := nextId (seqPlayers db) (map Player.id (players db)) in
        let p := Player.mk id name nationality position clubId in
        match stats with
        | None =>
            let db' := {| clubs := clubs db;
                          players := players db ++ [p];
                          statistics := statistics db;
                          seqClubs := seqClubs db;
                          seqPlayers := id;
                          seqStatistics := seqStatistics db |} in
            (Returned (includeClubStatistics db' p), db')
        | Some (ov, pa, sh, ps, dr, de, ph) =>
            if existsb (fun s => Statistics.playerId s =? id)
                       (statistics db)
            then (Threw (PrismaClientKnownRequestError P2002), db)
            else
              let sid := nextId (seqStatistics db)
                                (map Statistics.id (statistics db)) in
              let s := Statistics.mk sid ov pa sh ps dr de ph id in
              let db' := {| clubs := clubs db;
                            players := players db ++ [p];
                            statistics := statistics db ++ [s];
                            seqClubs := seqClubs db;
                            seqPlayers := id;
                            seqStatistics := sid |} in
              (Returned (includeClubStatistics db' p), db')
        end
    end.

Definition orKeep {A : Type} (o : option A) (old : A) : A :=
  match o with
  | Some a => a
  | None => old
  end.

Definition patch (name nationality position : option string)
           (clubId : option Z) (p : Player.t) : Player.t :=
  Player.mk (Player.id p)
            (orKeep name (Player.name p))
            (orKeep nationality (Player.nationality p))
            (orKeep position (Player.position p))
            (orKeep clubId (Player.clubId p)).

(** [update({ where: { id }, data, include })]; [undefined]
    properties of [data] change nothing. *)
Definition update (id : Z) (name nationality position : option string)
           (clubId : option Z) : M PlayerWithRelations :=
  fun db =>
    match playerById db id with
    | None => (Threw (PrismaClientKnownRequestError P2025), db)
    | Some p =>
        if optTest clubId
             (fun c => match clubById db c with
                       | Some _ => true
                       | None => false
                       end)
        then
          let change p' :=
            if Player.id p' =? id
            then patch name nationality position clubId p'
            else p' in
          let db' := {| clubs := clubs db;
                        players := map change (players db);
                        statistics := statistics db;
                        seqClubs := seqClubs db;
                        seqPlayers := seqPlayers db;
                        seqStatistics := seqStatistics db |} in
          (Returned (includeClubStatistics db' (change p)), db')
        else (Threw (PrismaClientKnownRequestError P2003), db)
    end.

(** [delete({ where: { id } })]: the statistics of the player go with
    it (ON DELETE CASCADE). *)
Definition delete (id : Z) : M unit :=
  fun db =>
    match playerById db id with
    | None => (Threw (PrismaClientKnownRequestError P2025), db)
    | Some _ =>
        (Returned tt,
         {| clubs := clubs db;
            players := filter (fun p => negb (Player.id p =? id))
                              (players db);
            statistics :=
              filter (fun s => negb (Statistics.playerId s =? id))
                     (statistics db);
            seqClubs := seqClubs db;
            seqPlayers := seqPlayers db;
            seqStatistics := seqStatistics db |})
    end.

End player.

(** ** [prisma.statistics] *)

Module statistics.

(** The [data] of an update: the seven scores, each optional. *)
Record Data : Type := mkData {
  overall : option Z;
  pace : option Z;
  shooting : option Z;
  passing : option Z;
  dribbling : option Z;
  defending : option Z;
  physical : option Z
}.

Definition patch (d : Data) (s : Statistics.t) : Statistics.t :=
  Statistics.mk (Statistics.id s)
                (player.orKeep (overall d) (Statistics.overall s))
                (player.orKeep (pace d) (Statistics.pace s))
                (player.orKeep (shooting d) (Statistics.shooting s))
                (player.orKeep (passing d) (Statistics.passing s))
                (player.orKeep (dribbling d) (Statistics.dribbling s))
                (player.orKeep (defending d) (Statistics.defending s))
                (player.orKeep (physical d) (Statistics.physical s))
                (Statistics.playerId s).

(** [update({ where: { playerId }, data })] *)
Definition update (playerId : Z) (d : Data) : M Statistics.t :=
  fun db =>
    match statisticsOf db playerId with
    | None => (Threw (PrismaClientKnownRequestError P2025), db)
    | Some s =>
        let change s' :=
          if Statistics.playerId s' =? playerId then patch d s' else s' in
        (Returned (change s),
         {| clubs := clubs db;
            players := players db;
            statistics := map change (statistics db);
            seqClubs := seqClubs db;
            seqPlayers := seqPlayers db;
            seqStatistics := seqStatistics db |})
    end.

End statistics.

End Prisma.

(* ================================================================== *)
(** * [src/repositories/clubs-repository.ts] *)
(* ================================================================== *)

Record CreateClubData : Type := mkCreateClubData { ccName : string }.

Record UpdateClubData : Type := mkUpdateClubData { ucName : option string }.

Module ClubsRepository.

Definition findAll : M (list ClubWithRelations) := Prisma.club.findMany.

Definition findById (id : Z) : M (option ClubWithRelations) :=
  Prisma.club.findUnique id.

Definition findByName (name : string) : M (option ClubWithRelations) :=
  Prisma.club.findFirst name.

Definition create (data : CreateClubData) : M ClubWithRelations :=
  Prisma.club.create (ccName data).

(** Any exception of the client is logged and turned into [null]. *)
Definition update (id : Z) (data : UpdateClubData)
  : M (option ClubWithRelations) :=
  tryCatch (c <- Prisma.club.update id (ucName data) ;; ret (Some c))
           (fun _ => ret None).

(** Any exception of the client is logged and turned into [false]. *)
Definition delete (id : Z) : M bool :=
  tryCatch (Prisma.club.delete id ;; ret true) (fun _ => ret false).

End ClubsRepository.

(* ================================================================== *)
(** * [src/services/clubs-service.ts] *)
(* ================================================================== *)

Module ClubsService.

(** [!id || id <= 0] *)
Definition invalidId (id : Z) : bool :=
  negb (Js.truthyNumber id) || (id <=? 0).

(** [!name || name.trim() === ''] *)
Definition blank (name : string) : bool :=
  negb (Js.truthyString name) || (Js.trim name =? "")%string.

Definition getAllClubs : M (list ClubWithRelations) :=
  tryCatch ClubsRepository.findAll
           (fun _ => throw (Error ClubsFetchFailed)).

Definition getClubById (id : Z) : M (option ClubWithRelations) :=
  tryCatch
    (throwIf (invalidId id) (Error ClubIdInvalid) ;;
     ClubsRepository.findById id)
    (fun _ => throw (Error ClubFetchFailed)).

Definition getClubByName (name : string) : M (option ClubWithRelations) :=
  tryCatch
    (throwIf (blank name) (Error ClubNameInvalid) ;;
     ClubsRepository.findByName (Js.trim name))
    (fun _ => throw (Error ClubFetchFailed)).

Definition createClub (data : CreateClubData) : M ClubWithRelations :=
  tryCatch
    (throwIf (blank (ccName data)) (Error ClubNameRequired) ;;
     existingClub <- ClubsRepository.findByName (Js.trim (ccName data)) ;;
     throwIf (match existingClub with Some _ => true | None => false end)
             (Error ClubNameExists) ;;
     ClubsRepository.create {| ccName := Js.trim (ccName data) |})
    (fun error => throw error).

Definition updateClub (id : Z) (data : UpdateClubData)
  : M (option ClubWithRelations) :=
  tryCatch
    (throwIf (invalidId id) (Error ClubIdInvalid) ;;
     throwIf (match ucName data with
              | Some n => (Js.trim n =? "")%string
              | None => false
              end)
             (Error ClubNameEmpty) ;;
     existing <- ClubsRepository.findById id ;;
     match existing with
     | None => throw (Error ClubNotFound)
     | Some existingClub =>
         match ucName data with
         | Some n =>
             if Js.truthyString n
                && negb (n =? Club.name (cwrClub existingClub))%string
             then
               clubWithSameName <- ClubsRepository.findByName (Js.trim n) ;;
               throwIf (match clubWithSameName with
                        | Some _ => true
                        | None => false
                        end)
                       (Error ClubNameExists)
             else ret tt
         | None => ret tt
         end ;;
         ClubsRepository.update id
           {| ucName := option_map Js.trim (ucName data) |}
     end)
    (fun error => throw error).

Definition deleteClub (id : Z) : M bool :=
  tryCatch
    (throwIf (invalidId id) (Error ClubIdInvalid) ;;
     existing <- ClubsRepository.findById id ;;
     match existing with
     | None => throw (Error ClubNotFound)
     | Some existingClub =>
         throwIf (0 <? Z.of_nat (List.length (cwrPlayers existingClub)))
                 (Error ClubHasPlayers) ;;
         ClubsRepository.delete id
     end)
    (fun error => throw error).

(** The result of [getClubsStatistics]. *)
Record ClubsStatistics : Type := mkClubsStatistics {
  totalClubs : Z;
  clubsWithPlayers : Z;
  averagePlayersPerClub : Q
}.

(** [getClubsStatistics].  [failure] stands for the error of its catch
    clause, [new Error('Falha ao obter estatísticas dos clubes')]. *)
Definition getClubsStatistics (failure : Exception) : M ClubsStatistics :=
  tryCatch
    (clubs <- ClubsRepository.findAll ;;
     let totalClubs := Z.of_nat (List.length clubs) in
     let clubsWithPlayers :=
       Z.of_nat
         (List.length
            (filter (fun club => 0 <? Z.of_nat (List.length (cwrPlayers club)))
                    clubs)) in
     let totalPlayers :=
       fold_left (fun sum club => sum + Z.of_nat (List.length (cwrPlayers club)))
                 clubs 0 in
     let averagePlayersPerClub : Q :=
       if 0 <? totalClubs
       then (inject_Z totalPlayers / inject_Z totalClubs)%Q
       else 0%Q in
     ret {| totalClubs := totalClubs;
            clubsWithPlayers := clubsWithPlayers;
            averagePlayersPerClub :=
              (inject_Z (Js.round (averagePlayersPerClub * 100)) / 100)%Q |})
    (fun _ => throw failure).

End ClubsService.

(* ================================================================== *)
(** * The players repository *)
(* ================================================================== *)

Record CreateStatisticsData : Type := mkCreateStatisticsData {
  csOverall : Z;
  csPace : Z;
  csShooting : Z;
  csPassing : Z;
  csDribbling : Z;
  csDefending : Z;
  csPhysical : Z
}.

Record CreatePlayerData : Type := mkCreatePlayerData {
  cpName : string;
  cpNationality : string;
  cpPosition : string;
  cpClubId : Z;
  cpStatistics : option CreateStatisticsData
}.

Record UpdatePlayerData : Type := mkUpdatePlayerData {
  upName : option string;
  upNationality : option string;
  upPosition : option string;
  upClubId : option Z
}.

(** [UpdateStatisticsData]: the seven optional scores. *)
Definition UpdateStatisticsData : Type := Prisma.statistics.Data.

(** The argument of [findWithFilters]. *)
Record Filters : Type := mkFilters {
  fClubId : option Z;
  fPosition : option string;
  fNationality : option string;
  fMinOverall : option Z;
  fMaxOverall : option Z
}.

Module PlayersRepository.

Definition findAll : M (list PlayerWithRelations) :=
  Prisma.player.findMany Prisma.player.noWhere.

Definition findById (id : Z) : M (option PlayerWithRelations) :=
  Prisma.player.findUnique id.

Definition findByClub (clubId : Z) : M (list PlayerWithRelations) :=
  Prisma.player.findMany
    {| Prisma.player.whereClubId := Some clubId;
       Prisma.player.wherePosition := None;
       Prisma.player.whereNationality := None;
       Prisma.player.whereStatistics := None |}.

Definition findByPosition (position : string)
  : M (list PlayerWithRelations) :=
  Prisma.player.findMany
    {| Prisma.player.whereClubId := None;
       Prisma.player.wherePosition := Some position;
       Prisma.player.whereNationality := None;
       Prisma.player.whereStatistics := None |}.

Definition findByNationality (nationality : string)
  : M (list PlayerWithRelations) :=
  Prisma.player.findMany
    {| Prisma.player.whereClubId := None;
       Prisma.player.wherePosition := None;
       Prisma.player.whereNationality := Some nationality;
       Prisma.player.whereStatistics := None |}.

(** [const { statistics, ...playerData } = data] and the nested
    [statistics: statistics ? { create: statistics } : undefined]. *)
Definition create (data : CreatePlayerData) : M PlayerWithRelations :=
  Prisma.player.create
    (cpName data) (cpNationality data) (cpPosition data) (cpClubId data)
    (option_map
       (fun st => (csOverall st, csPace st, csShooting st, csPassing st,
                   csDribbling st, csDefending st, csPhysical st))
       (cpStatistics data)).

(** Any exception of the client is logged and turned into [null]. *)
Definition update (id : Z) (data : UpdatePlayerData)
  : M (option PlayerWithRelations) :=
  tryCatch
    (p <- Prisma.player.update id (upName data) (upNationality data)
            (upPosition data) (upClubId data) ;;
     ret (Some p))
    (fun _ => ret None).

(** Any exception of the client is logged and turned into [null]. *)
Definition updateStatistics (playerId : Z) (data : UpdateStatisticsData)
  : M (option Statistics.t) :=
  tryCatch (s <- Prisma.statistics.update playerId data ;; ret (Some s))
           (fun _ => ret None).

(** Any exception of the client is logged and turned into [false]. *)
Definition delete (id : Z) : M bool :=
  tryCatch (Prisma.player.delete id ;; ret true) (fun _ => ret false).

(** [if (filters.x) where.x = filters.x]: a property is copied when it
    is truthy. *)
Definition whenTruthy {A : Type} (truthy : A -> bool) (o : option A)
  : option A :=
  if Js.truthyOpt truthy o then o else None.

Definition findWithFilters (filters : Filters)
  : M (list PlayerWithRelations) :=
  let where_ :=
    {| Prisma.player.whereClubId :=
         whenTruthy Js.truthyNumber (fClubId filters);
       Prisma.player.wherePosition :=
         whenTruthy Js.truthyString (fPosition filters);
       Prisma.player.whereNationality :=
         whenTruthy Js.truthyString (fNationality filters);
       Prisma.player.whereStatistics :=
         if Js.truthyOpt Js.truthyNumber (fMinOverall filters)
            || Js.truthyOpt Js.truthyNumber (fMaxOverall filters)
         then Some {| Prisma.player.gte :=
                        whenTruthy Js.truthyNumber (fMinOverall filters);
                      Prisma.player.lte :=
                        whenTruthy Js.truthyNumber (fMaxOverall filters) |}
         else None |} in
  Prisma.player.findMany where_.

End PlayersRepository.

(* ================================================================== *)
(** * [src/services/players-service.ts] *)
(* ================================================================== *)

Module PlayersService.

(** [!id || id <= 0] *)
Definition invalidId (id : Z) : bool :=
  negb (Js.truthyNumber id) || (id <=? 0).

(** [!s || s.trim() === ''] *)
Definition blank (s : string) : bool :=
  negb (Js.truthyString s) || (Js.trim s =? "")%string.

(** [s !== undefined && s.trim() === ''] *)
Definition suppliedBlank (o : option string) : bool :=
  match o with
  | Some s => (Js.trim s =? "")%string
  | None => false
  end.

(** [const validRange = (value) => value >= 0 && value <= 100] *)
Definition validRange (value : Z) : bool := (value >=? 0) && (value <=? 100).

Definition getAllPlayers : M (list PlayerWithRelations) :=
  tryCatch PlayersRepository.findAll
           (fun _ => throw (Error PlayersFetchFailed)).

Definition createPlayer (data : CreatePlayerData) : M PlayerWithRelations :=
  tryCatch
    (throwIf (blank (cpName data)) (Error PlayerNameRequired) ;;
     throwIf (blank (cpNationality data)) (Error PlayerNationalityRequired) ;;
     throwIf (blank (cpPosition data)) (Error PlayerPositionRequired) ;;
     throwIf (invalidId (cpClubId data)) (Error PlayerClubIdRequired) ;;
     match cpStatistics data with
     | Some stats =>
         throwIf (negb (validRange (csOverall stats))
                  || negb (validRange (csPace stats))
                  || negb (validRange (csShooting stats))
                  || negb (validRange (csPassing stats))
                  || negb (validRange (csDribbling stats))
                  || negb (validRange (csDefending stats))
                  || negb (validRange (csPhysical stats)))
                 (Error StatisticsOutOfRange)
     | None => ret tt
     end ;;
     PlayersRepository.create
       {| cpName := Js.trim (cpName data);
          cpNationality := Js.trim (cpNationality data);
          cpPosition := Js.trim (cpPosition data);
          cpClubId := cpClubId data;
          cpStatistics := cpStatistics data |})
    (fun error => throw error).

Definition updatePlayer (id : Z) (data : UpdatePlayerData)
  : M (option PlayerWithRelations) :=
  tryCatch
    (throwIf (invalidId id) (Error PlayerIdInvalid) ;;
     throwIf (suppliedBlank (upName data)) (Error PlayerNameEmpty) ;;
     throwIf (suppliedBlank (upNationality data))
             (Error PlayerNationalityEmpty) ;;
     throwIf (suppliedBlank (upPosition data)) (Error PlayerPositionEmpty) ;;
     PlayersRepository.update id
       {| upName := option_map Js.trim (upName data);
          upNationality := option_map Js.trim (upNationality data);
          upPosition := option_map Js.trim (upPosition data);
          upClubId := upClubId data |})
    (fun error => throw error).

(** [Object.values(data).filter(val => val !== undefined)] *)
Definition statsToValidate (data : UpdateStatisticsData) : list Z :=
  List.concat
    (map (fun o : option Z => match o with Some v => [v] | None => [] end)
         [Prisma.statistics.overall data; Prisma.statistics.pace data;
          Prisma.statistics.shooting data; Prisma.statistics.passing data;
          Prisma.statistics.dribbling data; Prisma.statistics.defending data;
          Prisma.statistics.physical data]).

(** [for (const value of values) if (!validRange(value)) throw ...] *)
Fixpoint validateEach (values : list Z) : M unit :=
  match values with
  | [] => ret tt
  | value :: rest =>
      throwIf (negb (validRange value)) (Error StatisticsOutOfRange) ;;
      validateEach rest
  end.

Arguments statsToValidate : simpl never.
Arguments validateEach : simpl never.

Definition updatePlayerStatistics (playerId : Z)
           (data : UpdateStatisticsData) : M bool :=
  tryCatch
    (throwIf (invalidId playerId) (Error PlayerIdInvalid) ;;
     validateEach (statsToValidate data) ;;
     result <- PlayersRepository.updateStatistics playerId data ;;
     ret (match result with Some _ => true | None => false end))
    (fun error => throw error).

Definition deletePlayer (id : Z) : M bool :=
  tryCatch
    (throwIf (invalidId id) (Error PlayerIdInvalid) ;;
     PlayersRepository.delete id)
    (fun error => throw error).

(** [o !== undefined && test(o)] *)
Definition supplied {A : Type} (o : option A) (test : A -> bool) : bool :=
  match o with
  | Some a => test a
  | None => false
  end.

(** The result of [getPlayersStatistics]; an element of a top list is
    [{ position, count }] or [{ nationality, count }]. *)
Record PlayersStatistics : Type := mkPlayersStatistics {
  totalPlayers : Z;
  averageOverall : Q;
  topPositions : list (string * Z);
  topNationalities : list (string * Z)
}.

(** [player.statistics?.overall || 0] *)
Definition overallOrZero (player : PlayerWithRelations) : Z :=
  Js.orZero (option_map Statistics.overall (pwrStatistics player)).

(** [players.reduce((acc, player) => { acc[key] = (acc[key] || 0) + 1;
    return acc; }, {})] *)
Definition countBy (key : PlayerWithRelations -> string)
           (players : list PlayerWithRelations) : Js.Obj :=
  fold_left
    (fun acc player =>
       Js.set acc (key player) (Js.orZero (Js.get acc (key player)) + 1))
    players [].

(** [Object.entries(count).map(...).sort((a, b) => b.count - a.count)
    .slice(0, 5)] *)
Definition top5 (count : Js.Obj) : list (string * Z) :=
  firstn 5 (Js.sortDescending snd (Js.entries count)).

Definition getPlayersStatistics : M PlayersStatistics :=
  tryCatch
    (players <- PlayersRepository.findAll ;;
     let totalPlayers := Z.of_nat (List.length players) in
     let playersWithStats :=
       filter (fun player => match pwrStatistics player with
                             | Some _ => true
                             | None => false
                             end)
              players in
     let averageOverall : Q :=
       if 0 <? Z.of_nat (List.length playersWithStats)
       then
         let total :=
           fold_left (fun sum player => sum + overallOrZero player)
                     playersWithStats 0 in
         (inject_Z total
          / inject_Z (Z.of_nat (List.length playersWithStats)))%Q
       else 0%Q in
     let positionCount :=
       countBy (fun player => Player.position (pwrPlayer player)) players in
     let topPositions := top5 positionCount in
     let nationalityCount :=
       countBy (fun player => Player.nationality (pwrPlayer player))
               players in
     let topNationalities := top5 nationalityCount in
     ret {| totalPlayers := totalPlayers;
            averageOverall :=
              (inject_Z (Js.round (averageOverall * 100)) / 100)%Q;
            topPositions := topPositions;
            topNationalities := topNationalities |})
    (fun _ => throw (Error PlayersStatisticsFailed)).

Definition getPlayersWithFilters (filters : Filters)
  : M (list PlayerWithRelations) :=
  tryCatch
    (throwIf (supplied (fClubId filters) (fun c => c <=? 0))
             (Error ClubIdInvalid) ;;
     throwIf (supplied (fMinOverall filters)
                       (fun v => (v <? 0) || (v >? 100)))
             (Error MinOverallOutOfRange) ;;
     throwIf (supplied (fMaxOverall filters)
                       (fun v => (v <? 0) || (v >? 100)))
             (Error MaxOverallOutOfRange) ;;
     throwIf (supplied (fMinOverall filters)
                       (fun lo => supplied (fMaxOverall filters)
                                           (fun hi => lo >? hi)))
             (Error MinOverallAboveMax) ;;
     PlayersRepository.findWithFilters filters)
    (fun error => throw error).

(** The read operations below wrap every failure in an error of their
    own.  [failure] stands for the error of the catch clause and [invalid]
    for the error thrown on a blank argument, where the messages are
    ['Falha ao buscar jogador'], ['Falha ao buscar jogadores do clube'],
    ['Falha ao buscar jogadores da posição'] with ['Posição do jogador
    inválida'], and ['Falha ao buscar jogadores da nacionalidade'] with
    ['Nacionalidade do jogador inválida']. *)

Definition getPlayerById (failure : Exception) (id : Z)
  : M (option PlayerWithRelations) :=
  tryCatch
    (throwIf (invalidId id) (Error PlayerIdInvalid) ;;
     PlayersRepository.findById id)
    (fun _ => throw failure).

Definition getPlayersByClub (failure : Exception) (clubId : Z)
  : M (list PlayerWithRelations) :=
  tryCatch
    (throwIf (invalidId clubId) (Error ClubIdInvalid) ;;
     PlayersRepository.findByClub clubId)
    (fun _ => throw failure).

Definition getPlayersByPosition (invalid failure : Exception)
           (position : string) : M (list PlayerWithRelations) :=
  tryCatch
    (throwIf (blank position) invalid ;;
     PlayersRepository.findByPosition (Js.trim position))
    (fun _ => throw failure).

Definition getPlayersByNationality (invalid failure : Exception)
           (nationality : string) : M (list PlayerWithRelations) :=
  tryCatch
    (throwIf (blank nationality) invalid ;;
     PlayersRepository.findByNationality (Js.trim nationality))
    (fun _ => throw failure).

End PlayersService.

(* ================================================================== *)
(** * Predicates on the stored state *)
(* ================================================================== *)

(** A club with identifier [id] is stored. *)
Definition clubExists (db : Db) (id : Z) : Prop :=
  exists c, In c (clubs db) /\ Club.id c = id.

(** Some stored player belongs to the club [id]. *)
Definition ownsPlayers (db : Db) (id : Z) : Prop :=
  exists p, In p (players db) /\ Player.clubId p = id.

(** Some stored club is called [n]. *)
Definition nameTaken (db : Db) (n : string) : Prop :=
  exists c, In c (clubs db) /\ Club.name c = n.

(** The foreign key [players_clubId_fkey]: every player row refers to a
    stored club. *)
Definition playersReferToClubs (db : Db) : Prop :=
  forall p, In p (players db) -> clubExists db (Player.clubId p).

(** What a run of [updateClub] leaves untouched. *)
Definition clubFrame (id : Z) (db db' : Db) : Prop :=
  players db' = players db
  /\ statistics db' = statistics db
  /\ Forall2 (fun old new =>
                Club.id new = Club.id old
                /\ (Club.id old <> id -> new = old))
             (clubs db) (clubs db').

(** A score [v] is supplied by a partial statistics update. *)
Definition suppliedScore (data : UpdateStatisticsData) (v : Z) : Prop :=
  Prisma.statistics.overall data = Some v
  \/ Prisma.statistics.pace data = Some v
  \/ Prisma.statistics.shooting data = Some v
  \/ Prisma.statistics.passing data = Some v
  \/ Prisma.statistics.dribbling data = Some v
  \/ Prisma.statistics.defending data = Some v
  \/ Prisma.statistics.physical data = Some v.

(** The player [playerId] has a statistics row. *)
Definition hasStatistics (db : Db) (playerId : Z) : Prop :=
  exists s, In s (statistics db) /\ Statistics.playerId s = playerId.

(** A field after a partial update: the supplied value, or the old one. *)
Definition setOrKept (o : option Z) (old new : Z) : Prop :=
  match o with
  | Some v => new = v
  | None => new = old
  end.

(** A statistics row after a partial update of its scores. *)
Definition rowUpdated (data : UpdateStatisticsData) (old new : Statistics.t)
  : Prop :=
  Statistics.id new = Statistics.id old
  /\ Statistics.playerId new = Statistics.playerId old
  /\ setOrKept (Prisma.statistics.overall data)
               (Statistics.overall old) (Statistics.overall new)
  /\ setOrKept (Prisma.statistics.pace data)
               (Statistics.pace old) (Statistics.pace new)
  /\ setOrKept (Prisma.statistics.shooting data)
               (Statistics.shooting old) (Statistics.shooting new)
  /\ setOrKept (Prisma.statistics.passing data)
               (Statistics.passing old) (Statistics.passing new)
  /\ setOrKept (Prisma.statistics.dribbling data)
               (Statistics.dribbling old) (Statistics.dribbling new)
  /\ setOrKept (Prisma.statistics.defending data)
               (Statistics.defending old) (Statistics.defending new)
  /\ setOrKept (Prisma.statistics.physical data)
               (Statistics.physical old) (Statistics.physical new).

(** The partial update that supplies no score. *)
Definition noScores : UpdateStatisticsData :=
  {| Prisma.statistics.overall := None;
     Prisma.statistics.pace := None;
     Prisma.statistics.shooting := None;
     Prisma.statistics.passing := None;
     Prisma.statistics.dribbling := None;
     Prisma.statistics.defending := None;
     Prisma.statistics.physical := None |}.

(** The filter of [listPlayersWithFilters] as the requirement words it:
    every supplied criterion holds; club, position and nationality by
    exact match, the overall score within the supplied bounds. *)
Module Required.

Definition satisfies (db : Db) (filters : Filters) (p : Player.t) : bool :=
  match fClubId filters with
  | Some c => Player.clubId p =? c
  | None => true
  end
  && match fPosition filters with
     | Some s => (Player.position p =? s)%string
     | None => true
     end
  && match fNationality filters with
     | Some s => (Player.nationality p =? s)%string
     | None => true
     end
  && match fMinOverall filters with
     | Some lo =>
         match Prisma.statisticsOf db (Player.id p) with
         | Some s => lo <=? Statistics.overall s
         | None => false
         end
     | None => true
     end
  && match fMaxOverall filters with
     | Some hi =>
         match Prisma.statisticsOf db (Player.id p) with
         | Some s => Statistics.overall s <=? hi
         | None => false
         end
     | None => true
     end.

(** The distinct values of a list, in the order of their first
    occurrence. *)
Fixpoint firstOccurrences (l : list string) : list string :=
  match l with
  | [] => []
  | v :: rest => v :: remove string_dec v (firstOccurrences rest)
  end.

(** How often a value occurs. *)
Definition occurrences (l : list string) (v : string) : Z :=
  Z.of_nat (count_occ string_dec l v).

(** The distinct values with their counts, in first-encounter order. *)
Definition grouped (l : list string) : list (string * Z) :=
  map (fun v => (v, occurrences l v)) (firstOccurrences l).

(** [top] holds the five most frequent of [groups]: the first five of
    an arrangement of [groups] by descending count in which groups of
    equal count keep the order they have in [groups]. *)
Definition isTop5 (groups top : list (string * Z)) : Prop :=
  exists sorted,
    top = firstn 5 sorted
    /\ Permutation sorted groups
    /\ StronglySorted (fun a b => snd a >= snd b) sorted
    /\ forall c, filter (fun e => snd e =? c) sorted
                 = filter (fun e => snd e =? c) groups.

(** The overall scores of the players that have statistics. *)
Definition overalls (db : Db) : list Z :=
  flat_map (fun p => match Prisma.statisticsOf db (Player.id p) with
                     | Some s => [Statistics.overall s]
                     | None => []
                     end)
           (players db).

(** [r] is the mean of [scores] rounded to two decimal places: a
    multiple of 1/100 at most 1/200 away from the mean. *)
Definition isRoundedMean (scores : list Z) (r : Q) : Prop :=
  let total := fold_right Z.add 0 scores in
  let mean :=
    (inject_Z total / inject_Z (Z.of_nat (List.length scores)))%Q in
  (exists k : Z, r == k # 100)%Q
  /\ (mean - (1 # 200) <= r)%Q
  /\ (r <= mean + (1 # 200))%Q.

End Required.

(** The order in which the keys of a counting object are enumerated: the
    distinct values that are array indices by ascending index, then the
    other distinct values in first-encounter order. *)
Definition keyOrder (l : list string) : list string :=
  Js.sortAscending Js.indexOf
                   (filter Js.isArrayIndex (Required.firstOccurrences l))
  ++ filter (fun v => negb (Js.isArrayIndex v)) (Required.firstOccurrences l).

(** The distinct values with their counts, in key order. *)
Definition groupedInKeyOrder (l : list string) : list (string * Z) :=
  map (fun v => (v, Required.occurrences l v)) (keyOrder l).

(** No position or nationality is the name of a member of
    [Object.prototype]. *)
Definition plainKeys (db : Db) : Prop :=
  forall p, In p (players db) ->
            Js.plainKey (Player.position p) = true
            /\ Js.plainKey (Player.nationality p) = true.

(** [player => player.statistics] as a test. *)
Definition hasStats (player : PlayerWithRelations) : bool :=
  match pwrStatistics player with
  | Some _ => true
  | None => false
  end.

(** The counting of [countBy] on the keys alone. *)
Definition countKeys (keys : list string) : Js.Obj :=
  fold_left (fun acc k => Js.set acc k (Js.orZero (Js.get acc k) + 1)) keys [].


(** Filters that pass the validation of [getPlayersWithFilters]. *)
Definition validFilters (filters : Filters) : Prop :=
  (forall c, fClubId filters = Some c -> 0 < c)
  /\ (forall lo, fMinOverall filters = Some lo -> 0 <= lo <= 100)
  /\ (forall hi, fMaxOverall filters = Some hi -> 0 <= hi <= 100)
  /\ (forall lo hi, fMinOverall filters = Some lo ->
                    fMaxOverall filters = Some hi -> lo <= hi).

(** Filters none of whose supplied values is falsy in JavaScript: no empty
    string and no zero bound. *)
Definition truthyFilters (filters : Filters) : Prop :=
  fPosition filters <> Some ""%string
  /\ fNationality filters <> Some ""%string
  /\ fMinOverall filters <> Some 0
  /\ fMaxOverall filters <> Some 0.

Definition noFilters : Filters :=
  {| fClubId := None; fPosition := None; fNationality := None;
     fMinOverall := None; fMaxOverall := None |}.

(** A computation keeps the property [P] of the state. *)
Definition preserves {A : Type} (P : Db -> Prop) (m : M A) : Prop :=
  forall db r db', m db = (r, db') -> P db -> P db'.

(** The state after the migration, before any row is stored. *)
Definition emptyDb : Db :=
  {| clubs := []; players := []; statistics := [];
     seqClubs := 0; seqPlayers := 0; seqStatistics := 0 |}.

(** A string that does not start with white space. *)
Definition headOk (s : string) : bool :=
  match Js.afterWhiteSpace s with
  | Some _ => false
  | None => true
  end.

(* ================================================================== *)
(** * Invariants of the stored state *)
(* ================================================================== *)

(** The foreign key [statistics_playerId_fkey]: every statistics row
    belongs to a stored player. *)
Definition statisticsReferToPlayers (db : Db) : Prop :=
  forall s, In s (statistics db) ->
            exists p, In p (players db) /\ Player.id p = Statistics.playerId s.

(** What the schema promises of a state: primary keys, the unique indexes
    [clubs_name_key] and [statistics_playerId_key], and the two foreign
    keys. *)
Record Consistent (db : Db) : Prop := mkConsistent {
  uniqueClubIds : NoDup (map Club.id (clubs db));
  uniqueClubNames : NoDup (map Club.name (clubs db));
  uniquePlayerIds : NoDup (map Player.id (players db));
  uniqueStatisticsIds : NoDup (map Statistics.id (statistics db));
  uniqueOwners : NoDup (map Statistics.playerId (statistics db));
  clubsOfPlayers : playersReferToClubs db;
  playersOfStatistics : statisticsReferToPlayers db
}.

(** A stored string as the services leave it: trimmed and not empty. *)
Definition trimmed (s : string) : Prop := Js.trim s = s /\ s <> ""%string.

(** A score within the bounds the services accept. *)
Definition inRange (v : Z) : Prop := 0 <= v <= 100.

Definition scoresInRange (s : Statistics.t) : Prop :=
  inRange (Statistics.overall s) /\ inRange (Statistics.pace s)
  /\ inRange (Statistics.shooting s) /\ inRange (Statistics.passing s)
  /\ inRange (Statistics.dribbling s) /\ inRange (Statistics.defending s)
  /\ inRange (Statistics.physical s).

(** What the validation of the services promises of a state. *)
Record Tidy (db : Db) : Prop := mkTidy {
  tidyClubs : forall c, In c (clubs db) -> trimmed (Club.name c);
  tidyPlayers :
    forall p, In p (players db) ->
              trimmed (Player.name p) /\ trimmed (Player.nationality p)
              /\ trimmed (Player.position p);
  tidyStatistics : forall s, In s (statistics db) -> scoresInRange s;
  positiveClubIds : forall c, In c (clubs db) -> 0 < Club.id c;
  positivePlayerIds : forall p, In p (players db) -> 0 < Player.id p;
  positiveStatisticsIds :
    forall s, In s (statistics db) ->
              0 < Statistics.id s /\ 0 < Statistics.playerId s
}.

(** A call of one of the services that write. *)
Inductive Call : Type :=
| CreateClub (data : CreateClubData)
| UpdateClub (id : Z) (data : UpdateClubData)
| DeleteClub (id : Z)
| CreatePlayer (data : CreatePlayerData)
| UpdatePlayer (id : Z) (data : UpdatePlayerData)
| UpdatePlayerStatistics (playerId : Z) (data : UpdateStatisticsData)
| DeletePlayer (id : Z).

(** The state a call leaves behind, whether it returns or throws. *)
Definition perform (db : Db) (call : Call) : Db :=
  match call with
  | CreateClub data => snd (ClubsService.createClub data db)
  | UpdateClub id data => snd (ClubsService.updateClub id data db)
  | DeleteClub id => snd (ClubsService.deleteClub id db)
  | CreatePlayer data => snd (PlayersService.createPlayer data db)
  | UpdatePlayer id data => snd (PlayersService.updatePlayer id data db)
  | UpdatePlayerStatistics playerId data =>
      snd (PlayersService.updatePlayerStatistics playerId data db)
  | DeletePlayer id => snd (PlayersService.deletePlayer id db)
  end.

(** The state after a sequence of calls. *)
Definition performAll (db : Db) (calls : list Call) : Db :=
  fold_left perform calls db.

(* ================================================================== *)
(** * Notions for the statements about reads and failed calls *)
(* ================================================================== *)

(** The number of stored players that refer to each club, club by club. *)
Definition playersPerClub (db : Db) : list Z :=
  map (fun c =>
         Z.of_nat
           (List.length
              (filter (fun p => Player.clubId p =? Club.id c) (players db))))
      (clubs db).

(** The seven scores of a statistics row. *)
Definition scoresOf (s : Statistics.t) : CreateStatisticsData :=
  {| csOverall := Statistics.overall s;
     csPace := Statistics.pace s;
     csShooting := Statistics.shooting s;
     csPassing := Statistics.passing s;
     csDribbling := Statistics.dribbling s;
     csDefending := Statistics.defending s;
     csPhysical := Statistics.physical s |}.

(** What a run of [updatePlayer] leaves untouched. *)
Definition playerFrame (id : Z) (db db' : Db) : Prop :=
  clubs db' = clubs db
  /\ statistics db' = statistics db
  /\ Forall2 (fun p p' => Player.id p' = Player.id p
                          /\ (Player.id p <> id -> p' = p))
             (players db) (players db').

(** Only the position is supplied. *)
Definition positionFilter (position : string) : Filters :=
  {| fClubId := None; fPosition := Some position; fNationality := None;
     fMinOverall := None; fMaxOverall := None |}.

(** Only the nationality is supplied. *)
Definition nationalityFilter (nationality : string) : Filters :=
  {| fClubId := None; fPosition := None; fNationality := Some nationality;
     fMinOverall := None; fMaxOverall := None |}.

(** A computation that never changes the state. *)
Definition readonly {A : Type} (m : M A) : Prop :=
  forall db r db', m db = (r, db') -> db' = db.

(** A computation that changes nothing when it throws. *)
Definition atomic {A : Type} (m : M A) : Prop :=
  forall db e db', m db = (Threw e, db') -> db' = db.

(** Whether a computation throws from a state. *)
Definition throws {A : Type} (m : M A) (db : Db) : bool :=
  match fst (m db) with
  | Threw _ => true
  | Returned _ => false
  end.

(** Whether a call of a writing service throws. *)
Definition failed (db : Db) (call : Call) : bool :=
  match call with
  | CreateClub data => throws (ClubsService.createClub data) db
  | UpdateClub id data => throws (ClubsService.updateClub id data) db
  | DeleteClub id => throws (ClubsService.deleteClub id) db
  | CreatePlayer data => throws (PlayersService.createPlayer data) db
  | UpdatePlayer id data => throws (PlayersService.updatePlayer id data) db
  | UpdatePlayerStatistics playerId data =>
      throws (PlayersService.updatePlayerStatistics playerId data) db
  | DeletePlayer id => throws (PlayersService.deletePlayer id) db
  end.

(* ================================================================== *)
(** * [src/utils/http-helper.ts] *)
(* ================================================================== *)

(** The text of the [message] of an error thrown by a service. *)
Definition messageText (m : Message) : string :=
  match m with
  | ClubIdInvalid => "ID do clube inválido"
  | ClubNameInvalid => "Nome do clube inválido"
  | ClubNameRequired => "Nome do clube é obrigatório"
  | ClubNameExists => "Já existe um clube com este nome"
  | ClubNameEmpty => "Nome do clube não pode estar vazio"
  | ClubNotFound => "Clube não encontrado"
  | ClubHasPlayers => "Não é possível remover um clube que possui jogadores"
  | ClubFetchFailed => "Falha ao buscar clube"
  | ClubsFetchFailed => "Falha ao buscar clubes"
  | PlayerIdInvalid => "ID do jogador inválido"
  | PlayerNameRequired => "Nome do jogador é obrigatório"
  | PlayerNationalityRequired => "Nacionalidade do jogador é obrigatória"
  | PlayerPositionRequired => "Posição do jogador é obrigatória"
  | PlayerClubIdRequired => "ID do clube é obrigatório"
  | StatisticsOutOfRange => "As estatísticas devem estar entre 0 e 100"
  | PlayerNameEmpty => "Nome do jogador não pode estar vazio"
  | PlayerNationalityEmpty => "Nacionalidade do jogador não pode estar vazia"
  | PlayerPositionEmpty => "Posição do jogador não pode estar vazia"
  | MinOverallOutOfRange => "Overall mínimo deve estar entre 0 e 100"
  | MaxOverallOutOfRange => "Overall máximo deve estar entre 0 e 100"
  | MinOverallAboveMax => "Overall mínimo não pode ser maior que o máximo"
  | PlayersFetchFailed => "Falha ao buscar jogadores"
  | PlayersStatisticsFailed => "Falha ao obter estatísticas dos jogadores"
  end.

Module HttpResponse.

(** A message of a response: a string of the code, or the message that
    the Prisma client gave to one of its errors, which is not empty. *)
Inductive Text : Type :=
| Literal (s : string)
| PrismaMessage (code : PrismaCode).

(** [error.message] *)
Definition message (error : Exception) : Text :=
  match error with
  | Error m => Literal (messageText m)
  | PrismaClientKnownRequestError code => PrismaMessage code
  end.

(** The bodies that the controllers send. *)
Inductive Body : Type :=
| Null
| Clubs (clubs : list ClubWithRelations)
| OneClub (club : ClubWithRelations)
| Players (players : list PlayerWithRelations)
| OnePlayer (player : PlayerWithRelations)
| Notice (message : string)                  (* [{ message }] *)
| Failure (error : string) (message : Text). (* [{ error, message }] *)

(** [interface HttpResponse] *)
Record t : Type := mk {
  statusCode : Z;
  body : Body
}.

(** An array or an object is truthy, [null] is not. *)
Definition truthy (data : Body) : bool :=
  match data with
  | Null => false
  | _ => true
  end.

(** [message || default] *)
Definition orElse (message : option Text) (default : string) : Text :=
  match message with
  | Some (Literal s) => if Js.truthyString s then Literal s else Literal default
  | Some (PrismaMessage code) => PrismaMessage code
  | None => Literal default
  end.

Definition ok (data : Body) : t := {| statusCode := 200; body := data |}.

Definition created (data : Body) : t :=
  {| statusCode := 201;
     body := if truthy data then data else Notice "Criado com sucesso" |}.

Definition noContent : t := {| statusCode := 204; body := Null |}.

Definition badRequest (message : option Text) : t :=
  {| statusCode := 400;
     body := Failure "Bad Request" (orElse message "Requisição inválida") |}.

Definition notFound (message : option Text) : t :=
  {| statusCode := 404;
     body := Failure "Not Found" (orElse message "Recurso não encontrado") |}.

Definition serverError (message : option Text) : t :=
  {| statusCode := 500;
     body := Failure "Internal Server Error"
               (orElse message "Erro interno do servidor") |}.

End HttpResponse.

(* ================================================================== *)
(** * The controllers *)
(* ================================================================== *)

(** A property of the parsed JSON object [req.body], as far as the
    controllers tell values apart: absent, a string, or a value of
    another type. *)
Inductive BodyValue : Type :=
| Undefined
| Str (s : string)
| Other.

(** A request handler answers with one response and leaves a database
    behind.  The route parameter comes as the number that
    [parseInt(req.params.id)] has produced, [None] standing for [NaN]. *)
Definition Handler : Type := Db -> HttpResponse.t * Db.

(** [res.status(response.statusCode).json(response.body); return;] *)
Definition answer (response : HttpResponse.t) : Handler :=
  fun db => (response, db).

(** [try { const a = await m; onReturn(a) } catch (error) { onThrow(error) }] *)
Definition respond {A : Type} (m : M A) (onReturn : A -> HttpResponse.t)
           (onThrow : Exception -> HttpResponse.t) : Handler :=
  fun db =>
    match m db with
    | (Returned a, db') => (onReturn a, db')
    | (Threw error, db') => (onThrow error, db')
    end.

(** [isNaN(id) || id <= 0] *)
Definition invalidParam (id : option Z) : bool :=
  match id with
  | Some n => n <=? 0
  | None => true
  end.

(** The number held by a parameter that is not [NaN]. *)
Definition numberOf (id : option Z) : Z :=
  match id with
  | Some n => n
  | None => 0
  end.

(** [!name || typeof name !== 'string' || name.trim() === ''] *)
Definition missingString (name : BodyValue) : bool :=
  match name with
  | Str s => negb (Js.truthyString s) || (Js.trim s =? "")%string
  | _ => true
  end.

(** [name !== undefined && (typeof name !== 'string' ||
    name.trim() === '')] *)
Definition emptyString (name : BodyValue) : bool :=
  match name with
  | Undefined => false
  | Str s => (Js.trim s =? "")%string
  | Other => true
  end.

(** [name.trim()], for a value that is a string. *)
Definition trimOf (name : BodyValue) : string :=
  match name with
  | Str s => Js.trim s
  | _ => ""
  end.

(** [name?.trim()], for a value that is [undefined] or a string. *)
Definition trimmedString (name : BodyValue) : option string :=
  match name with
  | Str s => Some (Js.trim s)
  | _ => None
  end.

(** [error instanceof Error] holds of every exception of the services
    and of the Prisma client. *)
Definition badRequestOf (error : Exception) : HttpResponse.t :=
  HttpResponse.badRequest (Some (HttpResponse.message error)).

(** ** [src/controllers/clubs-controller.ts] *)

Module ClubsController.

Definition findAll : Handler :=
  respond ClubsService.getAllClubs
    (fun clubs =>
       if (List.length clubs =? 0)%nat
       then HttpResponse.noContent
       else HttpResponse.ok (HttpResponse.Clubs clubs))
    (fun _ => HttpResponse.serverError None).

Definition findById (id : option Z) : Handler :=
  if invalidParam id
  then answer (HttpResponse.badRequest
                 (Some (HttpResponse.Literal "ID do clube inválido")))
  else
    respond (ClubsService.getClubById (numberOf id))
      (fun club =>
         match club with
         | None => HttpResponse.notFound
                     (Some (HttpResponse.Literal "Clube não encontrado"))
         | Some c => HttpResponse.ok (HttpResponse.OneClub c)
         end)
      (fun _ => HttpResponse.serverError None).

Definition create (name : BodyValue) : Handler :=
  if missingString name
  then answer (HttpResponse.badRequest
                 (Some (HttpResponse.Literal "Nome do clube é obrigatório")))
  else
    respond
      (ClubsService.createClub {| ccName := trimOf name |})
      (fun club => HttpResponse.created (HttpResponse.OneClub club))
      badRequestOf.

Definition update (id : option Z) (name : BodyValue) : Handler :=
  if invalidParam id
  then answer (HttpResponse.badRequest
                 (Some (HttpResponse.Literal "ID do clube inválido")))
  else if emptyString name
  then answer (HttpResponse.badRequest
                 (Some (HttpResponse.Literal
                          "Nome do clube não pode estar vazio")))
  else
    respond
      (ClubsService.updateClub (numberOf id)
         {| ucName := trimmedString name |})
      (fun club =>
         match club with
         | None => HttpResponse.notFound
                     (Some (HttpResponse.Literal "Clube não encontrado"))
         | Some c => HttpResponse.ok (HttpResponse.OneClub c)
         end)
      badRequestOf.

Definition delete (id : option Z) : Handler :=
  if invalidParam id
  then answer (HttpResponse.badRequest
                 (Some (HttpResponse.Literal "ID do clube inválido")))
  else
    respond (ClubsService.deleteClub (numberOf id))
      (fun success =>
         if success
         then HttpResponse.ok
                (HttpResponse.Notice "Clube removido com sucesso")
         else HttpResponse.notFound
                (Some (HttpResponse.Literal "Clube não encontrado")))
      badRequestOf.

End ClubsController.

(** ** The players controller *)

Module PlayersController.

Definition findAll : Handler :=
  respond PlayersService.getAllPlayers
    (fun players =>
       if (List.length players =? 0)%nat
       then HttpResponse.noContent
       else HttpResponse.ok (HttpResponse.Players players))
    (fun _ => HttpResponse.serverError None).

(** [failure] is the error of the catch clause of [getPlayerById]. *)
Definition findById (failure : Exception) (id : option Z) : Handler :=
  if invalidParam id
  then answer (HttpResponse.badRequest
                 (Some (HttpResponse.Literal "ID do jogador inválido")))
  else
    respond (PlayersService.getPlayerById failure (numberOf id))
      (fun player =>
         match player with
         | None => HttpResponse.notFound
                     (Some (HttpResponse.Literal "Jogador não encontrado"))
         | Some p => HttpResponse.ok (HttpResponse.OnePlayer p)
         end)
      (fun _ => HttpResponse.serverError None).

Definition delete (id : option Z) : Handler :=
  if invalidParam id
  then answer (HttpResponse.badRequest
                 (Some (HttpResponse.Literal "ID do jogador inválido")))
  else
    respond (PlayersService.deletePlayer (numberOf id))
      (fun success =>
         if success
         then HttpResponse.ok
                (HttpResponse.Notice "Jogador removido com sucesso")
         else HttpResponse.notFound
                (Some (HttpResponse.Literal "Jogador não encontrado")))
      badRequestOf.

End PlayersController.

(** The response to a bad request with the given message. *)
Definition failure400 (message : string) : HttpResponse.t :=
  {| HttpResponse.statusCode := 400;
     HttpResponse.body :=
       HttpResponse.Failure "Bad Request" (HttpResponse.Literal message) |}.

(** The same for a resource that is not found. *)
Definition failure404 (message : string) : HttpResponse.t :=
  {| HttpResponse.statusCode := 404;
     HttpResponse.body :=
       HttpResponse.Failure "Not Found" (HttpResponse.Literal message) |}.

(** The state after the club [n] has been given the name [s]. *)
Definition renamed (n : Z) (s : string) (db : Db) : Db :=
  {| clubs := map (Prisma.club.rename n s) (clubs db);
     players := players db;
     statistics := statistics db;
     seqClubs := seqClubs db;
     seqPlayers := seqPlayers db;
     seqStatistics := seqStatistics db |}.

(* ================================================================== *)
(** * Sample states *)
(* ================================================================== *)

Module Sample.

Definition realMadrid : Club.t := Club.mk 1 "Real Madrid".
Definition santos : Club.t := Club.mk 2 "Santos".

Definition vinicius : Player.t := Player.mk 1 "Vinicius Jr" "Brasil" "LW" 1.

Definition viniciusStatistics : Statistics.t :=
  Statistics.mk 1 88 95 79 74 90 29 64 1.

(** Two clubs; the first owns one player with statistics, the second
    owns none. *)
Definition db : Db :=
  {| clubs := [realMadrid; santos];
     players := [vinicius];
     statistics := [viniciusStatistics];
     seqClubs := 2;
     seqPlayers := 1;
     seqStatistics := 1 |}.

(** [{ overall: 90 }] *)
Definition overall90 : UpdateStatisticsData :=
  {| Prisma.statistics.overall := Some 90;
     Prisma.statistics.pace := None;
     Prisma.statistics.shooting := None;
     Prisma.statistics.passing := None;
     Prisma.statistics.dribbling := None;
     Prisma.statistics.defending := None;
     Prisma.statistics.physical := None |}.

(** A well-formed new player for a club that is not stored. *)
Definition strayPlayer : CreatePlayerData :=
  {| cpName := " Neymar ";
     cpNationality := "Brasil";
     cpPosition := "LW";
     cpClubId := 7;
     cpStatistics := None |}.

(** [{ clubId: -5 }] *)
Definition clubMinus5 : UpdatePlayerData :=
  {| upName := None; upNationality := None; upPosition := None;
     upClubId := Some (-5) |}.

(** Two players whose positions are shirt numbers, "10" before "9",
    the second without statistics. *)
Definition numbered : Db :=
  {| clubs := [realMadrid];
     players := [Player.mk 1 "Pele" "Brasil" "10" 1;
                 Player.mk 2 "Ronaldo" "Brasil" "9" 1];
     statistics := [Statistics.mk 1 98 95 96 93 96 60 76 1];
     seqClubs := 1;
     seqPlayers := 2;
     seqStatistics := 1 |}.

(** [{ maxOverall: 0 }] *)
Definition maxOverall0 : Filters :=
  {| fClubId := None; fPosition := None; fNationality := None;
     fMinOverall := None; fMaxOverall := Some 0 |}.

End Sample.

(** ** Further sample data *)

(** U+00A0 NO-BREAK SPACE and U+3000 IDEOGRAPHIC SPACE. *)
Definition noBreakSpace : string := Js.bytes [194; 160]%nat.
Definition ideographicSpace : string := Js.bytes [227; 128; 128]%nat.

(** A well-formed new player, with statistics, for the club 2. *)
Definition neymar : CreatePlayerData :=
  {| cpName := " Neymar ";
     cpNationality := "Brasil";
     cpPosition := "LW";
     cpClubId := 2;
     cpStatistics :=
       Some {| csOverall := 89; csPace := 87; csShooting := 83;
               csPassing := 85; csDribbling := 93; csDefending := 37;
               csPhysical := 61 |} |}.

(** [{ name: ' Vini Jr ', clubId: 2 }] *)
Definition moveToSantos : UpdatePlayerData :=
  {| upName := Some " Vini Jr "%string; upNationality := None;
     upPosition := None; upClubId := Some 2 |}.

(** [{ clubId: 1, position: 'LW', minOverall: 80 }] *)
Definition wingers80 : Filters :=
  {| fClubId := Some 1; fPosition := Some "LW"%string; fNationality := None;
     fMinOverall := Some 80; fMaxOverall := None |}.

(** [{ name: '  ' }] *)
Definition blankName : UpdatePlayerData :=
  {| upName := Some "  "%string; upNationality := None;
     upPosition := None; upClubId := None |}.

(* ================================================================== *)
(** * Proofs *)
(* ================================================================== *)

(** ** Running the monad *)

Ltac run :=
  unfold bind, tryCatch, throwIf, ret, throw in *; cbn beta iota in *.

Lemma tryCatch_rethrow {A : Type} (m : M A) (db : Db) :
  tryCatch m (fun e => throw e) db = m db.
Proof.
  unfold tryCatch, throw. destruct (m db) as [[e | a] db']; reflexivity.
Qed.

(** ** Lookups *)

Lemma clubById_Some (db : Db) (id : Z) (c : Club.t) :
  Prisma.clubById db id = Some c -> In c (clubs db) /\ Club.id c = id.
Proof.
  unfold Prisma.clubById. intros H. apply find_some in H.
  destruct H as [Hin Heq]. split; [assumption | lia].
Qed.

Lemma clubById_None (db : Db) (id : Z) :
  Prisma.clubById db id = None <-> ~ clubExists db id.
Proof.
  unfold Prisma.clubById, clubExists. split.
  - intros H [c [Hin Heq]].
    pose proof (find_none _ _ H c Hin) as Hc. cbn in Hc. lia.
  - intros H. destruct (find _ _) as [c |] eqn:E; [| reflexivity].
    exfalso. apply H. apply find_some in E. exists c.
    destruct E as [Hin Heq]. split; [assumption | lia].
Qed.

Lemma clubById_exists (db : Db) (id : Z) :
  clubExists db id -> exists c, Prisma.clubById db id = Some c.
Proof.
  intros H. destruct (Prisma.clubById db id) as [c |] eqn:E.
  - exists c. reflexivity.
  - apply clubById_None in E. contradiction.
Qed.

Lemma playersOf_nil (db : Db) (id : Z) :
  Prisma.playersOf db id = [] <-> ~ ownsPlayers db id.
Proof.
  unfold Prisma.playersOf, ownsPlayers. split.
  - intros H [p [Hin Heq]].
    assert (Hf : In p (filter (fun p => Player.clubId p =? id) (players db))).
    { apply filter_In. split; [assumption | lia]. }
    destruct (filter _ _); [contradiction | discriminate].
  - intros H.
    destruct (filter (fun p => Player.clubId p =? id) (players db))
      as [| p l] eqn:E; [reflexivity |].
    exfalso. apply H. exists p.
    assert (Hin : In p (p :: l)) by (left; reflexivity).
    rewrite <- E in Hin. apply filter_In in Hin.
    destruct Hin as [Hin Heq]. split; [assumption | lia].
Qed.

Lemma invalidId_positive (id : Z) :
  0 < id -> ClubsService.invalidId id = false.
Proof.
  intros H. unfold ClubsService.invalidId, Js.truthyNumber.
  destruct (Z.eqb_spec id 0); [lia |]. cbn. lia.
Qed.

Lemma filter_all {A : Type} (f : A -> bool) (l : list A) :
  (forall x, In x l -> f x = true) -> filter f l = l.
Proof.
  induction l as [| a l IH]; intros H; cbn; [reflexivity |].
  rewrite (H a (or_introl eq_refl)). f_equal.
  apply IH. intros x Hx. apply H. right. assumption.
Qed.

(** ** Deleting a club *)

(** An identifier that is not positive is refused before the storage is
    asked. *)
Lemma deleteClub_invalid_id (db : Db) (id : Z) :
  id <= 0 ->
  ClubsService.deleteClub id db = (Threw (Error ClubIdInvalid), db).
Proof.
  intros H. unfold ClubsService.deleteClub. rewrite tryCatch_rethrow. run.
  replace (ClubsService.invalidId id) with true; [reflexivity |].
  unfold ClubsService.invalidId. destruct (Z.leb_spec id 0); [| lia].
  symmetry. apply orb_true_r.
Qed.

(** C1. For a positive club id that fits the 64-bit identifier column
    (at most [Prisma.maxInt]): [deleteClub] throws the has-players
    conflict and leaves the whole state as it was when the club owns a
    player; it returns [true] when the club exists and owns no player,
    after which the club is gone, players and statistics are as before and
    [getClubById] finds nothing; it throws club-not-found, with the state
    as it was, when no club has that id.  For an id that is not positive
    it throws the invalid-id validation error, whatever is stored. *)
Theorem deleteClub_guarded (db : Db) (id : Z) :
  (0 < id <= Prisma.maxInt ->
   (clubExists db id -> ownsPlayers db id ->
      ClubsService.deleteClub id db = (Threw (Error ClubHasPlayers), db)
      /\ kind (Error ClubHasPlayers) = ConflictError)
   /\ (clubExists db id -> ~ ownsPlayers db id ->
       exists db',
         ClubsService.deleteClub id db = (Returned true, db')
         /\ ~ clubExists db' id
         /\ players db' = players db
         /\ statistics db' = statistics db
         /\ ClubsService.getClubById id db' = (Returned None, db'))
   /\ (~ clubExists db id ->
       ClubsService.deleteClub id db = (Threw (Error ClubNotFound), db)
       /\ kind (Error ClubNotFound) = NotFound))
  /\ (id <= 0 ->
      ClubsService.deleteClub id db = (Threw (Error ClubIdInvalid), db)
      /\ kind (Error ClubIdInvalid) = ValidationError).
Proof.
  split.
  {
    intros [Hid _]. pose proof (invalidId_positive id Hid) as Hinv.
    unfold ClubsService.deleteClub, ClubsService.getClubById.
    split; [| split].
    - intros Hex Hown. split; [| reflexivity].
      rewrite tryCatch_rethrow. destruct (clubById_exists db id Hex) as [c Hc].
      unfold ClubsRepository.findById, Prisma.club.findUnique. run.
      rewrite Hinv, Hc. cbn.
      apply clubById_Some in Hc. destruct Hc as [_ Hc]. rewrite Hc.
      destruct (Prisma.playersOf db id) as [| p l] eqn:E.
      + apply playersOf_nil in E. contradiction.
      + reflexivity.
    - intros Hex Hown.
      destruct (clubById_exists db id Hex) as [c Hc].
      pose proof Hown as Hnil. apply playersOf_nil in Hnil.
      eexists. split; [| split; [| split; [| split]]].
      + rewrite tryCatch_rethrow.
        unfold ClubsRepository.findById, ClubsRepository.delete,
          Prisma.club.findUnique, Prisma.club.delete. run.
        rewrite Hinv, Hc. cbn.
        destruct (clubById_Some _ _ _ Hc) as [_ Hcid]. rewrite Hcid, Hnil. cbn.
        rewrite Hc. reflexivity.
      + cbn. intros [c' [Hin Heq]]. apply filter_In in Hin.
        destruct Hin as [_ Hne]. rewrite Heq, Z.eqb_refl in Hne. discriminate.
      + cbn. apply filter_all. intros p Hp.
        destruct (Z.eqb_spec (Player.clubId p) id) as [Heq |]; [| reflexivity].
        exfalso. apply Hown. exists p. split; assumption.
      + cbn. apply filter_all. intros s _.
        replace (filter (fun p => Player.clubId p =? id) (players db))
          with (@nil Player.t); [reflexivity |].
        symmetry. unfold Prisma.playersOf in Hnil.
        destruct (filter _ _); [reflexivity | discriminate].
      + unfold ClubsRepository.findById, Prisma.club.findUnique. run.
        rewrite Hinv. cbn.
        match goal with
        | |- context [Prisma.clubById ?d id] =>
            replace (Prisma.clubById d id) with (@None Club.t)
        end; [reflexivity |].
        symmetry. apply clubById_None. cbn. intros [c' [Hin Heq]].
        apply filter_In in Hin. destruct Hin as [_ Hne].
        rewrite Heq, Z.eqb_refl in Hne. discriminate.
    - intros Hno. split; [| reflexivity]. rewrite tryCatch_rethrow.
      unfold ClubsRepository.findById, Prisma.club.findUnique. run.
      rewrite Hinv. cbn. apply clubById_None in Hno. rewrite Hno. reflexivity.
  }
  intros Hle. split; [| reflexivity].
  apply deleteClub_invalid_id. exact Hle.
Qed.

(** On the sample state: club 1 owns a player, club 2 owns none and no
    club has the id 3. *)
Lemma deleteClub_guarded_witness :
  ClubsService.deleteClub 1 Sample.db
  = (Threw (Error ClubHasPlayers), Sample.db)
  /\ (exists db',
        ClubsService.deleteClub 2 Sample.db = (Returned true, db')
        /\ ClubsService.getClubById 2 db' = (Returned None, db'))
  /\ ClubsService.deleteClub 3 Sample.db
     = (Threw (Error ClubNotFound), Sample.db).
Proof.
  assert (H1 : clubExists Sample.db 1).
  { exists Sample.realMadrid. split; [left; reflexivity | reflexivity]. }
  assert (H1' : ownsPlayers Sample.db 1).
  { exists Sample.vinicius. split; [left; reflexivity | reflexivity]. }
  assert (H2 : clubExists Sample.db 2).
  { exists Sample.santos. split; [right; left; reflexivity | reflexivity]. }
  assert (H2' : ~ ownsPlayers Sample.db 2).
  { intros [p [[<- | []] H]]. discriminate H. }
  assert (H3 : ~ clubExists Sample.db 3).
  { intros [c [[<- | [<- | []]] H]]; discriminate H. }
  assert (R1 : 0 < 1 <= Prisma.maxInt) by (unfold Prisma.maxInt; lia).
  assert (R2 : 0 < 2 <= Prisma.maxInt) by (unfold Prisma.maxInt; lia).
  assert (R3 : 0 < 3 <= Prisma.maxInt) by (unfold Prisma.maxInt; lia).
  split; [| split].
  - exact (proj1 (proj1 (proj1 (deleteClub_guarded Sample.db 1) R1)
                     H1 H1')).
  - destruct (proj1 (proj2 (proj1 (deleteClub_guarded Sample.db 2) R2))
                H2 H2')
      as [db' [Hdel [_ [_ [_ Hget]]]]].
    exists db'. split; assumption.
  - exact (proj1 (proj2 (proj2 (proj1 (deleteClub_guarded Sample.db 3)
                                  R3)) H3)).
Defined.

(** C1, read for every integer, fails at the id 0: no club has it, and
    the call throws the invalid-id error, not club-not-found. *)
Lemma deleteClub_zero_id :
  ~ clubExists Sample.db 0
  /\ ClubsService.deleteClub 0 Sample.db
     = (Threw (Error ClubIdInvalid), Sample.db)
  /\ kind (Error ClubIdInvalid) <> NotFound.
Proof.
  split; [| split].
  - intros [c [[<- | [<- | []]] H]]; discriminate H.
  - reflexivity.
  - discriminate.
Qed.

(** ** Trimming *)

Lemma after_app (w s r : string) : Js.after w s = Some r -> s = (w ++ r)%string.
Proof.
  revert s. induction w as [| a w IH]; intros s; cbn.
  - intros H. injection H as <-. reflexivity.
  - destruct s as [| b s]; [discriminate |].
    destruct (Ascii.eqb_spec a b) as [<- |]; [| discriminate].
    intros H. rewrite (IH s H). reflexivity.
Qed.

Lemma after_longer (w p u : string) :
  Js.after w p <> None -> Js.after w (p ++ u) <> None.
Proof.
  revert p. induction w as [| a w IH]; intros p; cbn; [discriminate |].
  destruct p as [| b p]; [intros H; contradiction |]. cbn.
  destruct (Ascii.eqb a b); [apply IH | intros H; exact H].
Qed.

Lemma length_append (s t : string) :
  String.length (s ++ t) = (String.length s + String.length t)%nat.
Proof. induction s as [| c s IH]; cbn; [reflexivity | rewrite IH; reflexivity]. Qed.

Lemma afterWhiteSpace_shorter (s r : string) :
  Js.afterWhiteSpace s = Some r -> (String.length r < String.length s)%nat.
Proof.
  unfold Js.afterWhiteSpace.
  assert (Hne : Forall (fun w => (0 < String.length w)%nat) Js.whiteSpace)
    by (repeat constructor).
  induction Js.whiteSpace as [| w ws IH]; cbn; [discriminate |].
  inversion Hne as [| w' ws' Hw Hws]; subst.
  destruct (Js.after w s) as [r' |] eqn:E; [| apply IH; exact Hws].
  intros H. injection H as <-. apply after_app in E. subst s.
  rewrite length_append. lia.
Qed.

Lemma headOk_prefix (p u : string) :
  headOk (p ++ u) = true -> headOk p = true.
Proof.
  unfold headOk, Js.afterWhiteSpace.
  induction Js.whiteSpace as [| w ws IH]; cbn; [reflexivity |].
  destruct (Js.after w (p ++ u)) eqn:E; [discriminate |].
  destruct (Js.after w p) eqn:E'; [| exact IH].
  exfalso. apply (after_longer w p u); [rewrite E'; discriminate | exact E].
Qed.

Lemma trimStartWithin_headOk (n : nat) (s : string) :
  (String.length s <= n)%nat -> headOk (Js.trimStartWithin n s) = true.
Proof.
  revert s. induction n as [| n IH]; intros s Hlen; cbn.
  - destruct s; [reflexivity | cbn in Hlen; lia].
  - destruct (Js.afterWhiteSpace s) as [r |] eqn:E.
    + apply IH. apply afterWhiteSpace_shorter in E. lia.
    + unfold headOk. rewrite E. reflexivity.
Qed.

Lemma trimStart_headOk (s : string) : headOk (Js.trimStart s) = true.
Proof. apply trimStartWithin_headOk. lia. Qed.

Lemma trimStart_fixed (s : string) : headOk s = true -> Js.trimStart s = s.
Proof.
  unfold headOk, Js.trimStart. intros H.
  destruct (String.length s); cbn; [reflexivity |].
  destruct (Js.afterWhiteSpace s); [discriminate | reflexivity].
Qed.

Lemma trimEnd_prefix (s : string) : exists u, s = (Js.trimEnd s ++ u)%string.
Proof.
  induction s as [| c r [u IH]]; [exists EmptyString; reflexivity |].
  cbn. destruct (Js.isWhiteSpace _).
  - exists (String c r). reflexivity.
  - exists u. cbn. rewrite <- IH. reflexivity.
Qed.

Lemma trimEnd_headOk (s : string) :
  headOk s = true -> headOk (Js.trimEnd s) = true.
Proof.
  intros H. destruct (trimEnd_prefix s) as [u Hu].
  rewrite Hu in H. exact (headOk_prefix _ _ H).
Qed.

Lemma trimEnd_idempotent (s : string) :
  Js.trimEnd (Js.trimEnd s) = Js.trimEnd s.
Proof.
  induction s as [| c r IH]; [reflexivity |]. cbn.
  destruct (Js.isWhiteSpace (String c (Js.trimEnd r))) eqn:W; [reflexivity |].
  cbn. rewrite IH, W. reflexivity.
Qed.

Lemma trim_idempotent (s : string) : Js.trim (Js.trim s) = Js.trim s.
Proof.
  unfold Js.trim.
  rewrite (trimStart_fixed (Js.trimEnd (Js.trimStart s))).
  - apply trimEnd_idempotent.
  - apply trimEnd_headOk, trimStart_headOk.
Qed.

(** White space beyond ASCII goes as well: a no-break space and a space
    before, a line separator and a byte order mark after. *)
Lemma trim_unicode :
  Js.trim (Js.bytes [194; 160; 32; 83; 226; 128; 168; 239; 187; 191]%nat)
  = "S"%string.
Proof. reflexivity. Qed.

Lemma blank_trim (name : string) :
  ClubsService.blank name = (Js.trim name =? "")%string.
Proof.
  unfold ClubsService.blank, Js.truthyString.
  destruct name as [| c r]; reflexivity.
Qed.

(** ** Club names *)

Lemma findByName_Some (db : Db) (n : string) (c : Club.t) :
  find (fun c => (Club.name c =? n)%string) (clubs db) = Some c ->
  In c (clubs db) /\ Club.name c = n.
Proof.
  intros H. apply find_some in H. destruct H as [Hin Heq].
  split; [assumption |]. apply String.eqb_eq. assumption.
Qed.

Lemma findByName_None (db : Db) (n : string) :
  find (fun c => (Club.name c =? n)%string) (clubs db) = None
  <-> ~ nameTaken db n.
Proof.
  split.
  - intros H [c [Hin Heq]]. pose proof (find_none _ _ H c Hin) as Hc.
    cbn in Hc. rewrite Heq, String.eqb_refl in Hc. discriminate.
  - intros H. destruct (find _ _) as [c |] eqn:E; [| reflexivity].
    exfalso. apply H. exists c. apply findByName_Some. assumption.
Qed.

Lemma existsb_name (db : Db) (n : string) :
  existsb (fun c => (Club.name c =? n)%string) (clubs db) = true
  <-> nameTaken db n.
Proof.
  rewrite existsb_exists. unfold nameTaken.
  split; intros [c [Hin Heq]]; exists c; (split; [assumption |]);
    apply String.eqb_eq; assumption.
Qed.

Lemma fold_max_ge (ids : list Z) (x : Z) :
  In x ids -> x <= fold_right Z.max 0 ids.
Proof.
  induction ids as [| y ids IH]; cbn; [contradiction |].
  intros [-> | H]; [lia |]. specialize (IH H). lia.
Qed.

Lemma nextId_fresh (seq : Z) (ids : list Z) (x : Z) :
  In x ids -> x < Prisma.nextId seq ids.
Proof.
  intros H. apply fold_max_ge in H. unfold Prisma.nextId. lia.
Qed.

Lemma nextId_club_fresh (db : Db) :
  ~ clubExists db (Prisma.nextId (seqClubs db) (map Club.id (clubs db))).
Proof.
  intros [c [Hin Heq]].
  pose proof (nextId_fresh (seqClubs db) (map Club.id (clubs db)) (Club.id c)
                (in_map Club.id _ _ Hin)) as H.
  lia.
Qed.

(** ** Creating a club *)

(** C2. [createClub] trims the name.  A name that is empty after trimming
    is refused with the name-required validation error; a trimmed name
    that a stored club already has is refused with the already-exists
    conflict; in both cases the state is as it was.  Otherwise a club with
    the trimmed name and a fresh identifier is appended to the stored
    clubs and returned, with no players when the stored players respect
    their foreign key (which every state reached through the services
    does), and a further [createClub] with any name that trims to the same
    string is refused with the conflict. *)
Theorem createClub_unique_name (db : Db) (name : string) :
  (Js.trim name = ""%string ->
     ClubsService.createClub {| ccName := name |} db
     = (Threw (Error ClubNameRequired), db)
     /\ kind (Error ClubNameRequired) = ValidationError)
  /\ (Js.trim name <> ""%string -> nameTaken db (Js.trim name) ->
      ClubsService.createClub {| ccName := name |} db
      = (Threw (Error ClubNameExists), db)
      /\ kind (Error ClubNameExists) = ConflictError)
  /\ (Js.trim name <> ""%string -> ~ nameTaken db (Js.trim name) ->
      exists c db',
        ClubsService.createClub {| ccName := name |} db = (Returned c, db')
        /\ Club.name (cwrClub c) = Js.trim name
        /\ (playersReferToClubs db -> cwrPlayers c = [])
        /\ ~ clubExists db (Club.id (cwrClub c))
        /\ clubs db' = clubs db ++ [cwrClub c]
        /\ players db' = players db
        /\ statistics db' = statistics db
        /\ forall name',
             Js.trim name' = Js.trim name ->
             ClubsService.createClub {| ccName := name' |} db'
             = (Threw (Error ClubNameExists), db')).
Proof.
  assert (Htaken : forall d n,
             Js.trim n <> ""%string -> nameTaken d (Js.trim n) ->
             ClubsService.createClub {| ccName := n |} d
             = (Threw (Error ClubNameExists), d)).
  { intros d n Hne Hex. unfold ClubsService.createClub.
    rewrite tryCatch_rethrow.
    unfold ClubsRepository.findByName, Prisma.club.findFirst. run. cbn.
    rewrite blank_trim.
    destruct (String.eqb_spec (Js.trim n) ""); [contradiction |]. cbn.
    destruct (find _ _) as [c |] eqn:E; [reflexivity |].
    apply findByName_None in E. contradiction. }
  split; [| split].
  - intros He. split; [| reflexivity]. unfold ClubsService.createClub.
    rewrite tryCatch_rethrow. run. cbn. rewrite blank_trim, He. reflexivity.
  - intros Hne Hex. split; [| reflexivity]. apply Htaken; assumption.
  - intros Hne Hfree.
    pose proof Hfree as Hfind. apply findByName_None in Hfind.
    assert (Hex : existsb (fun c => (Club.name c =? Js.trim name)%string)
                    (clubs db) = false).
    { destruct (existsb _ _) eqn:E; [| reflexivity].
      apply existsb_name in E. contradiction. }
    eexists. eexists. split; [| split; [| split; [| split; [| split;
                      [| split; [| split]]]]]].
    + unfold ClubsService.createClub. rewrite tryCatch_rethrow.
      unfold ClubsRepository.findByName, ClubsRepository.create,
        Prisma.club.findFirst, Prisma.club.create. run. cbn.
      rewrite blank_trim.
      destruct (String.eqb_spec (Js.trim name) ""); [contradiction |]. cbn.
      rewrite Hfind. cbn. rewrite Hex. reflexivity.
    + reflexivity.
    + intros Hfk. cbn. apply playersOf_nil. intros [p [Hin Heq]]. cbn in Hin.
      apply (nextId_club_fresh db). rewrite <- Heq. apply Hfk. assumption.
    + cbn. apply nextId_club_fresh.
    + reflexivity.
    + reflexivity.
    + reflexivity.
    + intros name' Heq. apply Htaken; rewrite Heq; [assumption |].
      eexists. split; [cbn; apply in_or_app; right; left; reflexivity |].
      reflexivity.
Qed.

(** On the sample state: "Palmeiras" between a no-break space and a
    space is stored as "Palmeiras", after which "Palmeiras" followed by an
    ideographic space is refused. *)
Lemma createClub_unique_name_witness :
  playersReferToClubs Sample.db
  /\ exists c db',
       ClubsService.createClub
         {| ccName := noBreakSpace ++ "Palmeiras " |} Sample.db
       = (Returned c, db')
       /\ Club.name (cwrClub c) = "Palmeiras"%string
       /\ cwrPlayers c = []
       /\ ClubsService.createClub
            {| ccName := "Palmeiras" ++ ideographicSpace |} db'
          = (Threw (Error ClubNameExists), db').
Proof.
  assert (Hfk : playersReferToClubs Sample.db).
  { intros p [<- | []]. exists Sample.realMadrid.
    split; [left; reflexivity | reflexivity]. }
  split; [exact Hfk |].
  assert (Htrim : Js.trim (noBreakSpace ++ "Palmeiras ") = "Palmeiras"%string)
    by reflexivity.
  assert (Hne : Js.trim (noBreakSpace ++ "Palmeiras ") <> ""%string)
    by (rewrite Htrim; discriminate).
  assert (Hfree : ~ nameTaken Sample.db
                      (Js.trim (noBreakSpace ++ "Palmeiras "))).
  { rewrite Htrim. intros [c [[<- | [<- | []]] H]]; discriminate H. }
  destruct (proj2 (proj2 (createClub_unique_name Sample.db
                            (noBreakSpace ++ "Palmeiras ")))
              Hne Hfree)
    as [c [db' [Hrun [Hname [Hplayers [_ [_ [_ [_ Hagain]]]]]]]]].
  exists c, db'. split; [exact Hrun |].
  split; [rewrite Hname; exact Htrim |].
  split; [exact (Hplayers Hfk) |]. apply Hagain. reflexivity.
Defined.

(** A name of white space alone is blank, whatever the white space: a
    no-break space is refused like a space. *)
Lemma createClub_no_break_space (db : Db) :
  ClubsService.createClub {| ccName := noBreakSpace |} db
  = (Threw (Error ClubNameRequired), db).
Proof. reflexivity. Qed.

(** ** Renaming a club *)

Lemma Forall2_same {A : Type} (R : A -> A -> Prop) (l : list A) :
  (forall x, R x x) -> Forall2 R l l.
Proof.
  intros H. induction l as [| a l IH]; constructor; [apply H | assumption].
Qed.

Lemma Forall2_map_r {A : Type} (R : A -> A -> Prop) (f : A -> A) (l : list A) :
  (forall x, R x (f x)) -> Forall2 R l (map f l).
Proof.
  intros H. induction l as [| a l IH]; cbn; constructor;
    [apply H | assumption].
Qed.

Lemma clubFrame_refl (id : Z) (db : Db) : clubFrame id db db.
Proof.
  repeat split. apply Forall2_same. intros x. split; [reflexivity | tauto].
Qed.

Lemma repository_update_frame (db db' : Db) (id : Z) (data : UpdateClubData)
      (r : Outcome (option ClubWithRelations)) :
  ClubsRepository.update id data db = (r, db') ->
  clubFrame id db db'
  /\ forall c, r = Returned (Some c) ->
       clubExists db id
       /\ Club.id (cwrClub c) = id
       /\ cwrPlayers c = Prisma.playersOf db id
       /\ match ucName data with
          | Some n => Club.name (cwrClub c) = n
          | None => In (cwrClub c) (clubs db)
          end.
Proof.
  unfold ClubsRepository.update, Prisma.club.update. run.
  destruct (Prisma.clubById db id) as [c0 |] eqn:Hc.
  - destruct (clubById_Some _ _ _ Hc) as [Hin Hid].
    assert (Hex : clubExists db id) by (exists c0; split; assumption).
    destruct (ucName data) as [n |].
    + destruct (existsb _ _).
      * intros H. injection H as <- <-.
        split; [apply clubFrame_refl | discriminate].
      * intros H. injection H as <- <-. split.
        -- repeat split. cbn. apply Forall2_map_r. intros x.
           unfold Prisma.club.rename.
           destruct (Z.eqb_spec (Club.id x) id); cbn; split;
             try reflexivity; tauto.
        -- intros c H. injection H as <-. cbn.
           unfold Prisma.club.rename. rewrite Hid, Z.eqb_refl. cbn.
           repeat split. assumption.
    + intros H. injection H as <- <-. split; [apply clubFrame_refl |].
      intros c H. injection H as <-. cbn. rewrite Hid. repeat split; assumption.
  - intros H. injection H as <- <-.
    split; [apply clubFrame_refl | discriminate].
Qed.

(** Every run of [updateClub] either throws with the state as it was, or
    is the run of the repository update with the trimmed name. *)
Lemma updateClub_reaches (db : Db) (id : Z) (data : UpdateClubData) :
  (exists e, ClubsService.updateClub id data db = (Threw e, db))
  \/ ClubsService.updateClub id data db
     = ClubsRepository.update id
         {| ucName := option_map Js.trim (ucName data) |} db.
Proof.
  unfold ClubsService.updateClub. rewrite tryCatch_rethrow.
  unfold ClubsRepository.findById, ClubsRepository.findByName,
    Prisma.club.findUnique, Prisma.club.findFirst. run.
  destruct (ClubsService.invalidId id); [left; eexists; reflexivity |].
  destruct (ucName data) as [n |]; cbn.
  - destruct (Js.trim n =? "")%string; [left; eexists; reflexivity |]. cbn.
    destruct (Prisma.clubById db id) as [c |]; cbn;
      [| left; eexists; reflexivity].
    destruct (Js.truthyString n && _)%bool; cbn; [| right; reflexivity].
    destruct (find _ _); cbn; [left; eexists; reflexivity |].
    right; reflexivity.
  - destruct (Prisma.clubById db id) as [c |]; cbn;
      [right; reflexivity | left; eexists; reflexivity].
Qed.

(** C9. Whatever [updateClub] returns, the players and the statistics are
    as before, the stored clubs keep their positions and identifiers, and
    every club other than the addressed one is as before.  When it returns
    a club, that club existed, carries the addressed identifier and the
    players it owned before; its name is the trimmed supplied name, or it
    is the stored club itself when no name was supplied. *)
Theorem updateClub_frame (db db' : Db) (id : Z) (data : UpdateClubData)
        (r : Outcome (option ClubWithRelations)) :
  ClubsService.updateClub id data db = (r, db') ->
  players db' = players db
  /\ statistics db' = statistics db
  /\ Forall2 (fun old new =>
                Club.id new = Club.id old
                /\ (Club.id old <> id -> new = old))
             (clubs db) (clubs db')
  /\ forall c, r = Returned (Some c) ->
       clubExists db id
       /\ Club.id (cwrClub c) = id
       /\ cwrPlayers c = Prisma.playersOf db id
       /\ match ucName data with
          | Some n => Club.name (cwrClub c) = Js.trim n
          | None => In (cwrClub c) (clubs db)
          end.
Proof.
  intros Hrun.
  destruct (updateClub_reaches db id data) as [[e He] | Hupd].
  - rewrite He in Hrun. injection Hrun as <- <-.
    destruct (clubFrame_refl id db) as [Hp [Hs Hc]].
    repeat (split; [assumption |]). discriminate.
  - rewrite Hupd in Hrun.
    destruct (repository_update_frame _ _ _ _ _ Hrun)
      as [[Hp [Hs Hc]] Hret].
    repeat (split; [assumption |]).
    intros c Hr. specialize (Hret c Hr). cbn in Hret.
    destruct (ucName data); exact Hret.
Qed.

(** On the sample state: renaming club 2 to " Santos FC ". *)
Lemma updateClub_frame_witness :
  exists c db',
    ClubsService.updateClub 2 {| ucName := Some " Santos FC "%string |} Sample.db
    = (Returned (Some c), db')
    /\ players db' = players Sample.db
    /\ statistics db' = statistics Sample.db
    /\ Club.id (cwrClub c) = 2
    /\ cwrPlayers c = Prisma.playersOf Sample.db 2
    /\ Club.name (cwrClub c) = "Santos FC"%string.
Proof.
  eexists. eexists. split; [reflexivity |].
  destruct (updateClub_frame Sample.db _ 2
              {| ucName := Some " Santos FC "%string |} _ eq_refl)
    as [Hp [Hs [_ Hret]]].
  destruct (Hret _ eq_refl) as [_ [Hid [Hown Hname]]].
  repeat split; assumption.
Defined.

(** C4. Renaming the club "Santos" (id 2) to " Santos ", a name that
    trims to its own current name, throws the already-exists conflict
    although no other club is called "Santos": the untrimmed name differs
    from the stored one, so the lookup by the trimmed name runs and finds
    the club itself. *)
Theorem updateClub_own_name_untrimmed :
  ClubsService.updateClub 2 {| ucName := Some " Santos "%string |} Sample.db
  = (Threw (Error ClubNameExists), Sample.db)
  /\ Prisma.clubById Sample.db 2 = Some Sample.santos
  /\ Js.trim " Santos " = Club.name Sample.santos
  /\ ~ (exists c, In c (clubs Sample.db)
                  /\ Club.id c <> 2
                  /\ Club.name c = Js.trim " Santos ").
Proof.
  repeat split.
  intros [c [[<- | [<- | []]] [Hid Hname]]].
  - discriminate Hname.
  - apply Hid. reflexivity.
Qed.

(** X21. The part of the renaming rule that the code keeps: with a name
    that is already trimmed and differs from the current one, the conflict
    is thrown exactly when a stored club has that name (it is another
    club, its name being different). *)
Lemma updateClub_conflict_trimmed (db : Db) (id : Z) (n : string)
      (c : Club.t) :
  0 < id ->
  Prisma.clubById db id = Some c ->
  Js.trim n = n -> n <> ""%string -> n <> Club.name c ->
  ClubsService.updateClub id {| ucName := Some n |} db
  = (Threw (Error ClubNameExists), db)
  <-> nameTaken db n.
Proof.
  intros Hid Hc Htrim Hne Hdiff.
  unfold ClubsService.updateClub. rewrite tryCatch_rethrow.
  unfold ClubsRepository.findById, ClubsRepository.findByName,
    ClubsRepository.update, Prisma.club.findUnique, Prisma.club.findFirst,
    Prisma.club.update. run.
  rewrite (invalidId_positive id Hid). cbn. rewrite Htrim.
  destruct (String.eqb_spec n ""); [contradiction |]. cbn.
  rewrite Hc. cbn.
  replace (Js.truthyString n) with true
    by (unfold Js.truthyString; destruct (String.eqb_spec n "");
        [contradiction | reflexivity]).
  destruct (String.eqb_spec n (Club.name c)); [contradiction |]. cbn.
  destruct (find _ _) as [c' |] eqn:E; cbn.
  - split; [| reflexivity]. intros _. exists c'.
    apply findByName_Some. assumption.
  - pose proof E as Hfree. apply findByName_None in Hfree.
    rewrite Hc.
    replace (existsb _ (clubs db)) with false.
    + split; [discriminate | contradiction].
    + symmetry. destruct (existsb _ _) eqn:Ex; [| reflexivity].
      exfalso. apply existsb_exists in Ex. destruct Ex as [x [Hin Hx]].
      apply andb_prop in Hx. destruct Hx as [Hx _].
      apply Hfree. exists x. split; [assumption |].
      apply String.eqb_eq. assumption.
Qed.

(** A name equal to the current one skips the lookup and never throws the
    conflict. *)
Lemma updateClub_same_name (db : Db) (id : Z) (c : Club.t) :
  0 < id ->
  Prisma.clubById db id = Some c ->
  Js.trim (Club.name c) <> ""%string ->
  exists r db',
    ClubsService.updateClub id {| ucName := Some (Club.name c) |} db
    = (Returned r, db').
Proof.
  intros Hid Hc Hne.
  unfold ClubsService.updateClub. rewrite tryCatch_rethrow.
  unfold ClubsRepository.findById, ClubsRepository.findByName,
    ClubsRepository.update, Prisma.club.findUnique, Prisma.club.findFirst,
    Prisma.club.update. run.
  rewrite (invalidId_positive id Hid). cbn.
  destruct (String.eqb_spec (Js.trim (Club.name c)) ""); [contradiction |].
  cbn. rewrite Hc. cbn. rewrite String.eqb_refl, andb_false_r. cbn.
  rewrite Hc. destruct (existsb _ _); eexists; eexists; reflexivity.
Qed.

(** ** Updating the statistics of a player *)

Lemma players_invalidId_positive (id : Z) :
  0 < id -> PlayersService.invalidId id = false.
Proof.
  intros H. unfold PlayersService.invalidId, Js.truthyNumber.
  destruct (Z.eqb_spec id 0); [lia |]. cbn. lia.
Qed.

Lemma validRange_spec (v : Z) :
  PlayersService.validRange v = true <-> 0 <= v <= 100.
Proof. unfold PlayersService.validRange. lia. Qed.

Lemma validateEach_run (values : list Z) (db : Db) :
  PlayersService.validateEach values db
  = if forallb PlayersService.validRange values
    then (Returned tt, db)
    else (Threw (Error StatisticsOutOfRange), db).
Proof.
  induction values as [| v rest IH]; [reflexivity |].
  unfold PlayersService.validateEach; fold PlayersService.validateEach. run.
  cbn [forallb]. destruct (PlayersService.validRange v); cbn;
    [exact IH | reflexivity].
Qed.

Lemma statsToValidate_supplied (data : UpdateStatisticsData) (v : Z) :
  In v (PlayersService.statsToValidate data) <-> suppliedScore data v.
Proof.
  unfold PlayersService.statsToValidate, suppliedScore.
  destruct data as [o1 o2 o3 o4 o5 o6 o7]. cbn.
  destruct o1, o2, o3, o4, o5, o6, o7; cbn;
    intuition (try discriminate; try congruence).
Qed.

Lemma statisticsOf_Some (db : Db) (playerId : Z) (s : Statistics.t) :
  Prisma.statisticsOf db playerId = Some s ->
  In s (statistics db) /\ Statistics.playerId s = playerId.
Proof.
  unfold Prisma.statisticsOf. intros H. apply find_some in H.
  destruct H as [Hin Heq]. split; [assumption | lia].
Qed.

Lemma statisticsOf_None (db : Db) (playerId : Z) :
  Prisma.statisticsOf db playerId = None <-> ~ hasStatistics db playerId.
Proof.
  unfold Prisma.statisticsOf, hasStatistics. split.
  - intros H [s [Hin Heq]]. pose proof (find_none _ _ H s Hin) as Hs.
    cbn in Hs. lia.
  - intros H. destruct (find _ _) as [s |] eqn:E; [| reflexivity].
    exfalso. apply H. exists s. apply find_some in E.
    destruct E as [Hin Heq]. split; [assumption | lia].
Qed.

Lemma patch_rowUpdated (data : UpdateStatisticsData) (s : Statistics.t) :
  rowUpdated data s (Prisma.statistics.patch data s).
Proof.
  unfold rowUpdated, Prisma.statistics.patch, setOrKept, Prisma.player.orKeep.
  destruct data as [o1 o2 o3 o4 o5 o6 o7]. cbn.
  destruct o1, o2, o3, o4, o5, o6, o7; repeat split.
Qed.

(** C3. For a positive player id: when some supplied score is outside
    [0,100], [updatePlayerStatistics] throws the out-of-range validation
    error and the state is as it was.  When every supplied score is within
    range, it returns [true] if the player has a statistics row, whose
    supplied scores take the new values while the others, its identifier
    and its owner are kept, every other statistics row, the clubs and the
    players being as before; and it returns [false], with the state as it
    was, if the player has no statistics row. *)
Theorem updatePlayerStatistics_all_or_nothing
        (db : Db) (playerId : Z) (data : UpdateStatisticsData) :
  0 < playerId ->
  ((exists v, suppliedScore data v /\ ~ 0 <= v <= 100) ->
     PlayersService.updatePlayerStatistics playerId data db
     = (Threw (Error StatisticsOutOfRange), db)
     /\ kind (Error StatisticsOutOfRange) = ValidationError)
  /\ ((forall v, suppliedScore data v -> 0 <= v <= 100) ->
      (hasStatistics db playerId ->
         exists db',
           PlayersService.updatePlayerStatistics playerId data db
           = (Returned true, db')
           /\ clubs db' = clubs db
           /\ players db' = players db
           /\ Forall2 (fun old new =>
                         (Statistics.playerId old = playerId ->
                            rowUpdated data old new)
                         /\ (Statistics.playerId old <> playerId -> new = old))
                      (statistics db) (statistics db'))
      /\ (~ hasStatistics db playerId ->
          PlayersService.updatePlayerStatistics playerId data db
          = (Returned false, db))).
Proof.
  intros Hid. pose proof (players_invalidId_positive playerId Hid) as Hinv.
  unfold PlayersService.updatePlayerStatistics.
  split; [| intros Hall; split].
  - intros [v [Hv Hout]]. split; [| reflexivity].
    rewrite tryCatch_rethrow. run. rewrite Hinv. cbn.
    rewrite validateEach_run.
    destruct (forallb _ _) eqn:E; [| reflexivity].
    exfalso. apply Hout. apply validRange_spec.
    rewrite forallb_forall in E. apply E.
    apply statsToValidate_supplied. assumption.
  - intros Hhas.
    assert (Hok : forallb PlayersService.validRange
                    (PlayersService.statsToValidate data) = true).
    { apply forallb_forall. intros v Hv. apply validRange_spec, Hall.
      apply statsToValidate_supplied. assumption. }
    destruct (Prisma.statisticsOf db playerId) as [s |] eqn:Hs;
      [| apply statisticsOf_None in Hs; contradiction].
    eexists. split; [| split; [| split]].
    + rewrite tryCatch_rethrow.
      unfold PlayersRepository.updateStatistics, Prisma.statistics.update.
      run. rewrite Hinv. cbn. rewrite validateEach_run, Hok, Hs. reflexivity.
    + reflexivity.
    + reflexivity.
    + cbn. apply Forall2_map_r. intros x.
      destruct (Z.eqb_spec (Statistics.playerId x) playerId); split;
        try tauto; intros _; apply patch_rowUpdated.
  - intros Hno.
    assert (Hok : forallb PlayersService.validRange
                    (PlayersService.statsToValidate data) = true).
    { apply forallb_forall. intros v Hv. apply validRange_spec, Hall.
      apply statsToValidate_supplied. assumption. }
    apply statisticsOf_None in Hno.
    rewrite tryCatch_rethrow.
    unfold PlayersRepository.updateStatistics, Prisma.statistics.update.
    run. rewrite Hinv. cbn. rewrite validateEach_run, Hok, Hno. reflexivity.
Qed.

(** On the sample state: [{ overall: 90 }] for player 1. *)
Lemma updatePlayerStatistics_all_or_nothing_witness :
  exists db',
    PlayersService.updatePlayerStatistics 1 Sample.overall90 Sample.db
    = (Returned true, db')
    /\ Forall2 (fun old new =>
                  (Statistics.playerId old = 1 ->
                     rowUpdated Sample.overall90 old new)
                  /\ (Statistics.playerId old <> 1 -> new = old))
               (statistics Sample.db) (statistics db').
Proof.
  assert (Hall : forall v, suppliedScore Sample.overall90 v -> 0 <= v <= 100).
  { intros v [H | [H | [H | [H | [H | [H | H]]]]]]; try discriminate H.
    injection H as <-. split; discriminate. }
  assert (Hhas : hasStatistics Sample.db 1).
  { exists Sample.viniciusStatistics. split; [left |]; reflexivity. }
  destruct (proj1 (proj2 (updatePlayerStatistics_all_or_nothing
                            Sample.db 1 Sample.overall90 eq_refl) Hall) Hhas)
    as [db' [Hrun [_ [_ Hrows]]]].
  exists db'. split; assumption.
Defined.

Lemma patch_noScores (s : Statistics.t) :
  Prisma.statistics.patch noScores s = s.
Proof. destruct s. reflexivity. Qed.

Lemma map_fixed {A : Type} (f : A -> A) (l : list A) :
  (forall x, f x = x) -> map f l = l.
Proof.
  intros H. induction l as [| a l IH]; cbn; [reflexivity |].
  rewrite H, IH. reflexivity.
Qed.

(** C10. For a positive player id, [updatePlayerStatistics] with no score
    supplied never throws: it returns [true] when the player has a
    statistics row and [false] when it has none, and in both cases the
    whole state, so every stored score, is as it was. *)
Theorem updatePlayerStatistics_no_scores (db : Db) (playerId : Z) :
  0 < playerId ->
  (hasStatistics db playerId ->
     PlayersService.updatePlayerStatistics playerId noScores db
     = (Returned true, db))
  /\ (~ hasStatistics db playerId ->
      PlayersService.updatePlayerStatistics playerId noScores db
      = (Returned false, db)).
Proof.
  intros Hid. pose proof (players_invalidId_positive playerId Hid) as Hinv.
  unfold PlayersService.updatePlayerStatistics.
  split; intros H; rewrite tryCatch_rethrow;
    unfold PlayersRepository.updateStatistics, Prisma.statistics.update;
    run; rewrite Hinv; cbn; rewrite validateEach_run;
    change (PlayersService.statsToValidate noScores) with (@nil Z); cbn.
  - destruct (Prisma.statisticsOf db playerId) as [s |] eqn:Hs;
      [| apply statisticsOf_None in Hs; contradiction].
    f_equal. rewrite map_fixed.
    + destruct db; reflexivity.
    + intros x. rewrite patch_noScores.
      destruct (Statistics.playerId x =? playerId); reflexivity.
  - apply statisticsOf_None in H. rewrite H. reflexivity.
Qed.

(** On the sample state: player 1 has statistics, player 2 is not
    stored. *)
Lemma updatePlayerStatistics_no_scores_witness :
  PlayersService.updatePlayerStatistics 1 noScores Sample.db
  = (Returned true, Sample.db)
  /\ PlayersService.updatePlayerStatistics 2 noScores Sample.db
     = (Returned false, Sample.db).
Proof.
  split.
  - apply (proj1 (updatePlayerStatistics_no_scores Sample.db 1 eq_refl)).
    exists Sample.viniciusStatistics. split; [left |]; reflexivity.
  - apply (proj2 (updatePlayerStatistics_no_scores Sample.db 2 eq_refl)).
    intros [s [[<- | []] H]]. discriminate H.
Defined.

(** ** Creating a player *)

Lemma players_blank_trim (s : string) :
  PlayersService.blank s = (Js.trim s =? "")%string.
Proof.
  unfold PlayersService.blank, Js.truthyString.
  destruct s as [| c r]; reflexivity.
Qed.

(** C7. When the name, the nationality and the position are not blank and
    the club id is positive but no stored club has it, [createPlayer]
    throws and the state is as it was, so neither a player row nor a
    statistics row is added.  The exception is the out-of-range validation
    error when statistics with a score outside [0,100] came along, and the
    foreign-key error of the storage otherwise; both are read as
    validation errors. *)
Theorem createPlayer_missing_club (db : Db) (data : CreatePlayerData) :
  Js.trim (cpName data) <> ""%string ->
  Js.trim (cpNationality data) <> ""%string ->
  Js.trim (cpPosition data) <> ""%string ->
  0 < cpClubId data ->
  ~ clubExists db (cpClubId data) ->
  exists e,
    PlayersService.createPlayer data db = (Threw e, db)
    /\ kind e = ValidationError
    /\ (e = Error StatisticsOutOfRange
        \/ e = PrismaClientKnownRequestError P2003)
    /\ (cpStatistics data = None -> e = PrismaClientKnownRequestError P2003).
Proof.
  intros Hn Hna Hp Hid Hno.
  apply clubById_None in Hno.
  unfold PlayersService.createPlayer, PlayersRepository.create,
    Prisma.player.create.
  destruct data as [name nat pos cid stats]. cbn in *.
  assert (Hrun : forall (A : Type) (m : M A) d,
             tryCatch m (fun e => throw e) d = m d)
    by (intros; apply tryCatch_rethrow).
  destruct stats as [st |].
  - destruct (negb (PlayersService.validRange (csOverall st))
              || negb (PlayersService.validRange (csPace st))
              || negb (PlayersService.validRange (csShooting st))
              || negb (PlayersService.validRange (csPassing st))
              || negb (PlayersService.validRange (csDribbling st))
              || negb (PlayersService.validRange (csDefending st))
              || negb (PlayersService.validRange (csPhysical st)))%bool eqn:E.
    + exists (Error StatisticsOutOfRange). rewrite Hrun. run.
      rewrite !players_blank_trim.
      destruct (String.eqb_spec (Js.trim name) ""); [contradiction |].
      destruct (String.eqb_spec (Js.trim nat) ""); [contradiction |].
      destruct (String.eqb_spec (Js.trim pos) ""); [contradiction |].
      rewrite (players_invalidId_positive cid Hid).
      cbn -[PlayersService.validRange].
      repeat split; [left; reflexivity | discriminate].
    + exists (PrismaClientKnownRequestError P2003). rewrite Hrun. run.
      rewrite !players_blank_trim.
      destruct (String.eqb_spec (Js.trim name) ""); [contradiction |].
      destruct (String.eqb_spec (Js.trim nat) ""); [contradiction |].
      destruct (String.eqb_spec (Js.trim pos) ""); [contradiction |].
      rewrite (players_invalidId_positive cid Hid).
      cbn -[PlayersService.validRange].
      rewrite Hno. repeat split. right; reflexivity.
  - exists (PrismaClientKnownRequestError P2003). rewrite Hrun. run.
    rewrite !players_blank_trim.
    destruct (String.eqb_spec (Js.trim name) ""); [contradiction |].
    destruct (String.eqb_spec (Js.trim nat) ""); [contradiction |].
    destruct (String.eqb_spec (Js.trim pos) ""); [contradiction |].
    rewrite (players_invalidId_positive cid Hid). cbn.
    rewrite Hno. repeat split. right; reflexivity.
Qed.

(** On the sample state: a new player for the club 7, which is not
    stored. *)
Lemma createPlayer_missing_club_witness :
  PlayersService.createPlayer Sample.strayPlayer Sample.db
  = (Threw (PrismaClientKnownRequestError P2003), Sample.db).
Proof.
  assert (Hno : ~ clubExists Sample.db (cpClubId Sample.strayPlayer)).
  { intros [c [[<- | [<- | []]] H]]; discriminate H. }
  destruct (createPlayer_missing_club Sample.db Sample.strayPlayer)
    as [e [Hrun [_ [_ He]]]];
    [discriminate | discriminate | discriminate | reflexivity | exact Hno |].
  rewrite (He eq_refl) in Hrun. exact Hrun.
Defined.

(** ** Updating a player *)

(** C5. [updatePlayer] does not validate a supplied club id: with
    [{ clubId: -5 }] for the stored player 1 it throws nothing; the
    storage refuses the reference, the repository turns that into [null],
    and the call returns [null] with the state as it was. *)
Theorem updatePlayer_clubId_unchecked :
  PlayersService.updatePlayer 1 Sample.clubMinus5 Sample.db
  = (Returned None, Sample.db)
  /\ Prisma.playerById Sample.db 1 = Some Sample.vinicius
  /\ upClubId Sample.clubMinus5 = Some (-5).
Proof. repeat split. Qed.

(** No club id makes [updatePlayer] throw: with string fields that are not
    blank the call always returns. *)
Lemma updatePlayer_never_rejects_clubId (db : Db) (id : Z)
      (data : UpdatePlayerData) :
  0 < id ->
  PlayersService.suppliedBlank (upName data) = false ->
  PlayersService.suppliedBlank (upNationality data) = false ->
  PlayersService.suppliedBlank (upPosition data) = false ->
  exists r db',
    PlayersService.updatePlayer id data db = (Returned r, db').
Proof.
  intros Hid H1 H2 H3. unfold PlayersService.updatePlayer.
  rewrite tryCatch_rethrow.
  unfold PlayersRepository.update, Prisma.player.update. run.
  rewrite (players_invalidId_positive id Hid), H1, H2, H3. cbn.
  destruct (Prisma.playerById db id); [| eexists; eexists; reflexivity].
  destruct (Prisma.player.optTest _ _); eexists; eexists; reflexivity.
Qed.

(** X23. A supplied string field that is blank after trimming is refused
    with a validation error, the state being as it was. *)
Lemma updatePlayer_blank_rejected (db : Db) (id : Z)
      (data : UpdatePlayerData) :
  0 < id ->
  PlayersService.suppliedBlank (upName data) = true
  \/ PlayersService.suppliedBlank (upNationality data) = true
  \/ PlayersService.suppliedBlank (upPosition data) = true ->
  exists e,
    PlayersService.updatePlayer id data db = (Threw e, db)
    /\ kind e = ValidationError.
Proof.
  intros Hid H. unfold PlayersService.updatePlayer.
  rewrite tryCatch_rethrow. run.
  rewrite (players_invalidId_positive id Hid). cbn.
  destruct (PlayersService.suppliedBlank (upName data)); cbn;
    [eexists; split; reflexivity |].
  destruct (PlayersService.suppliedBlank (upNationality data)); cbn;
    [eexists; split; reflexivity |].
  destruct (PlayersService.suppliedBlank (upPosition data)); cbn;
    [eexists; split; reflexivity |].
  destruct H as [H | [H | H]]; discriminate H.
Qed.

(** X22. When the player and the supplied club exist, the stored row
    takes the trimmed supplied strings and the supplied club id and keeps
    every field that is not supplied. *)
Lemma updatePlayer_applies (db : Db) (id : Z) (data : UpdatePlayerData)
      (p : Player.t) :
  0 < id ->
  PlayersService.suppliedBlank (upName data) = false ->
  PlayersService.suppliedBlank (upNationality data) = false ->
  PlayersService.suppliedBlank (upPosition data) = false ->
  Prisma.playerById db id = Some p ->
  (forall c, upClubId data = Some c -> clubExists db c) ->
  exists r db',
    PlayersService.updatePlayer id data db = (Returned (Some r), db')
    /\ Player.id (pwrPlayer r) = id
    /\ Player.name (pwrPlayer r)
       = match upName data with Some s => Js.trim s | None => Player.name p end
    /\ Player.nationality (pwrPlayer r)
       = match upNationality data with
         | Some s => Js.trim s
         | None => Player.nationality p
         end
    /\ Player.position (pwrPlayer r)
       = match upPosition data with
         | Some s => Js.trim s
         | None => Player.position p
         end
    /\ Player.clubId (pwrPlayer r)
       = match upClubId data with Some c => c | None => Player.clubId p end
    /\ In (pwrPlayer r) (players db').
Proof.
  intros Hid H1 H2 H3 Hp Hclub. unfold PlayersService.updatePlayer.
  rewrite tryCatch_rethrow.
  unfold PlayersRepository.update, Prisma.player.update. run.
  rewrite (players_invalidId_positive id Hid), H1, H2, H3. cbn. rewrite Hp.
  assert (Hpid : In p (players db) /\ Player.id p = id).
  { unfold Prisma.playerById in Hp. apply find_some in Hp.
    destruct Hp as [Hin Heq]. split; [assumption | lia]. }
  destruct Hpid as [Hin Hpid].
  assert (Hopt : Prisma.player.optTest (upClubId data)
                   (fun c => match Prisma.clubById db c with
                             | Some _ => true
                             | None => false
                             end) = true).
  { destruct (upClubId data) as [c |]; [| reflexivity]. cbn.
    destruct (clubById_exists db c (Hclub c eq_refl)) as [x Hx].
    rewrite Hx. reflexivity. }
  rewrite Hopt. eexists. eexists. split; [reflexivity |].
  cbn. rewrite Hpid, Z.eqb_refl. cbn.
  split; [assumption |].
  split; [destruct (upName data); reflexivity |].
  split; [destruct (upNationality data); reflexivity |].
  split; [destruct (upPosition data); reflexivity |].
  split; [destruct (upClubId data); reflexivity |].
  apply in_map_iff. exists p. rewrite Hpid, Z.eqb_refl.
  split; [reflexivity | assumption].
Qed.

(** ** Filtering players *)

(** C6. With [{ maxOverall: 0 }], which passes validation,
    [getPlayersWithFilters] returns the stored player although his overall
    score is 88: the bound [0] is falsy, so no condition on the statistics
    is sent to the storage.  No stored player satisfies the filter. *)
Theorem getPlayersWithFilters_zero_bound :
  validFilters Sample.maxOverall0
  /\ PlayersService.getPlayersWithFilters Sample.maxOverall0 Sample.db
     = (Returned [Prisma.includeClubStatistics Sample.db Sample.vinicius],
        Sample.db)
  /\ pwrStatistics (Prisma.includeClubStatistics Sample.db Sample.vinicius)
     = Some Sample.viniciusStatistics
  /\ Statistics.overall Sample.viniciusStatistics = 88
  /\ filter (Required.satisfies Sample.db Sample.maxOverall0)
            (players Sample.db) = [].
Proof.
  split; [| repeat split].
  unfold validFilters. cbn.
  split; [intros c H; discriminate H |].
  split; [intros lo H; discriminate H |].
  split; [intros hi H; injection H as <-; lia |].
  intros lo hi H. discriminate H.
Qed.

Lemma whenTruthy_number (o : option Z) :
  o <> Some 0 -> PlayersRepository.whenTruthy Js.truthyNumber o = o.
Proof.
  unfold PlayersRepository.whenTruthy, Js.truthyOpt, Js.truthyNumber.
  destruct o as [v |]; [| reflexivity].
  destruct (Z.eqb_spec v 0); [subst; contradiction | reflexivity].
Qed.

Lemma whenTruthy_string (o : option string) :
  o <> Some ""%string -> PlayersRepository.whenTruthy Js.truthyString o = o.
Proof.
  unfold PlayersRepository.whenTruthy, Js.truthyOpt, Js.truthyString.
  destruct o as [v |]; [| reflexivity].
  destruct (String.eqb_spec v ""); [subst; contradiction | reflexivity].
Qed.

Lemma validFilters_pass (filters : Filters) (db : Db) :
  validFilters filters ->
  PlayersService.getPlayersWithFilters filters db
  = PlayersRepository.findWithFilters filters db.
Proof.
  intros [Hc [Hlo [Hhi Hord]]].
  unfold PlayersService.getPlayersWithFilters. rewrite tryCatch_rethrow. run.
  unfold PlayersService.supplied.
  destruct (fClubId filters) as [c |].
  - specialize (Hc c eq_refl). destruct (Z.leb_spec c 0); [lia |].
    destruct (fMinOverall filters) as [lo |], (fMaxOverall filters) as [hi |];
      cbn.
    + specialize (Hlo lo eq_refl). specialize (Hhi hi eq_refl).
      specialize (Hord lo hi eq_refl eq_refl).
      destruct (Z.ltb_spec lo 0), (Z.gtb_spec lo 100), (Z.ltb_spec hi 0),
        (Z.gtb_spec hi 100), (Z.gtb_spec lo hi); try lia; reflexivity.
    + specialize (Hlo lo eq_refl).
      destruct (Z.ltb_spec lo 0), (Z.gtb_spec lo 100); try lia; reflexivity.
    + specialize (Hhi hi eq_refl).
      destruct (Z.ltb_spec hi 0), (Z.gtb_spec hi 100); try lia; reflexivity.
    + reflexivity.
  - destruct (fMinOverall filters) as [lo |], (fMaxOverall filters) as [hi |];
      cbn.
    + specialize (Hlo lo eq_refl). specialize (Hhi hi eq_refl).
      specialize (Hord lo hi eq_refl eq_refl).
      destruct (Z.ltb_spec lo 0), (Z.gtb_spec lo 100), (Z.ltb_spec hi 0),
        (Z.gtb_spec hi 100), (Z.gtb_spec lo hi); try lia; reflexivity.
    + specialize (Hlo lo eq_refl).
      destruct (Z.ltb_spec lo 0), (Z.gtb_spec lo 100); try lia; reflexivity.
    + specialize (Hhi hi eq_refl).
      destruct (Z.ltb_spec hi 0), (Z.gtb_spec hi 100); try lia; reflexivity.
    + reflexivity.
Qed.

Lemma andb_split_last (x y s smin smax : bool) :
  x = y -> s = smin && smax -> x && s = y && smin && smax.
Proof. intros -> ->. apply andb_assoc. Qed.

(** X20. The filter is exact when no supplied value is falsy: on valid
    filters without an empty string or a zero bound, whose club id, if
    any, fits the 64-bit column, the players returned are exactly those
    that satisfy every supplied criterion, in stored order, each with his
    club and statistics, and the state is as it was. *)
Lemma getPlayersWithFilters_exact (filters : Filters) (db : Db) :
  validFilters filters -> truthyFilters filters ->
  (forall c, fClubId filters = Some c -> c <= Prisma.maxInt) ->
  PlayersService.getPlayersWithFilters filters db
  = (Returned (map (Prisma.includeClubStatistics db)
                   (filter (Required.satisfies db filters) (players db))),
     db).
Proof.
  intros Hvalid [Hp [Hn [Hlo Hhi]]] _.
  rewrite (validFilters_pass filters db Hvalid).
  destruct Hvalid as [Hc _].
  unfold PlayersRepository.findWithFilters, Prisma.player.findMany.
  f_equal. f_equal. f_equal. apply filter_ext. intros p.
  unfold Prisma.player.matches, Required.satisfies. cbn.
  rewrite (whenTruthy_string _ Hp), (whenTruthy_string _ Hn),
    (whenTruthy_number _ Hlo), (whenTruthy_number _ Hhi).
  rewrite (whenTruthy_number (fClubId filters)).
  2:{ intros H. specialize (Hc 0 H). lia. }
  apply andb_split_last; [reflexivity |].
  unfold Prisma.player.optTest, Js.truthyOpt, Js.truthyNumber,
    Prisma.player.matchesInt.
  destruct (fMinOverall filters) as [lo |], (fMaxOverall filters) as [hi |];
    try (destruct (Z.eqb_spec lo 0); [subst; contradiction |]);
    try (destruct (Z.eqb_spec hi 0); [subst; contradiction |]);
    cbn; destruct (Prisma.statisticsOf db (Player.id p));
    rewrite ?andb_true_r; reflexivity.
Qed.

(** Without any filter the call is [getAllPlayers]. *)
Lemma getPlayersWithFilters_none (db : Db) :
  PlayersService.getPlayersWithFilters noFilters db
  = PlayersService.getAllPlayers db.
Proof. reflexivity. Qed.

(** Bounds in the wrong order are refused. *)
Lemma getPlayersWithFilters_min_above_max (filters : Filters) (db : Db)
      (lo hi : Z) :
  fMinOverall filters = Some lo -> fMaxOverall filters = Some hi ->
  lo > hi ->
  exists e,
    PlayersService.getPlayersWithFilters filters db = (Threw e, db)
    /\ kind e = ValidationError.
Proof.
  intros Hlo Hhi Hgt.
  unfold PlayersService.getPlayersWithFilters. rewrite tryCatch_rethrow. run.
  unfold PlayersService.supplied. rewrite Hlo, Hhi.
  destruct (fClubId filters) as [c |].
  - destruct (c <=? 0); cbn; [eexists; split; reflexivity |].
    destruct ((lo <? 0) || (lo >? 100))%bool; cbn;
      [eexists; split; reflexivity |].
    destruct ((hi <? 0) || (hi >? 100))%bool; cbn;
      [eexists; split; reflexivity |].
    destruct (Z.gtb_spec lo hi); [| lia]. eexists; split; reflexivity.
  - cbn.
    destruct ((lo <? 0) || (lo >? 100))%bool; cbn;
      [eexists; split; reflexivity |].
    destruct ((hi <? 0) || (hi >? 100))%bool; cbn;
      [eexists; split; reflexivity |].
    destruct (Z.gtb_spec lo hi); [| lia]. eexists; split; reflexivity.
Qed.

(** ** Sorting *)

Section SortingFacts.

Context {A : Type}.

Lemma insertDescending_perm (score : A -> Z) (x : A) (l : list A) :
  Permutation (Js.insertDescending score x l) (x :: l).
Proof.
  induction l as [| y rest IH]; cbn; [apply Permutation_refl |].
  destruct (score x <? score y); [| apply Permutation_refl].
  apply perm_trans with (y :: x :: rest);
    [apply perm_skip; exact IH | apply perm_swap].
Qed.

Lemma sortDescending_perm (score : A -> Z) (l : list A) :
  Permutation (Js.sortDescending score l) l.
Proof.
  induction l as [| x rest IH]; cbn; [apply perm_nil |].
  apply perm_trans with (x :: Js.sortDescending score rest);
    [apply insertDescending_perm | apply perm_skip; exact IH].
Qed.

Lemma insertDescending_sorted (score : A -> Z) (x : A) (l : list A) :
  StronglySorted (fun a b => score a >= score b) l ->
  StronglySorted (fun a b => score a >= score b)
                 (Js.insertDescending score x l).
Proof.
  induction l as [| y rest IH]; cbn; intros Hs.
  - constructor; [constructor | constructor].
  - apply StronglySorted_inv in Hs. destruct Hs as [Hrest Hy].
    destruct (Z.ltb_spec (score x) (score y)) as [Hlt | Hge].
    + constructor; [apply IH; exact Hrest |].
      apply (Permutation_Forall
               (Permutation_sym (insertDescending_perm score x rest))).
      constructor; [lia | exact Hy].
    + constructor; [constructor; assumption |].
      constructor; [lia |].
      apply Forall_impl with (P := fun b => score y >= score b);
        [intros b Hb; lia | exact Hy].
Qed.

Lemma sortDescending_sorted (score : A -> Z) (l : list A) :
  StronglySorted (fun a b => score a >= score b) (Js.sortDescending score l).
Proof.
  induction l as [| x rest IH]; cbn; [constructor |].
  apply insertDescending_sorted. exact IH.
Qed.

(** Stability: among the elements of one score, the order of insertion
    is the order of the list. *)
Lemma insertDescending_stable (score : A -> Z) (c : Z) (x : A)
      (l : list A) :
  filter (fun e => score e =? c) (Js.insertDescending score x l)
  = filter (fun e => score e =? c) (x :: l).
Proof.
  induction l as [| y rest IH]; [reflexivity |].
  cbn [Js.insertDescending].
  destruct (Z.ltb_spec (score x) (score y)) as [Hlt | Hge];
    [| reflexivity].
  cbn [filter] in *. rewrite IH.
  destruct (Z.eqb_spec (score x) c), (Z.eqb_spec (score y) c);
    try reflexivity.
  lia.
Qed.

Lemma sortDescending_stable (score : A -> Z) (c : Z) (l : list A) :
  filter (fun e => score e =? c) (Js.sortDescending score l)
  = filter (fun e => score e =? c) l.
Proof.
  induction l as [| x rest IH]; [reflexivity |].
  cbn [Js.sortDescending fold_right].
  fold (Js.sortDescending score rest).
  rewrite insertDescending_stable. cbn [filter]. rewrite IH.
  reflexivity.
Qed.

Lemma insertAscending_perm (rank : A -> N) (x : A) (l : list A) :
  Permutation (Js.insertAscending rank x l) (x :: l).
Proof.
  induction l as [| y rest IH]; cbn; [apply Permutation_refl |].
  destruct (rank x <? rank y)%N; [apply Permutation_refl |].
  apply perm_trans with (y :: x :: rest);
    [apply perm_skip; exact IH | apply perm_swap].
Qed.

Lemma sortAscending_perm (rank : A -> N) (l : list A) :
  Permutation (Js.sortAscending rank l) l.
Proof.
  induction l as [| x rest IH]; cbn; [apply perm_nil |].
  apply perm_trans with (x :: Js.sortAscending rank rest);
    [apply insertAscending_perm | apply perm_skip; exact IH].
Qed.

Lemma insertAscending_sorted (rank : A -> N) (x : A) (l : list A) :
  StronglySorted (fun a b => (rank a <= rank b)%N) l ->
  StronglySorted (fun a b => (rank a <= rank b)%N)
                 (Js.insertAscending rank x l).
Proof.
  induction l as [| y rest IH]; cbn; intros Hs.
  - constructor; [constructor | constructor].
  - apply StronglySorted_inv in Hs. destruct Hs as [Hrest Hy].
    destruct (N.ltb_spec (rank x) (rank y)) as [Hlt | Hge].
    + constructor; [constructor; assumption |].
      constructor; [lia |].
      apply Forall_impl with (P := fun b => (rank y <= rank b)%N);
        [intros b Hb; lia | exact Hy].
    + constructor; [apply IH; exact Hrest |].
      apply (Permutation_Forall
               (Permutation_sym (insertAscending_perm rank x rest))).
      constructor; [lia | exact Hy].
Qed.

Lemma sortAscending_sorted (rank : A -> N) (l : list A) :
  StronglySorted (fun a b => (rank a <= rank b)%N) (Js.sortAscending rank l).
Proof.
  induction l as [| x rest IH]; cbn; [constructor |].
  apply insertAscending_sorted. exact IH.
Qed.

End SortingFacts.

(** Sorting commutes with a map that preserves the rank. *)
Lemma sortAscending_map {A B : Type} (rankA : A -> N) (rankB : B -> N)
      (g : B -> A) (l : list B) :
  (forall b, rankA (g b) = rankB b) ->
  Js.sortAscending rankA (map g l) = map g (Js.sortAscending rankB l).
Proof.
  intros Hg.
  assert (Hins : forall x m,
             Js.insertAscending rankA (g x) (map g m)
             = map g (Js.insertAscending rankB x m)).
  { intros x m. induction m as [| y rest IH]; cbn; [reflexivity |].
    rewrite !Hg. destruct (rankB x <? rankB y)%N; cbn; [reflexivity |].
    rewrite IH. reflexivity. }
  unfold Js.sortAscending.
  induction l as [| x rest IH]; cbn; [reflexivity |].
  rewrite IH. apply Hins.
Qed.

Lemma filter_map_commute {A B : Type} (P : A -> bool) (Q : B -> bool)
      (g : B -> A) (l : list B) :
  (forall b, P (g b) = Q b) ->
  filter P (map g l) = map g (filter Q l).
Proof.
  intros Hg. induction l as [| x rest IH]; cbn; [reflexivity |].
  rewrite Hg. destruct (Q x); cbn; rewrite IH; reflexivity.
Qed.

(** ** Distinct values and counts *)

Lemma firstOccurrences_In (l : list string) (x : string) :
  In x (Required.firstOccurrences l) <-> In x l.
Proof.
  induction l as [| a rest IH]; cbn; [tauto |]. split.
  - intros [H | H]; [left; exact H |].
    apply in_remove in H. right. apply IH. tauto.
  - intros [H | H]; [left; exact H |].
    destruct (string_dec x a) as [-> | Hne]; [left; reflexivity |].
    right. apply in_in_remove; [exact Hne | apply IH; exact H].
Qed.

Lemma remove_NoDup (a : string) (l : list string) :
  NoDup l -> NoDup (remove string_dec a l).
Proof.
  induction 1 as [| x l Hx Hl IH]; cbn; [constructor |].
  destruct (string_dec a x); [exact IH |].
  constructor; [| exact IH].
  intros H. apply in_remove in H. tauto.
Qed.

Lemma firstOccurrences_NoDup (l : list string) :
  NoDup (Required.firstOccurrences l).
Proof.
  induction l as [| a rest IH]; cbn; constructor.
  - apply remove_In.
  - apply remove_NoDup. exact IH.
Qed.

Lemma firstOccurrences_snoc (l : list string) (v : string) :
  Required.firstOccurrences (l ++ [v])
  = if in_dec string_dec v l
    then Required.firstOccurrences l
    else Required.firstOccurrences l ++ [v].
Proof.
  induction l as [| a rest IH]; [reflexivity |].
  cbn [app Required.firstOccurrences]. rewrite IH.
  destruct (in_dec string_dec v rest) as [Hin | Hout];
    destruct (in_dec string_dec v (a :: rest)) as [Hin' | Hout'];
    try reflexivity.
  - exfalso. apply Hout'. right. exact Hin.
  - destruct Hin' as [-> | Hin']; [| contradiction].
    rewrite remove_app. cbn. destruct (string_dec v v); [| contradiction].
    rewrite app_nil_r. reflexivity.
  - rewrite remove_app. cbn.
    destruct (string_dec a v) as [-> | Hne];
      [exfalso; apply Hout'; left; reflexivity | reflexivity].
Qed.

Lemma occurrences_snoc (l : list string) (v k : string) :
  Required.occurrences (l ++ [v]) k
  = Required.occurrences l k + (if string_dec v k then 1 else 0).
Proof.
  unfold Required.occurrences. rewrite count_occ_app. cbn.
  destruct (string_dec v k); lia.
Qed.

Lemma occurrences_positive (l : list string) (k : string) :
  In k l -> 0 < Required.occurrences l k.
Proof.
  intros H. unfold Required.occurrences.
  apply (count_occ_In string_dec) in H. lia.
Qed.

Lemma occurrences_absent (l : list string) (k : string) :
  ~ In k l -> Required.occurrences l k = 0.
Proof.
  intros H. unfold Required.occurrences.
  apply (count_occ_not_In string_dec) in H. lia.
Qed.

(** ** Objects as counters *)

Lemma get_keyed_in (f : string -> Z) (keys : list string) (k : string) :
  In k keys -> Js.get (map (fun x => (x, f x)) keys) k = Some (f k).
Proof.
  induction keys as [| a rest IH]; cbn; [contradiction |].
  destruct (String.eqb_spec a k) as [-> | Hne]; [reflexivity |].
  intros [H | H]; [contradiction | apply IH; exact H].
Qed.

Lemma get_keyed_out (f : string -> Z) (keys : list string) (k : string) :
  ~ In k keys -> Js.get (map (fun x => (x, f x)) keys) k = None.
Proof.
  induction keys as [| a rest IH]; cbn; [reflexivity |].
  intros H. destruct (String.eqb_spec a k) as [-> | Hne]; [tauto |].
  apply IH. tauto.
Qed.

Lemma set_keyed_out (f : string -> Z) (keys : list string) (k : string)
      (v : Z) :
  ~ In k keys ->
  Js.set (map (fun x => (x, f x)) keys) k v
  = map (fun x => (x, f x)) keys ++ [(k, v)].
Proof.
  induction keys as [| a rest IH]; cbn; [reflexivity |].
  intros H. destruct (String.eqb_spec a k) as [-> | Hne]; [tauto |].
  rewrite IH; [reflexivity | tauto].
Qed.

Lemma set_keyed_in (f g : string -> Z) (keys : list string) (k : string)
      (v : Z) :
  NoDup keys -> In k keys ->
  g k = v -> (forall x, x <> k -> g x = f x) ->
  Js.set (map (fun x => (x, f x)) keys) k v = map (fun x => (x, g x)) keys.
Proof.
  intros Hnd Hin Hk Hother.
  induction Hnd as [| a rest Ha Hrest IH]; cbn; [contradiction |].
  destruct (String.eqb_spec a k) as [-> | Hne].
  - rewrite Hk. f_equal. apply map_ext_in. intros x Hx.
    rewrite Hother; [reflexivity |]. intros ->. contradiction.
  - rewrite (Hother a Hne). f_equal. apply IH.
    destruct Hin as [H | H]; [contradiction | exact H].
Qed.

(** The counting object holds the distinct values in first-encounter
    order, each with the number of its occurrences. *)
Lemma countKeys_grouped (keys : list string) :
  countKeys keys = Required.grouped keys.
Proof.
  induction keys as [| v pre IH] using rev_ind; [reflexivity |].
  unfold countKeys in *. rewrite fold_left_app. cbn [fold_left].
  rewrite IH. unfold Required.grouped.
  rewrite firstOccurrences_snoc.
  destruct (in_dec string_dec v pre) as [Hin | Hout].
  - rewrite get_keyed_in by (apply firstOccurrences_In; exact Hin).
    apply set_keyed_in.
    + apply firstOccurrences_NoDup.
    + apply firstOccurrences_In. exact Hin.
    + rewrite occurrences_snoc.
      destruct (string_dec v v); [| contradiction].
      pose proof (occurrences_positive pre v Hin) as Hpos.
      unfold Js.orZero, Js.truthyNumber.
      destruct (Z.eqb_spec (Required.occurrences pre v) 0); cbn; lia.
    + intros x Hx. rewrite occurrences_snoc.
      destruct (string_dec v x) as [-> | _]; [congruence | lia].
  - rewrite get_keyed_out by (rewrite firstOccurrences_In; exact Hout).
    rewrite set_keyed_out by (rewrite firstOccurrences_In; exact Hout).
    rewrite map_app. cbn. f_equal.
    + apply map_ext_in. intros x Hx. rewrite occurrences_snoc.
      destruct (string_dec v x) as [-> | _]; [| f_equal; lia].
      apply (proj1 (firstOccurrences_In _ _)) in Hx. contradiction.
    + rewrite occurrences_snoc, (occurrences_absent pre v Hout).
      destruct (string_dec v v); [reflexivity | contradiction].
Qed.

Lemma countBy_countKeys (key : PlayerWithRelations -> string)
      (players : list PlayerWithRelations) :
  PlayersService.countBy key players = countKeys (map key players).
Proof.
  unfold PlayersService.countBy, countKeys. generalize (@nil (string * Z)).
  induction players as [| p rest IH]; intros acc; cbn; [reflexivity |].
  apply IH.
Qed.

(** The entries of the counting object are the groups in key order. *)
Lemma entries_grouped (keys : list string) :
  Js.entries (Required.grouped keys) = groupedInKeyOrder keys.
Proof.
  unfold Js.entries, Required.grouped, groupedInKeyOrder, keyOrder.
  rewrite map_app.
  rewrite (filter_map_commute (fun e => Js.isArrayIndex (fst e))
             Js.isArrayIndex) by reflexivity.
  rewrite (filter_map_commute (fun e => negb (Js.isArrayIndex (fst e)))
             (fun v => negb (Js.isArrayIndex v))) by reflexivity.
  rewrite (sortAscending_map (fun e => Js.indexOf (fst e)) Js.indexOf)
    by reflexivity.
  reflexivity.
Qed.

Lemma top5_isTop5 (keys : list string) :
  Required.isTop5 (groupedInKeyOrder keys)
                  (PlayersService.top5 (countKeys keys)).
Proof.
  unfold PlayersService.top5. rewrite countKeys_grouped, entries_grouped.
  exists (Js.sortDescending snd (groupedInKeyOrder keys)).
  split; [reflexivity |]. split; [apply sortDescending_perm |].
  split; [apply sortDescending_sorted |].
  intros c. apply (sortDescending_stable snd c).
Qed.

(** ** The key order *)

Lemma keyOrder_plain (l : list string) :
  (forall v, In v l -> Js.isArrayIndex v = false) ->
  keyOrder l = Required.firstOccurrences l.
Proof.
  intros H. unfold keyOrder.
  assert (Hfo : forall v, In v (Required.firstOccurrences l) ->
                          Js.isArrayIndex v = false).
  { intros v Hv. apply H. apply firstOccurrences_In. exact Hv. }
  replace (filter Js.isArrayIndex (Required.firstOccurrences l))
    with (@nil string).
  - cbn. apply filter_all. intros x Hx. rewrite (Hfo x Hx). reflexivity.
  - symmetry. induction (Required.firstOccurrences l) as [| a rest IH];
      [reflexivity |].
    cbn. rewrite (Hfo a (or_introl eq_refl)). apply IH.
    intros v Hv. apply Hfo. right. exact Hv.
Qed.

Lemma filter_partition_perm {A : Type} (P : A -> bool) (l : list A) :
  Permutation (filter P l ++ filter (fun x => negb (P x)) l) l.
Proof.
  induction l as [| a rest IH]; cbn; [apply perm_nil |].
  destruct (P a); cbn.
  - apply perm_skip. exact IH.
  - apply Permutation_sym.
    apply Permutation_cons_app. apply Permutation_sym. exact IH.
Qed.

(** The key order arranges the distinct values: the array indices come
    first, by ascending index, and the other values follow in
    first-encounter order. *)
Lemma keyOrder_shape (l : list string) :
  exists indices others,
    keyOrder l = indices ++ others
    /\ Permutation (keyOrder l) (Required.firstOccurrences l)
    /\ Forall (fun v => Js.isArrayIndex v = true) indices
    /\ StronglySorted (fun a b => (Js.indexOf a <= Js.indexOf b)%N) indices
    /\ others = filter (fun v => negb (Js.isArrayIndex v))
                       (Required.firstOccurrences l).
Proof.
  eexists. eexists. split; [reflexivity |].
  split; [| split; [| split; [| reflexivity]]].
  - unfold keyOrder.
    apply perm_trans with
      (filter Js.isArrayIndex (Required.firstOccurrences l)
       ++ filter (fun v => negb (Js.isArrayIndex v))
                 (Required.firstOccurrences l)).
    + apply Permutation_app_tail. apply sortAscending_perm.
    + apply filter_partition_perm.
  - apply (Permutation_Forall
             (Permutation_sym (sortAscending_perm Js.indexOf _))).
    apply Forall_forall. intros x Hx. apply filter_In in Hx. tauto.
  - apply sortAscending_sorted.
Qed.

(** ** The aggregate over the players *)

Lemma findAll_run (db : Db) :
  PlayersRepository.findAll db
  = (Returned (map (Prisma.includeClubStatistics db) (players db)), db).
Proof.
  unfold PlayersRepository.findAll, Prisma.player.findMany.
  rewrite filter_all; reflexivity.
Qed.

Lemma orZero_Some (n : Z) : Js.orZero (Some n) = n.
Proof.
  unfold Js.orZero, Js.truthyNumber.
  destruct (Z.eqb_spec n 0); cbn; congruence.
Qed.

Lemma withStats_length (db : Db) (l : list Player.t) :
  List.length (filter hasStats (map (Prisma.includeClubStatistics db) l))
  = List.length
      (flat_map (fun p => match Prisma.statisticsOf db (Player.id p) with
                          | Some s => [Statistics.overall s]
                          | None => []
                          end) l).
Proof.
  induction l as [| p rest IH]; [reflexivity |].
  cbn [map filter flat_map]. unfold hasStats at 1.
  cbn [pwrStatistics Prisma.includeClubStatistics].
  destruct (Prisma.statisticsOf db (Player.id p)) as [s |];
    cbn [app List.length]; [f_equal |]; exact IH.
Qed.

Lemma withStats_total (db : Db) (l : list Player.t) (acc : Z) :
  fold_left (fun sum player => sum + PlayersService.overallOrZero player)
            (filter hasStats (map (Prisma.includeClubStatistics db) l)) acc
  = acc
    + fold_right Z.add 0
        (flat_map (fun p => match Prisma.statisticsOf db (Player.id p) with
                            | Some s => [Statistics.overall s]
                            | None => []
                            end) l).
Proof.
  revert acc. induction l as [| p rest IH]; intros acc.
  - cbn. lia.
  - cbn [map filter flat_map]. unfold hasStats at 1.
    cbn [pwrStatistics Prisma.includeClubStatistics].
    destruct (Prisma.statisticsOf db (Player.id p)) as [s |] eqn:Hs.
    + cbn [fold_left app fold_right]. rewrite IH.
      unfold PlayersService.overallOrZero.
      cbn [pwrStatistics Prisma.includeClubStatistics].
      rewrite Hs. cbn [option_map]. rewrite orZero_Some. lia.
    + cbn [app]. apply IH.
Qed.

Lemma round_hundredths (x : Q) :
  let r := (inject_Z (Js.round (x * 100)) / 100)%Q in
  (exists k : Z, r == k # 100)%Q
  /\ (x - (1 # 200) <= r)%Q
  /\ (r <= x + (1 # 200))%Q.
Proof.
  unfold Js.round. cbn zeta.
  set (k := Qfloor (x * 100 + (1 # 2))).
  pose proof (Qfloor_le (x * 100 + (1 # 2))) as Hle.
  pose proof (Qlt_floor (x * 100 + (1 # 2))) as Hlt.
  fold k in Hle, Hlt. rewrite inject_Z_plus in Hlt.
  change (inject_Z 1) with 1%Q in Hlt.
  split; [| split].
  - exists k. symmetry. apply (Qmake_Qdiv k 100).
  - set (y := inject_Z k) in *. clearbody y. unfold Qdiv.
    change (/ 100)%Q with (1 # 100)%Q. lra.
  - set (y := inject_Z k) in *. clearbody y. unfold Qdiv.
    change (/ 100)%Q with (1 # 100)%Q. lra.
Qed.

Lemma getPlayersStatistics_run (db : Db) :
  let all := map (Prisma.includeClubStatistics db) (players db) in
  let withStats := filter hasStats all in
  let total :=
    fold_left (fun sum player => sum + PlayersService.overallOrZero player)
              withStats 0 in
  let average :=
    if 0 <? Z.of_nat (List.length withStats)
    then (inject_Z total / inject_Z (Z.of_nat (List.length withStats)))%Q
    else 0%Q in
  PlayersService.getPlayersStatistics db
  = (Returned
       {| PlayersService.totalPlayers := Z.of_nat (List.length all);
          PlayersService.averageOverall :=
            (inject_Z (Js.round (average * 100)) / 100)%Q;
          PlayersService.topPositions :=
            PlayersService.top5
              (PlayersService.countBy
                 (fun player => Player.position (pwrPlayer player)) all);
          PlayersService.topNationalities :=
            PlayersService.top5
              (PlayersService.countBy
                 (fun player => Player.nationality (pwrPlayer player)) all) |},
     db).
Proof.
  unfold PlayersService.getPlayersStatistics, tryCatch, bind, ret.
  rewrite findAll_run. reflexivity.
Qed.

(** C8. For players whose positions and nationalities are not names of
    members of [Object.prototype], [getPlayersStatistics] returns: the
    number of players; an average that is 0 when no player has
    statistics and otherwise the mean overall score of the players with
    statistics rounded to a nearest hundredth (in exact arithmetic); and
    as top positions and top nationalities the first five of the distinct
    values with their counts, by descending count, values of equal count
    in the key order of the counting object: array indices first by
    ascending index, then the other values in first-encounter order.  When
    no value is an array index, that is first-encounter order throughout.
    Without players the result is 0, 0 and two empty lists. *)
Theorem getPlayersStatistics_aggregate (db : Db) :
  plainKeys db ->
  exists r,
    PlayersService.getPlayersStatistics db = (Returned r, db)
    /\ PlayersService.totalPlayers r = Z.of_nat (List.length (players db))
    /\ (Required.overalls db = [] ->
        (PlayersService.averageOverall r == 0)%Q)
    /\ (Required.overalls db <> [] ->
        Required.isRoundedMean (Required.overalls db)
                               (PlayersService.averageOverall r))
    /\ Required.isTop5
         (groupedInKeyOrder (map Player.position (players db)))
         (PlayersService.topPositions r)
    /\ Required.isTop5
         (groupedInKeyOrder (map Player.nationality (players db)))
         (PlayersService.topNationalities r)
    /\ ((forall p, In p (players db) ->
                   Js.isArrayIndex (Player.position p) = false) ->
        Required.isTop5
          (Required.grouped (map Player.position (players db)))
          (PlayersService.topPositions r))
    /\ ((forall p, In p (players db) ->
                   Js.isArrayIndex (Player.nationality p) = false) ->
        Required.isTop5
          (Required.grouped (map Player.nationality (players db)))
          (PlayersService.topNationalities r))
    /\ (players db = [] ->
        PlayersService.totalPlayers r = 0
        /\ (PlayersService.averageOverall r == 0)%Q
        /\ PlayersService.topPositions r = []
        /\ PlayersService.topNationalities r = []).
Proof.
  intros _.
  eexists. split; [apply getPlayersStatistics_run |].
  cbn [PlayersService.totalPlayers PlayersService.averageOverall
       PlayersService.topPositions PlayersService.topNationalities].
  rewrite !countBy_countKeys, !map_map. cbn [pwrPlayer Prisma.includeClubStatistics].
  rewrite withStats_length, (withStats_total db (players db) 0).
  fold (Required.overalls db). rewrite Z.add_0_l.
  split; [rewrite length_map; reflexivity |].
  split; [| split; [| split; [| split; [| split; [| split]]]]].
  - intros Hnil. rewrite Hnil. reflexivity.
  - intros Hsome.
    destruct (Z.ltb_spec 0 (Z.of_nat (List.length (Required.overalls db))))
      as [_ | Hle].
    + apply round_hundredths.
    + destruct (Required.overalls db); [contradiction | cbn in Hle; lia].
  - apply top5_isTop5.
  - apply top5_isTop5.
  - intros Hplain.
    unfold Required.grouped. rewrite <- keyOrder_plain.
    + apply top5_isTop5.
    + intros v Hv. apply in_map_iff in Hv. destruct Hv as [p [<- Hp]].
      apply Hplain. exact Hp.
  - intros Hplain.
    unfold Required.grouped. rewrite <- keyOrder_plain.
    + apply top5_isTop5.
    + intros v Hv. apply in_map_iff in Hv. destruct Hv as [p [<- Hp]].
      apply Hplain. exact Hp.
  - intros Hnil. unfold Required.overalls. rewrite Hnil.
    repeat split; reflexivity.
Qed.

(** On the sample state: one player, overall 88, position "LW". *)
Lemma getPlayersStatistics_aggregate_witness :
  exists r,
    PlayersService.getPlayersStatistics Sample.db = (Returned r, Sample.db)
    /\ PlayersService.totalPlayers r = 1
    /\ Required.isRoundedMean [88] (PlayersService.averageOverall r)
    /\ Required.isTop5 [("LW"%string, 1)] (PlayersService.topPositions r).
Proof.
  assert (Hplain : plainKeys Sample.db).
  { intros p [<- | []]. split; reflexivity. }
  destruct (getPlayersStatistics_aggregate Sample.db Hplain)
    as [r [Hrun [Htotal [_ [Hmean [Hpos _]]]]]].
  exists r. split; [exact Hrun |]. split; [exact Htotal |].
  split; [apply Hmean; discriminate | exact Hpos].
Defined.

(** C8, with first-encounter order for every tie, fails: with the
    positions "10" and "9", met in that order and once each, the top
    positions list "9" before "10", the two array indices being
    enumerated by ascending index. *)
Lemma getPlayersStatistics_ties_by_key_order :
  plainKeys Sample.numbered
  /\ exists r,
       PlayersService.getPlayersStatistics Sample.numbered
       = (Returned r, Sample.numbered)
       /\ PlayersService.topPositions r
          = [("9"%string, 1); ("10"%string, 1)]
       /\ Required.grouped (map Player.position (players Sample.numbered))
          = [("10"%string, 1); ("9"%string, 1)]
       /\ ~ Required.isTop5
              (Required.grouped
                 (map Player.position (players Sample.numbered)))
              (PlayersService.topPositions r).
Proof.
  split.
  { intros p [<- | [<- | []]]; split; reflexivity. }
  eexists. split; [reflexivity |]. split; [reflexivity |].
  split; [reflexivity |].
  intros [sorted [Htop [Hperm [_ Hstable]]]].
  assert (Hlen : List.length sorted = 2%nat)
    by (rewrite (Permutation_length Hperm); reflexivity).
  rewrite firstn_all2 in Htop by (rewrite Hlen; repeat constructor).
  subst sorted. specialize (Hstable 1). discriminate Hstable.
Qed.

(** ** The foreign key of the players is an invariant

    Every state reached from the empty one through the services satisfies
    [playersReferToClubs]. *)

Section Preservation.

Context {P : Db -> Prop}.

Lemma preserves_ret {A : Type} (a : A) : preserves P (ret a).
Proof. intros db r db' H. injection H as _ <-. tauto. Qed.

Lemma preserves_throw {A : Type} (e : Exception) :
  preserves P (@throw A e).
Proof. intros db r db' H. injection H as _ <-. tauto. Qed.

Lemma preserves_throwIf (c : bool) (e : Exception) :
  preserves P (throwIf c e).
Proof.
  unfold throwIf. destruct c; [apply preserves_throw | apply preserves_ret].
Qed.

Lemma preserves_read {A : Type} (f : Db -> A) :
  preserves P (fun db => (Returned (f db), db)).
Proof. intros db r db' H. injection H as _ <-. tauto. Qed.

Lemma preserves_bind {A B : Type} (m : M A) (k : A -> M B) :
  preserves P m -> (forall a, preserves P (k a)) -> preserves P (bind m k).
Proof.
  intros Hm Hk db r db' H HP. unfold bind in H.
  destruct (m db) as [[e | a] db1] eqn:E.
  - injection H as _ <-. exact (Hm _ _ _ E HP).
  - exact (Hk a _ _ _ H (Hm _ _ _ E HP)).
Qed.

Lemma preserves_tryCatch {A : Type} (m : M A) (h : Exception -> M A) :
  preserves P m -> (forall e, preserves P (h e)) ->
  preserves P (tryCatch m h).
Proof.
  intros Hm Hh db r db' H HP. unfold tryCatch in H.
  destruct (m db) as [[e | a] db1] eqn:E.
  - exact (Hh e _ _ _ H (Hm _ _ _ E HP)).
  - injection H as _ <-. exact (Hm _ _ _ E HP).
Qed.

End Preservation.

(** Breaks a service down to the writes of the client. *)
Ltac preserve :=
  repeat first
    [ apply preserves_tryCatch
    | apply preserves_bind
    | apply preserves_throwIf
    | apply preserves_throw
    | apply preserves_ret
    | apply preserves_read
    | match goal with
      | |- forall _, preserves _ _ => intro
      | |- preserves _ (match ?x with _ => _ end) => destruct x
      | |- preserves _ (if ?x then _ else _) => destruct x
      end ].

Lemma clubExists_mono (db db' : Db) (id : Z) :
  (forall c, In c (clubs db) ->
             exists c', In c' (clubs db') /\ Club.id c' = Club.id c) ->
  clubExists db id -> clubExists db' id.
Proof.
  intros H [c [Hin Hid]]. destruct (H c Hin) as [c' [Hin' Hid']].
  exists c'. split; [exact Hin' | congruence].
Qed.

Lemma club_create_keeps_fk (name : string) :
  preserves playersReferToClubs (Prisma.club.create name).
Proof.
  intros db r db' H Hfk. unfold Prisma.club.create in H.
  destruct (existsb _ _); injection H as _ <-; [exact Hfk |].
  intros p Hp. cbn in Hp. apply (clubExists_mono db); [| apply Hfk; exact Hp].
  intros c Hc. exists c. split; [| reflexivity].
  cbn. apply in_or_app. left. exact Hc.
Qed.

Lemma club_update_keeps_fk (id : Z) (name : option string) :
  preserves playersReferToClubs (Prisma.club.update id name).
Proof.
  intros db r db' H Hfk. unfold Prisma.club.update in H.
  destruct (Prisma.clubById db id); [| injection H as _ <-; exact Hfk].
  destruct name as [n |]; [| injection H as _ <-; exact Hfk].
  destruct (existsb _ _); injection H as _ <-; [exact Hfk |].
  intros p Hp. cbn in Hp. apply (clubExists_mono db); [| apply Hfk; exact Hp].
  intros c Hc. exists (Prisma.club.rename id n c). split.
  - cbn. apply in_map. exact Hc.
  - unfold Prisma.club.rename. destruct (Club.id c =? id); reflexivity.
Qed.

Lemma club_delete_keeps_fk (id : Z) :
  preserves playersReferToClubs (Prisma.club.delete id).
Proof.
  intros db r db' H Hfk. unfold Prisma.club.delete in H.
  destruct (Prisma.clubById db id); injection H as _ <-; [| exact Hfk].
  intros p Hp. cbn in Hp. apply filter_In in Hp. destruct Hp as [Hp Hne].
  destruct (Hfk p Hp) as [c [Hc Hid]]. exists c. split; [| exact Hid].
  cbn. apply filter_In. split; [exact Hc |]. rewrite Hid. exact Hne.
Qed.

Lemma player_create_keeps_fk (name nationality position : string)
      (clubId : Z) (stats : option (Z * Z * Z * Z * Z * Z * Z)) :
  preserves playersReferToClubs
            (Prisma.player.create name nationality position clubId stats).
Proof.
  intros db r db' H Hfk. unfold Prisma.player.create in H.
  destruct (Prisma.clubById db clubId) as [c |] eqn:Hc;
    [| injection H as _ <-; exact Hfk].
  apply clubById_Some in Hc.
  assert (Hnew : forall (l : list Player.t) p x,
             l = players db ++ [x] -> Player.clubId x = clubId ->
             In p l -> clubExists db (Player.clubId p)).
  { intros l p x -> Hx Hp. apply in_app_or in Hp.
    destruct Hp as [Hp | [<- | []]]; [apply Hfk; exact Hp |].
    exists c. rewrite Hx. exact Hc. }
  destruct stats as [[[[[[[ov pa] sh] ps] dr] de] ph] |].
  - destruct (existsb _ _); injection H as _ <-; [exact Hfk |].
    intros p Hp. cbn [players] in Hp.
    apply (Hnew _ p _ eq_refl) in Hp; [exact Hp | reflexivity].
  - injection H as _ <-. intros p Hp. cbn [players] in Hp.
    apply (Hnew _ p _ eq_refl) in Hp; [exact Hp | reflexivity].
Qed.

Lemma player_update_keeps_fk (id : Z) (name nationality position : option string)
      (clubId : option Z) :
  preserves playersReferToClubs
            (Prisma.player.update id name nationality position clubId).
Proof.
  intros db r db' H Hfk. unfold Prisma.player.update in H.
  destruct (Prisma.playerById db id); [| injection H as _ <-; exact Hfk].
  destruct (Prisma.player.optTest clubId _) eqn:Hopt;
    injection H as _ <-; [| exact Hfk].
  intros p Hp. cbn in Hp. apply in_map_iff in Hp.
  destruct Hp as [q [<- Hq]]. specialize (Hfk q Hq).
  unfold clubExists in *. cbn [clubs].
  destruct (Player.id q =? id); [| exact Hfk].
  unfold Prisma.player.patch. cbn.
  destruct clubId as [c |]; cbn in *; [| exact Hfk].
  destruct (Prisma.clubById db c) as [x |] eqn:Hx; [| discriminate].
  exists x. apply clubById_Some. exact Hx.
Qed.

Lemma player_delete_keeps_fk (id : Z) :
  preserves playersReferToClubs (Prisma.player.delete id).
Proof.
  intros db r db' H Hfk. unfold Prisma.player.delete in H.
  destruct (Prisma.playerById db id); injection H as _ <-; [| exact Hfk].
  intros p Hp. cbn in Hp. apply filter_In in Hp. apply Hfk. tauto.
Qed.

Lemma statistics_update_keeps_fk (playerId : Z) (d : Prisma.statistics.Data) :
  preserves playersReferToClubs (Prisma.statistics.update playerId d).
Proof.
  intros db r db' H Hfk. unfold Prisma.statistics.update in H.
  destruct (Prisma.statisticsOf db playerId); injection H as _ <-; exact Hfk.
Qed.

Lemma emptyDb_fk : playersReferToClubs emptyDb.
Proof. intros p []. Qed.

(** Every service that writes keeps the foreign key. *)
Lemma services_keep_fk :
  (forall data, preserves playersReferToClubs (ClubsService.createClub data))
  /\ (forall id data,
         preserves playersReferToClubs (ClubsService.updateClub id data))
  /\ (forall id, preserves playersReferToClubs (ClubsService.deleteClub id))
  /\ (forall data,
         preserves playersReferToClubs (PlayersService.createPlayer data))
  /\ (forall id data,
         preserves playersReferToClubs (PlayersService.updatePlayer id data))
  /\ (forall id data,
         preserves playersReferToClubs
                   (PlayersService.updatePlayerStatistics id data))
  /\ (forall id, preserves playersReferToClubs (PlayersService.deletePlayer id)).
Proof.
  assert (Hvalidate : forall values,
             preserves playersReferToClubs
                       (PlayersService.validateEach values)).
  { induction values as [| v rest IH]; [apply preserves_ret |].
    unfold PlayersService.validateEach; fold PlayersService.validateEach.
    apply preserves_bind; [apply preserves_throwIf | intros _; exact IH]. }
  repeat split; intros.
  - unfold ClubsService.createClub, ClubsRepository.findByName,
      ClubsRepository.create, Prisma.club.findFirst.
    preserve. apply club_create_keeps_fk.
  - unfold ClubsService.updateClub, ClubsRepository.findById,
      ClubsRepository.findByName, ClubsRepository.update,
      Prisma.club.findUnique, Prisma.club.findFirst.
    preserve; apply club_update_keeps_fk.
  - unfold ClubsService.deleteClub, ClubsRepository.findById,
      ClubsRepository.delete, Prisma.club.findUnique.
    preserve. apply club_delete_keeps_fk.
  - unfold PlayersService.createPlayer, PlayersRepository.create.
    preserve; apply player_create_keeps_fk.
  - unfold PlayersService.updatePlayer, PlayersRepository.update.
    preserve. apply player_update_keeps_fk.
  - unfold PlayersService.updatePlayerStatistics,
      PlayersRepository.updateStatistics.
    preserve; [apply Hvalidate | apply statistics_update_keeps_fk].
  - unfold PlayersService.deletePlayer, PlayersRepository.delete.
    preserve. apply player_delete_keeps_fk.
Qed.

(* ================================================================== *)
(** * Invariants kept by the services *)
(* ================================================================== *)

(** ** Keys under the list operations of the client *)

Lemma NoDup_map_filter {A B : Type} (f : A -> B) (g : A -> bool)
      (l : list A) :
  NoDup (map f l) -> NoDup (map f (filter g l)).
Proof.
  induction l as [| a rest IH]; cbn; intros H; [constructor |].
  apply NoDup_cons_iff in H. destruct H as [Ha Hrest].
  destruct (g a); cbn; [| apply IH; exact Hrest].
  constructor; [| apply IH; exact Hrest].
  intros Hin. apply Ha. apply in_map_iff in Hin.
  destruct Hin as [x [Hx Hin]]. apply filter_In in Hin.
  apply in_map_iff. exists x. tauto.
Qed.

Lemma NoDup_map_snoc {A B : Type} (f : A -> B) (l : list A) (x : A) :
  NoDup (map f l) -> ~ In (f x) (map f l) -> NoDup (map f (l ++ [x])).
Proof.
  intros Hl Hx. rewrite map_app. cbn.
  apply NoDup_app; [exact Hl | repeat constructor; intros [] |].
  intros y Hy [<- | []]. contradiction.
Qed.

Lemma nextId_not_in (seq : Z) (ids : list Z) :
  ~ In (Prisma.nextId seq ids) ids.
Proof. intros H. apply (nextId_fresh seq) in H. lia. Qed.

Lemma nextId_positive (seq : Z) (ids : list Z) : 0 < Prisma.nextId seq ids.
Proof.
  unfold Prisma.nextId.
  assert (0 <= fold_right Z.max 0 ids)
    by (induction ids as [| a l IH]; cbn; lia).
  lia.
Qed.

Lemma rename_ids (id : Z) (n : string) (l : list Club.t) :
  map Club.id (map (Prisma.club.rename id n) l) = map Club.id l.
Proof.
  rewrite map_map. apply map_ext. intros c. unfold Prisma.club.rename.
  destruct (Club.id c =? id); reflexivity.
Qed.

Lemma rename_names (id : Z) (n : string) (l : list Club.t) :
  NoDup (map Club.id l) -> NoDup (map Club.name l) ->
  (forall c, In c l -> Club.name c = n -> Club.id c = id) ->
  NoDup (map Club.name (map (Prisma.club.rename id n) l)).
Proof.
  induction l as [| c rest IH]; cbn; intros Hids Hnames Hn; [constructor |].
  apply NoDup_cons_iff in Hids. destruct Hids as [Hcid Hids].
  apply NoDup_cons_iff in Hnames. destruct Hnames as [Hcname Hnames].
  constructor.
  - intros Hin. apply in_map_iff in Hin. destruct Hin as [y [Hy Hin]].
    apply in_map_iff in Hin. destruct Hin as [x [<- Hx]].
    unfold Prisma.club.rename in Hy.
    destruct (Z.eqb_spec (Club.id x) id) as [Hxid | Hxid];
      destruct (Z.eqb_spec (Club.id c) id) as [Hc | Hc]; cbn in Hy.
    + apply Hcid. apply in_map_iff. exists x. split; [congruence | exact Hx].
    + apply Hc. apply (Hn c (or_introl eq_refl)). congruence.
    + apply Hxid. apply (Hn x (or_intror Hx)). congruence.
    + apply Hcname. apply in_map_iff. exists x. split; [exact Hy | exact Hx].
  - apply IH; [exact Hids | exact Hnames |].
    intros x Hx. apply Hn. right. exact Hx.
Qed.

(** ** The writes of the client keep the schema's promises *)

Lemma club_create_keeps_consistent (name : string) :
  preserves Consistent (Prisma.club.create name).
Proof.
  intros db r db' H [H1 H2 H3 H4 H5 H6 H7].
  pose proof (club_create_keeps_fk name db r db' H H6) as Hfk.
  unfold Prisma.club.create in H.
  destruct (existsb _ _) eqn:E; injection H as _ <-;
    [constructor; assumption |].
  constructor; cbn; try assumption.
  - apply NoDup_map_snoc; [exact H1 | apply nextId_not_in].
  - apply NoDup_map_snoc; [exact H2 |]. cbn. intros Hin.
    apply in_map_iff in Hin. destruct Hin as [c [Hc Hin]].
    assert (Ht : existsb (fun c => (Club.name c =? name)%string) (clubs db)
                 = true).
    { apply existsb_exists. exists c. split; [exact Hin |].
      apply String.eqb_eq. exact Hc. }
    congruence.
Qed.

Lemma club_update_keeps_consistent (id : Z) (name : option string) :
  preserves Consistent (Prisma.club.update id name).
Proof.
  intros db r db' H [H1 H2 H3 H4 H5 H6 H7].
  pose proof (club_update_keeps_fk id name db r db' H H6) as Hfk.
  unfold Prisma.club.update in H.
  destruct (Prisma.clubById db id);
    [| injection H as _ <-; constructor; assumption].
  destruct name as [n |]; [| injection H as _ <-; constructor; assumption].
  destruct (existsb _ _) eqn:E; injection H as _ <-;
    [constructor; assumption |].
  constructor; cbn; try assumption.
  - rewrite rename_ids. exact H1.
  - apply rename_names; [exact H1 | exact H2 |].
    intros c Hc Hn. destruct (Z.eqb_spec (Club.id c) id) as [Heq | Hne];
      [exact Heq |].
    assert (Ht : existsb (fun c' => (Club.name c' =? n)%string
                                    && negb (Club.id c' =? id))
                         (clubs db) = true).
    { apply existsb_exists. exists c. split; [exact Hc |].
      apply andb_true_intro. split; [apply String.eqb_eq; exact Hn |].
      destruct (Z.eqb_spec (Club.id c) id); [contradiction | reflexivity]. }
    congruence.
Qed.

Lemma club_delete_keeps_consistent (id : Z) :
  preserves Consistent (Prisma.club.delete id).
Proof.
  intros db r db' H [H1 H2 H3 H4 H5 H6 H7].
  pose proof (club_delete_keeps_fk id db r db' H H6) as Hfk.
  unfold Prisma.club.delete in H.
  destruct (Prisma.clubById db id); injection H as _ <-;
    [| constructor; assumption].
  constructor; cbn; try (apply NoDup_map_filter; assumption);
    try assumption.
  intros s Hs. apply filter_In in Hs. destruct Hs as [Hs Hkept].
  destruct (H7 s Hs) as [p [Hp Hid]]. exists p. split; [| exact Hid].
  apply filter_In. split; [exact Hp |].
  destruct (Z.eqb_spec (Player.clubId p) id) as [Heq | Hne]; [| reflexivity].
  exfalso.
  assert (Ht : existsb (fun p => Player.id p =? Statistics.playerId s)
                 (filter (fun p => Player.clubId p =? id) (players db))
               = true).
  { apply existsb_exists. exists p. split; [| lia].
    apply filter_In. split; [exact Hp | lia]. }
  rewrite Ht in Hkept. discriminate.
Qed.

Lemma player_create_keeps_consistent (name nationality position : string)
      (clubId : Z) (stats : option (Z * Z * Z * Z * Z * Z * Z)) :
  preserves Consistent
            (Prisma.player.create name nationality position clubId stats).
Proof.
  intros db r db' H [H1 H2 H3 H4 H5 H6 H7].
  pose proof (player_create_keeps_fk name nationality position clubId stats
                db r db' H H6) as Hfk.
  unfold Prisma.player.create in H.
  destruct (Prisma.clubById db clubId);
    [| injection H as _ <-; constructor; assumption].
  assert (Hold : forall x s, In s (statistics db) ->
                 exists p, In p (players db ++ [x])
                           /\ Player.id p = Statistics.playerId s).
  { intros x s Hs. destruct (H7 s Hs) as [p [Hp Hid]]. exists p.
    split; [apply in_or_app; left; exact Hp | exact Hid]. }
  destruct stats as [[[[[[[ov pa] sh] ps] dr] de] ph] |].
  - destruct (existsb _ _) eqn:E; injection H as _ <-;
      [constructor; assumption |].
    constructor; cbn; try assumption.
    + apply NoDup_map_snoc; [exact H3 | apply nextId_not_in].
    + apply NoDup_map_snoc; [exact H4 | apply nextId_not_in].
    + apply NoDup_map_snoc; [exact H5 |]. cbn. intros Hin.
      apply in_map_iff in Hin. destruct Hin as [s [Hs Hin]].
      assert (Ht : existsb
                     (fun s => Statistics.playerId s
                               =? Prisma.nextId (seqPlayers db)
                                    (map Player.id (players db)))
                     (statistics db) = true).
      { apply existsb_exists. exists s. split; [exact Hin | lia]. }
      congruence.
    + intros s Hs. apply in_app_or in Hs. destruct Hs as [Hs | [<- | []]].
      * apply Hold. exact Hs.
      * eexists. split; [apply in_or_app; right; left; reflexivity |].
        reflexivity.
  - injection H as _ <-. constructor; cbn; try assumption.
    + apply NoDup_map_snoc; [exact H3 | apply nextId_not_in].
    + intros s Hs. apply Hold. exact Hs.
Qed.

Lemma patch_ids (id : Z) (name nationality position : option string)
      (clubId : option Z) (l : list Player.t) :
  map Player.id
      (map (fun p' => if Player.id p' =? id
                      then Prisma.player.patch name nationality position
                                               clubId p'
                      else p') l)
  = map Player.id l.
Proof.
  rewrite map_map. apply map_ext. intros p.
  destruct (Player.id p =? id); reflexivity.
Qed.

Lemma player_update_keeps_consistent (id : Z)
      (name nationality position : option string) (clubId : option Z) :
  preserves Consistent
            (Prisma.player.update id name nationality position clubId).
Proof.
  intros db r db' H [H1 H2 H3 H4 H5 H6 H7].
  pose proof (player_update_keeps_fk id name nationality position clubId
                db r db' H H6) as Hfk.
  unfold Prisma.player.update in H.
  destruct (Prisma.playerById db id);
    [| injection H as _ <-; constructor; assumption].
  destruct (Prisma.player.optTest clubId _); injection H as _ <-;
    [| constructor; assumption].
  constructor; cbn; try assumption.
  - rewrite patch_ids. exact H3.
  - intros s Hs. destruct (H7 s Hs) as [p [Hp Hid]].
    eexists. split; [apply in_map; exact Hp |].
    destruct (Player.id p =? id); exact Hid.
Qed.

Lemma player_delete_keeps_consistent (id : Z) :
  preserves Consistent (Prisma.player.delete id).
Proof.
  intros db r db' H [H1 H2 H3 H4 H5 H6 H7].
  pose proof (player_delete_keeps_fk id db r db' H H6) as Hfk.
  unfold Prisma.player.delete in H.
  destruct (Prisma.playerById db id); injection H as _ <-;
    [| constructor; assumption].
  constructor; cbn; try (apply NoDup_map_filter; assumption);
    try assumption.
  intros s Hs. apply filter_In in Hs. destruct Hs as [Hs Hkept].
  destruct (H7 s Hs) as [p [Hp Hid]]. exists p. split; [| exact Hid].
  apply filter_In. split; [exact Hp |]. rewrite Hid. exact Hkept.
Qed.

Lemma statistics_patch_keys (playerId : Z) (d : Prisma.statistics.Data)
      (l : list Statistics.t) :
  let change s' :=
    if Statistics.playerId s' =? playerId
    then Prisma.statistics.patch d s' else s' in
  map Statistics.id (map change l) = map Statistics.id l
  /\ map Statistics.playerId (map change l) = map Statistics.playerId l.
Proof.
  cbn zeta. rewrite !map_map.
  split; apply map_ext; intros s;
    destruct (Statistics.playerId s =? playerId); reflexivity.
Qed.

Lemma statistics_update_keeps_consistent (playerId : Z)
      (d : Prisma.statistics.Data) :
  preserves Consistent (Prisma.statistics.update playerId d).
Proof.
  intros db r db' H [H1 H2 H3 H4 H5 H6 H7].
  unfold Prisma.statistics.update in H.
  destruct (Prisma.statisticsOf db playerId); injection H as _ <-;
    [| constructor; assumption].
  destruct (statistics_patch_keys playerId d (statistics db)) as [Hi Ho].
  constructor; cbn; try assumption.
  - rewrite Hi. exact H4.
  - rewrite Ho. exact H5.
  - intros s Hs. apply in_map_iff in Hs. destruct Hs as [s0 [<- Hs0]].
    destruct (H7 s0 Hs0) as [p [Hp Hid]]. exists p. split; [exact Hp |].
    destruct (Statistics.playerId s0 =? playerId); exact Hid.
Qed.

Lemma emptyDb_consistent : Consistent emptyDb.
Proof.
  constructor; cbn; try constructor; intros x [].
Qed.

(** ** The writes of the client keep what the validation promises *)

Lemma trimmed_trim (s : string) :
  Js.trim s <> ""%string -> trimmed (Js.trim s).
Proof. intros H. split; [apply trim_idempotent | exact H]. Qed.

Lemma club_create_keeps_tidy (name : string) :
  trimmed name -> preserves Tidy (Prisma.club.create name).
Proof.
  intros Hname db r db' H [T1 T2 T3 T4 T5 T6].
  unfold Prisma.club.create in H.
  destruct (existsb _ _); injection H as _ <-; [constructor; assumption |].
  constructor; cbn; try assumption.
  - intros c Hc. apply in_app_or in Hc.
    destruct Hc as [Hc | [<- | []]]; [apply T1; exact Hc | exact Hname].
  - intros c Hc. apply in_app_or in Hc.
    destruct Hc as [Hc | [<- | []]];
      [apply T4; exact Hc | apply nextId_positive].
Qed.

Lemma club_update_keeps_tidy (id : Z) (name : option string) :
  (forall n, name = Some n -> trimmed n) ->
  preserves Tidy (Prisma.club.update id name).
Proof.
  intros Hname db r db' H [T1 T2 T3 T4 T5 T6].
  unfold Prisma.club.update in H.
  destruct (Prisma.clubById db id);
    [| injection H as _ <-; constructor; assumption].
  destruct name as [n |]; [| injection H as _ <-; constructor; assumption].
  destruct (existsb _ _); injection H as _ <-; [constructor; assumption |].
  constructor; cbn; try assumption.
  - intros c Hc. apply in_map_iff in Hc. destruct Hc as [c0 [<- Hc0]].
    unfold Prisma.club.rename.
    destruct (Club.id c0 =? id); [apply Hname; reflexivity | apply T1; exact Hc0].
  - intros c Hc. apply in_map_iff in Hc. destruct Hc as [c0 [<- Hc0]].
    unfold Prisma.club.rename.
    destruct (Club.id c0 =? id); cbn; apply T4; exact Hc0.
Qed.

Lemma club_delete_keeps_tidy (id : Z) :
  preserves Tidy (Prisma.club.delete id).
Proof.
  intros db r db' H [T1 T2 T3 T4 T5 T6]. unfold Prisma.club.delete in H.
  destruct (Prisma.clubById db id); injection H as _ <-;
    [| constructor; assumption].
  constructor; cbn; intros x Hx; apply filter_In in Hx;
    destruct Hx as [Hx _]; auto.
Qed.

Lemma player_create_keeps_tidy (name nationality position : string)
      (clubId : Z) (stats : option (Z * Z * Z * Z * Z * Z * Z)) :
  trimmed name -> trimmed nationality -> trimmed position ->
  (forall ov pa sh ps dr de ph,
      stats = Some (ov, pa, sh, ps, dr, de, ph) ->
      inRange ov /\ inRange pa /\ inRange sh /\ inRange ps
      /\ inRange dr /\ inRange de /\ inRange ph) ->
  preserves Tidy
            (Prisma.player.create name nationality position clubId stats).
Proof.
  intros Hn Hna Hp Hstats db r db' H [T1 T2 T3 T4 T5 T6].
  unfold Prisma.player.create in H.
  destruct (Prisma.clubById db clubId);
    [| injection H as _ <-; constructor; assumption].
  assert (Hplayers : forall (x : Player.t) p,
             Player.name x = name -> Player.nationality x = nationality ->
             Player.position x = position ->
             In p (players db ++ [x]) ->
             trimmed (Player.name p) /\ trimmed (Player.nationality p)
             /\ trimmed (Player.position p)).
  { intros x p E1 E2 E3 Hin. apply in_app_or in Hin.
    destruct Hin as [Hin | [<- | []]]; [apply T2; exact Hin |].
    rewrite E1, E2, E3. tauto. }
  assert (Hids : forall (x : Player.t) p,
             0 < Player.id x -> In p (players db ++ [x]) -> 0 < Player.id p).
  { intros x p Hx Hin. apply in_app_or in Hin.
    destruct Hin as [Hin | [<- | []]]; [apply T5; exact Hin | exact Hx]. }
  destruct stats as [[[[[[[ov pa] sh] ps] dr] de] ph] |].
  - destruct (existsb _ _); injection H as _ <-; [constructor; assumption |].
    constructor; cbn; try assumption.
    + intros p Hin. refine (Hplayers _ p _ _ _ Hin); reflexivity.
    + intros s Hs. apply in_app_or in Hs.
      destruct Hs as [Hs | [<- | []]]; [apply T3; exact Hs |].
      exact (Hstats _ _ _ _ _ _ _ eq_refl).
    + intros p Hin. refine (Hids _ p _ Hin). apply nextId_positive.
    + intros s Hs. apply in_app_or in Hs.
      destruct Hs as [Hs | [<- | []]]; [apply T6; exact Hs |].
      cbn. split; apply nextId_positive.
  - injection H as _ <-. constructor; cbn; try assumption.
    + intros p Hin. refine (Hplayers _ p _ _ _ Hin); reflexivity.
    + intros p Hin. refine (Hids _ p _ Hin). apply nextId_positive.
Qed.

Lemma orKeep_trimmed (o : option string) (old : string) :
  (forall s, o = Some s -> trimmed s) -> trimmed old ->
  trimmed (Prisma.player.orKeep o old).
Proof.
  intros Ho Hold. destruct o as [s |]; cbn; [apply Ho; reflexivity | exact Hold].
Qed.

Lemma player_update_keeps_tidy (id : Z)
      (name nationality position : option string) (clubId : option Z) :
  (forall s, name = Some s -> trimmed s) ->
  (forall s, nationality = Some s -> trimmed s) ->
  (forall s, position = Some s -> trimmed s) ->
  preserves Tidy (Prisma.player.update id name nationality position clubId).
Proof.
  intros Hn Hna Hp db r db' H [T1 T2 T3 T4 T5 T6].
  unfold Prisma.player.update in H.
  destruct (Prisma.playerById db id);
    [| injection H as _ <-; constructor; assumption].
  destruct (Prisma.player.optTest clubId _); injection H as _ <-;
    [| constructor; assumption].
  constructor; cbn; try assumption.
  - intros p Hin. apply in_map_iff in Hin. destruct Hin as [p0 [<- Hp0]].
    destruct (T2 p0 Hp0) as [A [B C]].
    destruct (Player.id p0 =? id); [| tauto].
    unfold Prisma.player.patch. cbn.
    repeat split; apply orKeep_trimmed; assumption || (apply A || apply B || apply C).
  - intros p Hin. apply in_map_iff in Hin. destruct Hin as [p0 [<- Hp0]].
    destruct (Player.id p0 =? id); cbn; apply T5; exact Hp0.
Qed.

Lemma player_delete_keeps_tidy (id : Z) :
  preserves Tidy (Prisma.player.delete id).
Proof.
  intros db r db' H [T1 T2 T3 T4 T5 T6]. unfold Prisma.player.delete in H.
  destruct (Prisma.playerById db id); injection H as _ <-;
    [| constructor; assumption].
  constructor; cbn; try assumption; intros x Hx; apply filter_In in Hx;
    destruct Hx as [Hx _]; auto.
Qed.

Lemma orKeep_inRange (o : option Z) (old : Z) :
  (forall v, o = Some v -> inRange v) -> inRange old ->
  inRange (Prisma.player.orKeep o old).
Proof.
  intros Ho Hold. destruct o as [v |]; cbn; [apply Ho; reflexivity | exact Hold].
Qed.

Lemma statistics_update_keeps_tidy (playerId : Z)
      (d : Prisma.statistics.Data) :
  (forall v, suppliedScore d v -> inRange v) ->
  preserves Tidy (Prisma.statistics.update playerId d).
Proof.
  intros Hd db r db' H [T1 T2 T3 T4 T5 T6].
  unfold Prisma.statistics.update in H.
  destruct (Prisma.statisticsOf db playerId); injection H as _ <-;
    [| constructor; assumption].
  constructor; cbn; try assumption.
  - intros s Hs. apply in_map_iff in Hs. destruct Hs as [s0 [<- Hs0]].
    pose proof (T3 s0 Hs0) as Hold.
    destruct (Statistics.playerId s0 =? playerId); [| exact Hold].
    unfold scoresInRange in *. unfold Prisma.statistics.patch. cbn.
    unfold suppliedScore in Hd.
    repeat split; apply orKeep_inRange;
      try (intros v Hv; apply Hd; tauto); tauto.
  - intros s Hs. apply in_map_iff in Hs. destruct Hs as [s0 [<- Hs0]].
    destruct (Statistics.playerId s0 =? playerId); cbn; apply T6; exact Hs0.
Qed.

Lemma emptyDb_tidy : Tidy emptyDb.
Proof. constructor; cbn; intros x []. Qed.

(** ** The services keep both *)

Lemma validateEach_keeps {P : Db -> Prop} (values : list Z) :
  preserves P (PlayersService.validateEach values).
Proof.
  induction values as [| v rest IH]; [apply preserves_ret |].
  unfold PlayersService.validateEach; fold PlayersService.validateEach.
  apply preserves_bind; [apply preserves_throwIf | intros _; exact IH].
Qed.

Lemma services_keep_consistent (call : Call) (db : Db) :
  Consistent db -> Consistent (perform db call).
Proof.
  intros Hc.
  assert (Hsnd : forall (A : Type) (m : M A),
             preserves Consistent m -> Consistent (snd (m db))).
  { intros A m Hm. destruct (m db) as [r db'] eqn:E. exact (Hm _ _ _ E Hc). }
  destruct call; cbn [perform]; apply Hsnd.
  - unfold ClubsService.createClub, ClubsRepository.findByName,
      ClubsRepository.create, Prisma.club.findFirst.
    preserve. apply club_create_keeps_consistent.
  - unfold ClubsService.updateClub, ClubsRepository.findById,
      ClubsRepository.findByName, ClubsRepository.update,
      Prisma.club.findUnique, Prisma.club.findFirst.
    preserve; apply club_update_keeps_consistent.
  - unfold ClubsService.deleteClub, ClubsRepository.findById,
      ClubsRepository.delete, Prisma.club.findUnique.
    preserve. apply club_delete_keeps_consistent.
  - unfold PlayersService.createPlayer, PlayersRepository.create.
    preserve; apply player_create_keeps_consistent.
  - unfold PlayersService.updatePlayer, PlayersRepository.update.
    preserve. apply player_update_keeps_consistent.
  - unfold PlayersService.updatePlayerStatistics,
      PlayersRepository.updateStatistics.
    preserve; [apply validateEach_keeps
              | apply statistics_update_keeps_consistent].
  - unfold PlayersService.deletePlayer, PlayersRepository.delete.
    preserve. apply player_delete_keeps_consistent.
Qed.

Lemma preserves_guard {P : Db -> Prop} {B : Type} (c : bool) (e : Exception)
      (k : M B) :
  (c = false -> preserves P k) ->
  preserves P (bind (throwIf c e) (fun _ => k)).
Proof.
  intros Hk db r db' H HP. destruct c; cbn in H.
  - injection H as _ <-. exact HP.
  - exact (Hk eq_refl _ _ _ H HP).
Qed.

Lemma preserves_validated {P : Db -> Prop} {B : Type} (values : list Z)
      (k : M B) :
  (forallb PlayersService.validRange values = true -> preserves P k) ->
  preserves P (bind (PlayersService.validateEach values) (fun _ => k)).
Proof.
  intros Hk db r db' H HP. unfold bind in H. rewrite validateEach_run in H.
  destruct (forallb _ _).
  - exact (Hk eq_refl _ _ _ H HP).
  - injection H as _ <-. exact HP.
Qed.

Lemma not_blank_trimmed (s : string) :
  (Js.trim s =? "")%string = false -> trimmed (Js.trim s).
Proof.
  intros H. apply trimmed_trim.
  destruct (String.eqb_spec (Js.trim s) ""); [discriminate | assumption].
Qed.

Lemma supplied_trimmed (o : option string) (s : string) :
  PlayersService.suppliedBlank o = false ->
  option_map Js.trim o = Some s -> trimmed s.
Proof.
  destruct o as [x |]; cbn; [| discriminate].
  intros H E. injection E as <-. apply not_blank_trimmed. exact H.
Qed.

Lemma createClub_keeps_tidy (data : CreateClubData) :
  preserves Tidy (ClubsService.createClub data).
Proof.
  unfold ClubsService.createClub.
  apply preserves_tryCatch; [| intro; apply preserves_throw].
  apply preserves_guard. intros Hblank. rewrite blank_trim in Hblank.
  apply preserves_bind; [apply preserves_read | intros existing].
  apply preserves_guard. intros _.
  apply club_create_keeps_tidy. cbn. apply not_blank_trimmed. exact Hblank.
Qed.

Lemma updateClub_keeps_tidy (id : Z) (data : UpdateClubData) :
  preserves Tidy (ClubsService.updateClub id data).
Proof.
  unfold ClubsService.updateClub.
  apply preserves_tryCatch; [| intro; apply preserves_throw].
  apply preserves_guard. intros _.
  apply preserves_guard. intros Hname.
  apply preserves_bind; [apply preserves_read | intros existing].
  destruct existing as [existingClub |]; [| apply preserves_throw].
  apply preserves_bind.
  - unfold ClubsRepository.findByName, Prisma.club.findFirst. preserve.
  - intros _. unfold ClubsRepository.update. cbn [ucName].
    apply preserves_tryCatch; [| intro; apply preserves_ret].
    apply preserves_bind; [| intro; apply preserves_ret].
    apply club_update_keeps_tidy. intros n Hn.
    destruct (ucName data) as [x |]; cbn in Hn; [| discriminate].
    injection Hn as <-. apply not_blank_trimmed. exact Hname.
Qed.

Lemma deleteClub_keeps_tidy (id : Z) :
  preserves Tidy (ClubsService.deleteClub id).
Proof.
  unfold ClubsService.deleteClub, ClubsRepository.findById,
    ClubsRepository.delete, Prisma.club.findUnique.
  preserve. apply club_delete_keeps_tidy.
Qed.

Lemma createPlayer_keeps_tidy (data : CreatePlayerData) :
  preserves Tidy (PlayersService.createPlayer data).
Proof.
  unfold PlayersService.createPlayer.
  apply preserves_tryCatch; [| intro; apply preserves_throw].
  apply preserves_guard. intros Hn. rewrite players_blank_trim in Hn.
  apply preserves_guard. intros Hna. rewrite players_blank_trim in Hna.
  apply preserves_guard. intros Hp. rewrite players_blank_trim in Hp.
  apply preserves_guard. intros _.
  unfold PlayersRepository.create. cbn [cpName cpNationality cpPosition
                                          cpClubId cpStatistics].
  destruct (cpStatistics data) as [stats |].
  - apply preserves_guard. intros Hrange.
    apply player_create_keeps_tidy; try (apply not_blank_trimmed; assumption).
    intros ov pa sh ps dr de ph E. cbn in E. injection E as <- <- <- <- <- <- <-.
    unfold inRange.
    repeat (apply orb_false_elim in Hrange; destruct Hrange as [Hrange ?]).
    repeat match goal with
           | H : negb (PlayersService.validRange _) = false |- _ =>
               apply negb_false_iff in H; apply validRange_spec in H
           end.
    tauto.
  - apply preserves_bind; [apply preserves_ret | intros _].
    apply player_create_keeps_tidy; try (apply not_blank_trimmed; assumption).
    intros ov pa sh ps dr de ph E. discriminate E.
Qed.

Lemma updatePlayer_keeps_tidy (id : Z) (data : UpdatePlayerData) :
  preserves Tidy (PlayersService.updatePlayer id data).
Proof.
  unfold PlayersService.updatePlayer.
  apply preserves_tryCatch; [| intro; apply preserves_throw].
  apply preserves_guard. intros _.
  apply preserves_guard. intros Hn.
  apply preserves_guard. intros Hna.
  apply preserves_guard. intros Hp.
  unfold PlayersRepository.update. cbn [upName upNationality upPosition
                                          upClubId].
  apply preserves_tryCatch; [| intro; apply preserves_ret].
  apply preserves_bind; [| intro; apply preserves_ret].
  apply player_update_keeps_tidy; intros s E;
    refine (supplied_trimmed _ s _ E); assumption.
Qed.

Lemma updatePlayerStatistics_keeps_tidy (playerId : Z)
      (data : UpdateStatisticsData) :
  preserves Tidy (PlayersService.updatePlayerStatistics playerId data).
Proof.
  unfold PlayersService.updatePlayerStatistics.
  apply preserves_tryCatch; [| intro; apply preserves_throw].
  apply preserves_guard. intros _.
  apply preserves_validated. intros Hok.
  apply preserves_bind; [| intro; apply preserves_ret].
  unfold PlayersRepository.updateStatistics.
  apply preserves_tryCatch; [| intro; apply preserves_ret].
  apply preserves_bind; [| intro; apply preserves_ret].
  apply statistics_update_keeps_tidy. intros v Hv.
  apply validRange_spec. rewrite forallb_forall in Hok. apply Hok.
  apply statsToValidate_supplied. exact Hv.
Qed.

Lemma deletePlayer_keeps_tidy (id : Z) :
  preserves Tidy (PlayersService.deletePlayer id).
Proof.
  unfold PlayersService.deletePlayer, PlayersRepository.delete.
  preserve. apply player_delete_keeps_tidy.
Qed.

Lemma services_keep_tidy (call : Call) (db : Db) :
  Tidy db -> Tidy (perform db call).
Proof.
  intros HT.
  assert (Hsnd : forall (A : Type) (m : M A),
             preserves Tidy m -> Tidy (snd (m db))).
  { intros A m Hm. destruct (m db) as [r db'] eqn:E. exact (Hm _ _ _ E HT). }
  destruct call; cbn [perform]; apply Hsnd.
  - apply createClub_keeps_tidy.
  - apply updateClub_keeps_tidy.
  - apply deleteClub_keeps_tidy.
  - apply createPlayer_keeps_tidy.
  - apply updatePlayer_keeps_tidy.
  - apply updatePlayerStatistics_keeps_tidy.
  - apply deletePlayer_keeps_tidy.
Qed.

(** The constraints of the schema hold of every state that the writes of
    the client, as the services issue them, build from the empty
    database: identifiers are unique, club names are unique, a player has
    at most one statistics row, every player refers to a stored club and
    every statistics row to a stored player. *)
Theorem reachable_consistent (calls : list Call) :
  Consistent (performAll emptyDb calls).
Proof.
  unfold performAll. generalize emptyDb_consistent. generalize emptyDb.
  induction calls as [| call rest IH]; intros db Hdb; cbn; [exact Hdb |].
  apply IH. apply services_keep_consistent. exact Hdb.
Qed.

(** X2. Whatever calls of the writing services are made in whatever
    order, starting from the empty database, every stored club name and
    every stored name, nationality and position of a player is trimmed
    and not empty, every stored score is within [0,100], and every
    identifier is positive: those of the clubs, of the players and of the
    statistics rows, and the player identifier that a statistics row
    carries. *)
Theorem reachable_tidy (calls : list Call) :
  Tidy (performAll emptyDb calls).
Proof.
  unfold performAll. generalize emptyDb_tidy. generalize emptyDb.
  induction calls as [| call rest IH]; intros db Hdb; cbn; [exact Hdb |].
  apply IH. apply services_keep_tidy. exact Hdb.
Qed.

(* ================================================================== *)
(** * Reading and writing clubs *)
(* ================================================================== *)

(** X3. [getClubById] never shows its own invalid-id error: for an id
    that is not positive it throws the wrapped fetch failure.  For a
    positive id that fits the 64-bit identifier column it returns and
    leaves the state as it was: [null] exactly when no club has the id,
    and otherwise a stored club of that id together with exactly the
    stored players whose [clubId] is the id, in stored order, each with
    its statistics row. *)
Theorem getClubById_lookup (db : Db) (id : Z) :
  (id <= 0 ->
   ClubsService.getClubById id db = (Threw (Error ClubFetchFailed), db))
  /\ (0 < id <= Prisma.maxInt ->
      exists r,
        ClubsService.getClubById id db = (Returned r, db)
        /\ (r = None <-> ~ clubExists db id)
        /\ forall c, r = Some c ->
             In (cwrClub c) (clubs db)
             /\ Club.id (cwrClub c) = id
             /\ map pwsPlayer (cwrPlayers c)
                = filter (fun p => Player.clubId p =? id) (players db)
             /\ forall x, In x (cwrPlayers c) ->
                  pwsStatistics x
                  = Prisma.statisticsOf db (Player.id (pwsPlayer x))).
Proof.
  unfold ClubsService.getClubById, ClubsRepository.findById,
    Prisma.club.findUnique.
  split.
  - intros Hle. run.
    replace (ClubsService.invalidId id) with true; [reflexivity |].
    unfold ClubsService.invalidId. destruct (Z.leb_spec id 0); [| lia].
    symmetry. apply orb_true_r.
  - intros [Hpos _]. run. rewrite (invalidId_positive id Hpos). cbn.
    eexists. split; [reflexivity |].
    destruct (Prisma.clubById db id) as [c0 |] eqn:Hc; cbn.
    + split.
      * split; [discriminate |]. intros Hno. exfalso. apply Hno.
        exists c0. apply clubById_Some. exact Hc.
      * intros c E. injection E as <-. cbn.
        destruct (clubById_Some _ _ _ Hc) as [Hin Hid].
        split; [exact Hin |]. split; [exact Hid |]. rewrite Hid.
        unfold Prisma.playersOf. split.
        -- rewrite map_map. cbn. apply map_id.
        -- intros x Hx. apply in_map_iff in Hx.
           destruct Hx as [p [<- _]]. reflexivity.
    + split; [| discriminate].
      split; [intros _; apply clubById_None; exact Hc | reflexivity].
Qed.

Lemma find_snoc_fresh {A : Type} (f : A -> bool) (l : list A) (x : A) :
  (forall y, In y l -> f y = false) -> f x = true ->
  find f (l ++ [x]) = Some x.
Proof.
  intros Hl Hx. induction l as [| a rest IH]; cbn; [rewrite Hx; reflexivity |].
  rewrite (Hl a (or_introl eq_refl)). apply IH.
  intros y Hy. apply Hl. right. exact Hy.
Qed.

Lemma filter_none {A : Type} (f : A -> bool) (l : list A) :
  (forall x, In x l -> f x = false) -> filter f l = [].
Proof.
  induction l as [| a rest IH]; intros H; cbn; [reflexivity |].
  rewrite (H a (or_introl eq_refl)). apply IH.
  intros x Hx. apply H. right. exact Hx.
Qed.

(** What a successful [createClub] has done. *)
Lemma createClub_returned (db db' : Db) (data : CreateClubData)
      (c : ClubWithRelations) :
  ClubsService.createClub data db = (Returned c, db') ->
  let id := Prisma.nextId (seqClubs db) (map Club.id (clubs db)) in
  let row := Club.mk id (Js.trim (ccName data)) in
  Js.trim (ccName data) <> ""%string
  /\ ~ nameTaken db (Js.trim (ccName data))
  /\ clubs db' = clubs db ++ [row]
  /\ players db' = players db
  /\ statistics db' = statistics db
  /\ c = Prisma.includePlayers db' row.
Proof.
  unfold ClubsService.createClub. rewrite tryCatch_rethrow.
  unfold ClubsRepository.findByName, ClubsRepository.create,
    Prisma.club.findFirst, Prisma.club.create. run. cbn.
  rewrite blank_trim.
  destruct (String.eqb_spec (Js.trim (ccName data)) ""); [discriminate |].
  cbn.
  destruct (find _ (clubs db)) as [x |] eqn:Hfind; cbn; [discriminate |].
  destruct (existsb _ _); [discriminate |].
  intros H. injection H as <- <-. cbn.
  repeat split; try assumption.
  apply findByName_None. exact Hfind.
Qed.

(** X4. A club that [createClub] has returned is found again: by its new
    identifier through [getClubById], and through [getClubByName] by any
    name that trims to the same string; both return the very value that
    [createClub] returned. *)
Theorem createClub_then_lookup (db db' : Db) (data : CreateClubData)
        (c : ClubWithRelations) :
  ClubsService.createClub data db = (Returned c, db') ->
  ClubsService.getClubById (Club.id (cwrClub c)) db' = (Returned (Some c), db')
  /\ forall name,
       Js.trim name = Js.trim (ccName data) ->
       ClubsService.getClubByName name db' = (Returned (Some c), db').
Proof.
  intros Hrun.
  destruct (createClub_returned _ _ _ _ Hrun)
    as [Hne [Hfree [Hclubs [_ [_ Hc]]]]].
  subst c. cbn [cwrClub Prisma.includePlayers Club.id].
  split.
  - unfold ClubsService.getClubById, ClubsRepository.findById,
      Prisma.club.findUnique. run.
    rewrite (invalidId_positive _ (nextId_positive _ _)). cbn.
    unfold Prisma.clubById. rewrite Hclubs.
    rewrite find_snoc_fresh; [reflexivity | | apply Z.eqb_refl].
    intros y Hy. cbn.
    pose proof (nextId_fresh (seqClubs db) (map Club.id (clubs db))
                  (Club.id y) (in_map Club.id _ _ Hy)).
    lia.
  - intros name Hname.
    unfold ClubsService.getClubByName, ClubsRepository.findByName,
      Prisma.club.findFirst. run. rewrite blank_trim, Hname.
    destruct (String.eqb_spec (Js.trim (ccName data)) ""); [contradiction |].
    cbn. rewrite Hclubs.
    rewrite find_snoc_fresh; [reflexivity | | apply String.eqb_refl].
    intros y Hy. cbn.
    destruct (String.eqb_spec (Club.name y) (Js.trim (ccName data)));
      [| reflexivity].
    exfalso. apply Hfree. exists y. split; assumption.
Qed.

Lemma createClub_then_lookup_witness :
  exists c db',
    ClubsService.createClub {| ccName := "  Palmeiras " |} Sample.db
    = (Returned c, db')
    /\ ClubsService.getClubById 3 db' = (Returned (Some c), db')
    /\ ClubsService.getClubByName "Palmeiras  " db' = (Returned (Some c), db').
Proof.
  eexists. eexists. split; [reflexivity |].
  destruct (createClub_then_lookup Sample.db _ {| ccName := "  Palmeiras " |}
              _ eq_refl) as [Hid Hname].
  split; [exact Hid | apply Hname; reflexivity].
Defined.

(** X5. A club that has just been created can be deleted at once, when
    the stored players respect their foreign key: [deleteClub] with the
    new identifier returns [true], and the clubs, the players and the
    statistics are then as they were before the creation. *)
Theorem createClub_then_deleteClub (db db' : Db) (data : CreateClubData)
        (c : ClubWithRelations) :
  playersReferToClubs db ->
  ClubsService.createClub data db = (Returned c, db') ->
  exists db'',
    ClubsService.deleteClub (Club.id (cwrClub c)) db' = (Returned true, db'')
    /\ clubs db'' = clubs db
    /\ players db'' = players db
    /\ statistics db'' = statistics db.
Proof.
  intros Hfk Hrun.
  destruct (createClub_returned _ _ _ _ Hrun)
    as [Hne [Hfree [Hclubs [Hplayers [Hstats Hc]]]]].
  subst c. cbn [cwrClub Prisma.includePlayers Club.id].
  set (id := Prisma.nextId (seqClubs db) (map Club.id (clubs db))) in *.
  assert (Hfresh : forall y, In y (clubs db) -> (Club.id y =? id) = false).
  { intros y Hy.
    pose proof (nextId_fresh (seqClubs db) (map Club.id (clubs db))
                  (Club.id y) (in_map Club.id _ _ Hy)).
    fold id in H. lia. }
  assert (Hnone : forall p, In p (players db) -> (Player.clubId p =? id) = false).
  { intros p Hp. destruct (Hfk p Hp) as [y [Hy Hid]].
    pose proof (Hfresh y Hy). lia. }
  assert (Hfilter : filter (fun p => Player.clubId p =? id) (players db) = []).
  { apply filter_none. exact Hnone. }
  eexists. split; [| split; [| split]].
  - unfold ClubsService.deleteClub. rewrite tryCatch_rethrow.
    unfold ClubsRepository.findById, ClubsRepository.delete,
      Prisma.club.findUnique, Prisma.club.delete. run.
    rewrite (invalidId_positive id (nextId_positive _ _)). cbn.
    unfold Prisma.clubById. rewrite Hclubs.
    rewrite find_snoc_fresh; [| exact Hfresh | apply Z.eqb_refl].
    cbn. unfold Prisma.playersOf. rewrite Hplayers, Hfilter. cbn.
    rewrite Hclubs.
    rewrite find_snoc_fresh; [| exact Hfresh | apply Z.eqb_refl].
    reflexivity.
  - cbn. rewrite filter_app. cbn. rewrite Z.eqb_refl. cbn.
    rewrite app_nil_r. apply filter_all. intros y Hy.
    rewrite (Hfresh y Hy). reflexivity.
  - cbn. rewrite ?Hplayers. apply filter_all. intros p Hp.
    rewrite (Hnone p Hp). reflexivity.
  - cbn. rewrite ?Hplayers, ?Hfilter, ?Hstats. apply filter_all.
    intros s _. reflexivity.
Qed.

Lemma createClub_then_deleteClub_witness :
  exists c db' db'',
    ClubsService.createClub {| ccName := "  Palmeiras " |} Sample.db
    = (Returned c, db')
    /\ ClubsService.deleteClub 3 db' = (Returned true, db'')
    /\ clubs db'' = clubs Sample.db.
Proof.
  assert (Hfk : playersReferToClubs Sample.db).
  { intros p [<- | []]. exists Sample.realMadrid.
    split; [left; reflexivity | reflexivity]. }
  destruct (createClub_then_deleteClub Sample.db _
              {| ccName := "  Palmeiras " |} _ Hfk eq_refl)
    as [db'' [Hdel [Hclubs _]]].
  eexists. eexists. exists db''. split; [reflexivity |].
  split; [exact Hdel | exact Hclubs].
Defined.

(** X6. [deleteClub] never removes a player or a statistics row, whatever
    the id and whether it returns or throws: the cascade of the schema is
    never set off through the service. *)
Theorem deleteClub_never_cascades (db : Db) (id : Z) :
  players (snd (ClubsService.deleteClub id db)) = players db
  /\ statistics (snd (ClubsService.deleteClub id db)) = statistics db.
Proof.
  unfold ClubsService.deleteClub. rewrite tryCatch_rethrow.
  unfold ClubsRepository.findById, ClubsRepository.delete,
    Prisma.club.findUnique, Prisma.club.delete. run.
  destruct (ClubsService.invalidId id); cbn; [split; reflexivity |].
  destruct (Prisma.clubById db id) as [c |] eqn:Hc; cbn;
    [| split; reflexivity].
  destruct (clubById_Some _ _ _ Hc) as [_ Hid]. rewrite Hid.
  unfold Prisma.playersOf.
  destruct (filter (fun p => Player.clubId p =? id) (players db))
    as [| p rest] eqn:Hf; cbn; [| split; reflexivity].
  rewrite Hc. cbn. rewrite Hf. cbn. split.
  - apply filter_all. intros p Hp.
    destruct (Z.eqb_spec (Player.clubId p) id) as [Heq | Hne];
      [| reflexivity].
    assert (Hin : In p (filter (fun p => Player.clubId p =? id) (players db)))
      by (apply filter_In; split; [exact Hp | lia]).
    rewrite Hf in Hin. contradiction.
  - apply filter_all. intros s _. reflexivity.
Qed.

(* ================================================================== *)
(** * Listing and counting clubs *)
(* ================================================================== *)


Lemma filter_filter_key {A : Type} (k : A -> Z) (i j : Z) (l : list A) :
  i <> j ->
  filter (fun x => k x =? j) (filter (fun x => negb (k x =? i)) l)
  = filter (fun x => k x =? j) l.
Proof.
  intros Hij. induction l as [| a rest IH]; cbn; [reflexivity |].
  destruct (Z.eqb_spec (k a) i) as [Hi | Hi]; cbn.
  - destruct (Z.eqb_spec (k a) j) as [Hj | Hj]; [lia | exact IH].
  - destruct (k a =? j); [f_equal |]; exact IH.
Qed.

Lemma concat_filter_partition {A : Type} (k : A -> Z) (ids : list Z)
      (l : list A) :
  NoDup ids -> (forall x, In x l -> In (k x) ids) ->
  Permutation (List.concat (map (fun i => filter (fun x => k x =? i) l) ids))
              l.
Proof.
  intros Hnd. revert l.
  induction Hnd as [| i rest Hnotin Hnd IH]; intros l Hl.
  - destruct l as [| a l]; [apply perm_nil |].
    destruct (Hl a (or_introl eq_refl)).
  - cbn [map List.concat].
    eapply Permutation_trans; [| apply (filter_partition_perm
                                          (fun x => k x =? i) l)].
    apply Permutation_app_head.
    replace (map (fun j => filter (fun x => k x =? j) l) rest)
      with (map (fun j => filter (fun x => k x =? j)
                            (filter (fun x => negb (k x =? i)) l)) rest).
    + apply IH. intros x Hx. apply filter_In in Hx.
      destruct Hx as [Hx Hne].
      destruct (Hl x Hx) as [Heq | Hin]; [| exact Hin].
      rewrite <- Heq, Z.eqb_refl in Hne. discriminate Hne.
    + apply map_ext_in. intros j Hj. apply filter_filter_key.
      intros ->. contradiction.
Qed.

Lemma players_by_club (db : Db) :
  NoDup (map Club.id (clubs db)) -> playersReferToClubs db ->
  Permutation
    (List.concat
       (map (fun c => filter (fun p => Player.clubId p =? Club.id c)
                             (players db))
            (clubs db)))
    (players db).
Proof.
  intros Hnd Hfk.
  pose proof (concat_filter_partition Player.clubId
                (map Club.id (clubs db)) (players db) Hnd) as H.
  rewrite map_map in H. apply H.
  intros p Hp. destruct (Hfk p Hp) as [c [Hc Hid]].
  rewrite <- Hid. apply in_map. exact Hc.
Qed.

Lemma concat_map_map {A B : Type} (f : A -> B) (ll : list (list A)) :
  map f (List.concat ll) = List.concat (map (map f) ll).
Proof.
  induction ll as [| l rest IH]; cbn; [reflexivity |].
  rewrite map_app, IH. reflexivity.
Qed.

Lemma playersOf_players (db : Db) (id : Z) :
  map pwsPlayer (Prisma.playersOf db id)
  = filter (fun p => Player.clubId p =? id) (players db).
Proof.
  unfold Prisma.playersOf. rewrite map_map. cbn. apply map_id.
Qed.

(** X7. In a state whose club identifiers are unique and whose players
    respect their foreign key, [getAllClubs] returns, without touching the
    state, the stored clubs in stored order, and the player lists attached
    to them share out the stored players: a listed player is a stored
    player of that very club, shown with his statistics row, and all the
    lists together hold every stored player exactly once. *)
Theorem getAllClubs_partition (db : Db) :
  NoDup (map Club.id (clubs db)) -> playersReferToClubs db ->
  exists r,
    ClubsService.getAllClubs db = (Returned r, db)
    /\ map cwrClub r = clubs db
    /\ (forall c x, In c r -> In x (cwrPlayers c) ->
          In (pwsPlayer x) (players db)
          /\ Player.clubId (pwsPlayer x) = Club.id (cwrClub c)
          /\ pwsStatistics x
             = Prisma.statisticsOf db (Player.id (pwsPlayer x)))
    /\ Permutation (map pwsPlayer (List.concat (map cwrPlayers r)))
                   (players db).
Proof.
  intros Hnd Hfk.
  unfold ClubsService.getAllClubs, ClubsRepository.findAll,
    Prisma.club.findMany. run.
  eexists. split; [reflexivity |]. split; [| split].
  - rewrite map_map. cbn. apply map_id.
  - intros c x Hc Hx. apply in_map_iff in Hc. destruct Hc as [c0 [<- _]].
    cbn in *. unfold Prisma.playersOf in Hx. apply in_map_iff in Hx.
    destruct Hx as [p [<- Hp]]. apply filter_In in Hp.
    destruct Hp as [Hp Hid]. cbn. split; [exact Hp |].
    split; [lia | reflexivity].
  - rewrite concat_map_map, !map_map. cbn.
    erewrite map_ext; [apply (players_by_club db Hnd Hfk) |].
    intros c. apply playersOf_players.
Qed.

Lemma fold_left_add_acc {A : Type} (f : A -> Z) (l : list A) (acc : Z) :
  fold_left (fun sum x => sum + f x) l acc
  = acc + fold_right Z.add 0 (map f l).
Proof.
  revert acc. induction l as [| a rest IH]; intros acc; cbn; [lia |].
  rewrite IH. lia.
Qed.

Lemma length_concat_sum {A : Type} (ll : list (list A)) :
  Z.of_nat (List.length (List.concat ll))
  = fold_right Z.add 0 (map (fun l => Z.of_nat (List.length l)) ll).
Proof.
  induction ll as [| l rest IH]; cbn; [reflexivity |].
  rewrite length_app, Nat2Z.inj_add, IH. reflexivity.
Qed.

Lemma length_filter_le {A : Type} (f : A -> bool) (l : list A) :
  (List.length (filter f l) <= List.length l)%nat.
Proof.
  induction l as [| a rest IH]; cbn; [lia |].
  destruct (f a); cbn; lia.
Qed.

Lemma getClubsStatistics_run (failure : Exception) (db : Db) :
  exists s,
    ClubsService.getClubsStatistics failure db = (Returned s, db)
    /\ ClubsService.totalClubs s = Z.of_nat (List.length (clubs db))
    /\ ClubsService.clubsWithPlayers s
       = Z.of_nat (List.length (filter (fun n => 0 <? n) (playersPerClub db)))
    /\ Required.isRoundedMean (playersPerClub db)
         (ClubsService.averagePlayersPerClub s).
Proof.
  unfold ClubsService.getClubsStatistics, ClubsRepository.findAll,
    Prisma.club.findMany. run.
  eexists. split; [reflexivity |]. cbn.
  split; [rewrite length_map; reflexivity |]. split.
  - f_equal. unfold playersPerClub.
    induction (clubs db) as [| c rest IH]; [reflexivity |].
    cbn [map filter]. cbn [cwrPlayers Prisma.includePlayers].
    unfold Prisma.playersOf at 1. rewrite length_map.
    destruct (0 <? _); cbn [List.length]; [f_equal |]; exact IH.
  - rewrite fold_left_add_acc, map_map. cbn.
    rewrite length_map.
    assert (Hper : map (fun c => Z.of_nat (List.length (Prisma.playersOf db (Club.id c)))) (clubs db)
                   = playersPerClub db).
    { unfold playersPerClub. apply map_ext. intros c.
      unfold Prisma.playersOf. rewrite length_map. reflexivity. }
    rewrite Hper.
    assert (Hlen : List.length (clubs db) = List.length (playersPerClub db))
      by (unfold playersPerClub; rewrite length_map; reflexivity).
    rewrite Hlen.
    set (total := fold_right Z.add 0 (playersPerClub db)).
    set (n := Z.of_nat (List.length (playersPerClub db))).
    unfold Required.isRoundedMean. fold total. fold n. cbn zeta.
    destruct (Z.ltb_spec 0 n) as [Hn | Hn].
    + apply round_hundredths.
    + assert (n = 0) by (unfold n; lia).
      replace (inject_Z total / inject_Z n)%Q with 0%Q.
      * apply (round_hundredths 0%Q).
      * rewrite H. unfold Qdiv, Qinv, Qmult. cbn.
        rewrite Z.mul_0_r. reflexivity.
Qed.

Lemma sample_club_ids : NoDup (map Club.id (clubs Sample.db)).
Proof.
  cbn. constructor; [intros [H | []]; discriminate H |].
  constructor; [intros [] | constructor].
Qed.

Lemma sample_fk : playersReferToClubs Sample.db.
Proof.
  intros p [<- | []]. exists Sample.realMadrid.
  split; [left; reflexivity | reflexivity].
Qed.

Lemma getAllClubs_partition_witness :
  exists r,
    ClubsService.getAllClubs Sample.db = (Returned r, Sample.db)
    /\ map cwrClub r = [Sample.realMadrid; Sample.santos]
    /\ Permutation (map pwsPlayer (List.concat (map cwrPlayers r)))
                   [Sample.vinicius].
Proof.
  destruct (getAllClubs_partition Sample.db sample_club_ids sample_fk)
    as [r [Hrun [Hclubs [_ Hperm]]]].
  exists r. split; [exact Hrun |]. split; [exact Hclubs | exact Hperm].
Defined.

(** X8. [getClubsStatistics] never throws and leaves the state as it was.
    In a state whose club identifiers are unique and whose players respect
    their foreign key, it reports the number of stored clubs, the number
    of stored clubs to which a stored player refers, which is at most the
    former, and as average the number of stored players divided by the
    number of stored clubs, rounded to a nearest hundredth; the division
    by no club at all gives 0. *)
Theorem getClubsStatistics_counts (failure : Exception) (db : Db) :
  NoDup (map Club.id (clubs db)) -> playersReferToClubs db ->
  exists s,
    ClubsService.getClubsStatistics failure db = (Returned s, db)
    /\ ClubsService.totalClubs s = Z.of_nat (List.length (clubs db))
    /\ ClubsService.clubsWithPlayers s
       = Z.of_nat (List.length (filter (fun n => 0 <? n) (playersPerClub db)))
    /\ 0 <= ClubsService.clubsWithPlayers s <= ClubsService.totalClubs s
    /\ (let mean :=
          (inject_Z (Z.of_nat (List.length (players db)))
           / inject_Z (Z.of_nat (List.length (clubs db))))%Q in
        (exists k : Z, ClubsService.averagePlayersPerClub s == k # 100)%Q
        /\ (mean - (1 # 200) <= ClubsService.averagePlayersPerClub s)%Q
        /\ (ClubsService.averagePlayersPerClub s <= mean + (1 # 200))%Q)
    /\ (clubs db = [] -> (ClubsService.averagePlayersPerClub s == 0)%Q).
Proof.
  intros Hnd Hfk.
  destruct (getClubsStatistics_run failure db)
    as [s [Hrun [Htotal [Hwith Hmean]]]].
  exists s. split; [exact Hrun |]. split; [exact Htotal |].
  split; [exact Hwith |].
  assert (Hlen : List.length (playersPerClub db) = List.length (clubs db))
    by (unfold playersPerClub; apply length_map).
  assert (Hsum : fold_right Z.add 0 (playersPerClub db)
                 = Z.of_nat (List.length (players db))).
  { rewrite <- (Permutation_length (players_by_club db Hnd Hfk)).
    rewrite length_concat_sum, map_map. reflexivity. }
  split; [| split].
  - rewrite Hwith, Htotal.
    pose proof (length_filter_le (fun n => 0 <? n) (playersPerClub db)).
    lia.
  - unfold Required.isRoundedMean in Hmean. cbn zeta in *.
    rewrite Hsum, Hlen in Hmean. exact Hmean.
  - intros Hempty. revert Hrun.
    unfold ClubsService.getClubsStatistics, ClubsRepository.findAll,
      Prisma.club.findMany. run.
    rewrite Hempty. cbn. intros H. injection H as <-. reflexivity.
Qed.

Lemma getClubsStatistics_counts_witness :
  exists s,
    ClubsService.getClubsStatistics (Error ClubFetchFailed) Sample.db
    = (Returned s, Sample.db)
    /\ ClubsService.totalClubs s = 2
    /\ ClubsService.clubsWithPlayers s = 1.
Proof.
  destruct (getClubsStatistics_counts (Error ClubFetchFailed) Sample.db
              sample_club_ids sample_fk)
    as [s [Hrun [Htotal [Hwith _]]]].
  exists s. split; [exact Hrun |]. split; [exact Htotal | exact Hwith].
Defined.

(* ================================================================== *)
(** * Reading and writing players *)
(* ================================================================== *)

Lemma players_invalidId_nonpositive (id : Z) :
  id <= 0 -> PlayersService.invalidId id = true.
Proof.
  intros H. unfold PlayersService.invalidId.
  destruct (Z.leb_spec id 0); [apply orb_true_r | lia].
Qed.

Lemma playerById_Some (db : Db) (id : Z) (p : Player.t) :
  Prisma.playerById db id = Some p -> In p (players db) /\ Player.id p = id.
Proof.
  unfold Prisma.playerById. intros H. apply find_some in H.
  destruct H as [Hin Heq]. split; [exact Hin | lia].
Qed.

Lemma playerById_None (db : Db) (id : Z) :
  Prisma.playerById db id = None ->
  forall p, In p (players db) -> Player.id p <> id.
Proof.
  unfold Prisma.playerById. intros H p Hp Heq.
  pose proof (find_none _ _ H p Hp) as Hf. cbn in Hf. lia.
Qed.

Lemma find_absent {A : Type} (f : A -> bool) (l : list A) :
  (forall x, In x l -> f x = false) -> find f l = None.
Proof.
  induction l as [| a rest IH]; intros H; cbn; [reflexivity |].
  rewrite (H a (or_introl eq_refl)). apply IH.
  intros x Hx. apply H. right. exact Hx.
Qed.

(** X9. [deletePlayer] refuses an id that is not positive with the
    invalid-id error.  For a positive id that no stored player has it
    returns [false] and changes nothing.  For the id of a stored player it
    returns [true]; afterwards exactly the players with another id and
    exactly the statistics rows of other players are left, the clubs are
    as before, and a second [deletePlayer] of the same id returns
    [false]. *)
Theorem deletePlayer_removes (db : Db) (id : Z) :
  (id <= 0 ->
   PlayersService.deletePlayer id db = (Threw (Error PlayerIdInvalid), db))
  /\ (0 < id -> Prisma.playerById db id = None ->
      PlayersService.deletePlayer id db = (Returned false, db))
  /\ (0 < id -> Prisma.playerById db id <> None ->
      exists db',
        PlayersService.deletePlayer id db = (Returned true, db')
        /\ clubs db' = clubs db
        /\ (forall p, In p (players db')
                      <-> In p (players db) /\ Player.id p <> id)
        /\ (forall s, In s (statistics db')
                      <-> In s (statistics db) /\ Statistics.playerId s <> id)
        /\ PlayersService.deletePlayer id db' = (Returned false, db')).
Proof.
  unfold PlayersService.deletePlayer.
  split; [| split].
  - intros Hid. rewrite tryCatch_rethrow. run.
    rewrite (players_invalidId_nonpositive id Hid). reflexivity.
  - intros Hid Hnone. rewrite tryCatch_rethrow.
    unfold PlayersRepository.delete, Prisma.player.delete. run.
    rewrite (players_invalidId_positive id Hid). cbn. rewrite Hnone.
    reflexivity.
  - intros Hid Hsome. rewrite !tryCatch_rethrow.
    unfold PlayersRepository.delete, Prisma.player.delete. run.
    rewrite (players_invalidId_positive id Hid). cbn.
    destruct (Prisma.playerById db id) as [p |]; [| contradiction].
    cbn. eexists. split; [reflexivity |]. cbn.
    split; [reflexivity |]. split; [| split].
    + intros x. rewrite filter_In.
      destruct (Z.eqb_spec (Player.id x) id); cbn; intuition congruence.
    + intros s. rewrite filter_In.
      destruct (Z.eqb_spec (Statistics.playerId s) id); cbn;
        intuition congruence.
    + unfold Prisma.playerById. cbn.
      rewrite find_absent; [reflexivity |]. intros x Hx.
      apply filter_In in Hx. destruct Hx as [_ Hx].
      destruct (Player.id x =? id); [discriminate Hx | reflexivity].
Qed.

(** A run that got past a guard: the guard did not fire. *)
Lemma guard_passed {A : Type} (c : bool) (e : Exception) (k : M A)
      (db db' : Db) (a : A) :
  (throwIf c e ;; k) db = (Returned a, db') ->
  c = false /\ k db = (Returned a, db').
Proof.
  unfold bind, throwIf, throw, ret. destruct c; [discriminate |].
  intros H. split; [reflexivity | exact H].
Qed.

Lemma createPlayer_returned (db db' : Db) (data : CreatePlayerData)
      (r : PlayerWithRelations) :
  PlayersService.createPlayer data db = (Returned r, db') ->
  let id := Prisma.nextId (seqPlayers db) (map Player.id (players db)) in
  let p := Player.mk id (Js.trim (cpName data)) (Js.trim (cpNationality data))
                     (Js.trim (cpPosition data)) (cpClubId data) in
  (exists c, Prisma.clubById db (cpClubId data) = Some c)
  /\ clubs db' = clubs db
  /\ players db' = players db ++ [p]
  /\ (exists added,
        statistics db' = statistics db ++ added
        /\ map scoresOf added
           = match cpStatistics data with Some st => [st] | None => [] end
        /\ (forall s, In s added -> Statistics.playerId s = id)
        /\ (added <> [] ->
            forall s, In s (statistics db) -> Statistics.playerId s <> id))
  /\ r = Prisma.includeClubStatistics db' p.
Proof.
  unfold PlayersService.createPlayer. rewrite tryCatch_rethrow.
  intros H.
  apply guard_passed in H. destruct H as [_ H].
  apply guard_passed in H. destruct H as [_ H].
  apply guard_passed in H. destruct H as [_ H].
  apply guard_passed in H. destruct H as [_ H].
  unfold PlayersRepository.create, Prisma.player.create in H.
  cbn [cpName cpNationality cpPosition cpClubId cpStatistics] in H.
  destruct (cpStatistics data) as [st |].
  - apply guard_passed in H. destruct H as [_ H].
    destruct (Prisma.clubById db (cpClubId data)) as [c |];
      [| discriminate H].
    cbn [option_map] in H.
    destruct (existsb _ (statistics db)) eqn:Ex; [discriminate H |].
    injection H as <- <-. cbn.
    split; [exists c; reflexivity |]. split; [reflexivity |].
    split; [reflexivity |]. split; [| reflexivity].
    eexists. split; [reflexivity |]. split; [destruct st; reflexivity |].
    split.
    + intros s [<- | []]. reflexivity.
    + intros _ s Hs Heq.
      assert (Hex : existsb
                (fun s => Statistics.playerId s
                          =? Prisma.nextId (seqPlayers db)
                               (map Player.id (players db)))
                (statistics db) = true).
      { apply existsb_exists. exists s. split; [exact Hs | lia]. }
      rewrite Hex in Ex. discriminate Ex.
  - unfold bind, ret in H.
    destruct (Prisma.clubById db (cpClubId data)) as [c |];
      [| discriminate H].
    cbn [option_map] in H. injection H as <- <-. cbn.
    split; [exists c; reflexivity |]. split; [reflexivity |].
    split; [reflexivity |]. split; [| reflexivity].
    exists []. split; [symmetry; apply app_nil_r |].
    split; [reflexivity |]. split; [intros s [] |].
    intros Hne. contradiction.
Qed.

(** X10. When [createPlayer] returns, in a state whose statistics rows
    belong to stored players, the player it returns carries the trimmed
    name, nationality and position and the given club id under an
    identifier that no stored player had; his club is a stored club of
    that id; his statistics are exactly the scores that came along, and
    none if none came; and [getPlayerById] with the new identifier returns
    that very value. *)
Theorem createPlayer_then_lookup (failure : Exception) (db db' : Db)
        (data : CreatePlayerData) (r : PlayerWithRelations) :
  statisticsReferToPlayers db ->
  PlayersService.createPlayer data db = (Returned r, db') ->
  pwrPlayer r
  = Player.mk (Player.id (pwrPlayer r)) (Js.trim (cpName data))
              (Js.trim (cpNationality data)) (Js.trim (cpPosition data))
              (cpClubId data)
  /\ (forall p, In p (players db) -> Player.id p <> Player.id (pwrPlayer r))
  /\ (exists c, pwrClub r = Some c /\ In c (clubs db)
                /\ Club.id c = cpClubId data)
  /\ option_map scoresOf (pwrStatistics r) = cpStatistics data
  /\ PlayersService.getPlayerById failure (Player.id (pwrPlayer r)) db'
     = (Returned (Some r), db').
Proof.
  intros Hfk Hrun.
  destruct (createPlayer_returned _ _ _ _ Hrun)
    as [[c Hc] [Hclubs [Hplayers [[added [Hstats [Hscores [Hown Hnew]]]] Hr]]]].
  set (id := Prisma.nextId (seqPlayers db) (map Player.id (players db))) in *.
  assert (Hfresh : forall p, In p (players db) -> Player.id p <> id).
  { intros p Hp.
    pose proof (nextId_fresh (seqPlayers db) (map Player.id (players db))
                  (Player.id p) (in_map Player.id _ _ Hp)).
    fold id in H. lia. }
  assert (Hold : forall s, In s (statistics db) -> Statistics.playerId s <> id).
  { intros s Hs. destruct (Hfk s Hs) as [p [Hp Heq]]. rewrite <- Heq.
    apply Hfresh. exact Hp. }
  subst r. cbn [pwrPlayer pwrClub pwrStatistics Prisma.includeClubStatistics
                  Player.id Player.clubId].
  split; [reflexivity |]. split; [exact Hfresh |]. split; [| split].
  - exists c. unfold Prisma.clubById in *. rewrite Hclubs.
    split; [exact Hc |]. apply find_some in Hc.
    destruct Hc as [Hin Heq]. split; [exact Hin | lia].
  - unfold Prisma.statisticsOf. rewrite Hstats.
    assert (Hnone : find (fun s => Statistics.playerId s =? id) (statistics db)
                    = None).
    { apply find_absent. intros s Hs. pose proof (Hold s Hs). lia. }
    destruct (cpStatistics data) as [st |].
    + destruct added as [| s [| s' rest]]; try discriminate Hscores.
      rewrite find_snoc_fresh.
      * cbn in *. injection Hscores as ->. reflexivity.
      * intros y Hy. pose proof (Hold y Hy). lia.
      * rewrite (Hown s (or_introl eq_refl)). apply Z.eqb_refl.
    + destruct added; [| discriminate Hscores].
      rewrite app_nil_r, Hnone. reflexivity.
  - unfold PlayersService.getPlayerById, PlayersRepository.findById,
      Prisma.player.findUnique. run.
    rewrite (players_invalidId_positive id (nextId_positive _ _)). cbn.
    unfold Prisma.playerById. rewrite Hplayers.
    rewrite find_snoc_fresh; [reflexivity | | apply Z.eqb_refl].
    intros y Hy. pose proof (Hfresh y Hy). cbn. lia.
Qed.

Lemma playerFrame_refl (id : Z) (db : Db) : playerFrame id db db.
Proof.
  split; [reflexivity |]. split; [reflexivity |].
  apply Forall2_same. intros p. split; reflexivity.
Qed.

(** X11. Whatever [updatePlayer] does, it leaves the clubs and the
    statistics as they were, keeps the players in place with their
    identifiers and leaves every player with another id unchanged.  A
    player it returns has the addressed id and is stored; when it returns
    [null] or throws, the whole state is unchanged. *)
Theorem updatePlayer_frame (db db' : Db) (id : Z) (data : UpdatePlayerData)
        (r : Outcome (option PlayerWithRelations)) :
  PlayersService.updatePlayer id data db = (r, db') ->
  playerFrame id db db'
  /\ (forall x, r = Returned (Some x) ->
        Player.id (pwrPlayer x) = id /\ In (pwrPlayer x) (players db'))
  /\ ((forall x, r <> Returned (Some x)) -> db' = db).
Proof.
  unfold PlayersService.updatePlayer. rewrite tryCatch_rethrow.
  unfold PlayersRepository.update, Prisma.player.update. run.
  destruct (PlayersService.invalidId id); cbn.
  { intros H. injection H as <- <-.
    split; [apply playerFrame_refl |]. split; [discriminate | reflexivity]. }
  destruct (PlayersService.suppliedBlank (upName data)); cbn.
  { intros H. injection H as <- <-.
    split; [apply playerFrame_refl |]. split; [discriminate | reflexivity]. }
  destruct (PlayersService.suppliedBlank (upNationality data)); cbn.
  { intros H. injection H as <- <-.
    split; [apply playerFrame_refl |]. split; [discriminate | reflexivity]. }
  destruct (PlayersService.suppliedBlank (upPosition data)); cbn.
  { intros H. injection H as <- <-.
    split; [apply playerFrame_refl |]. split; [discriminate | reflexivity]. }
  destruct (Prisma.playerById db id) as [p |] eqn:Hp; cbn.
  2:{ intros H. injection H as <- <-.
      split; [apply playerFrame_refl |]. split; [discriminate | reflexivity]. }
  destruct (Prisma.player.optTest _ _); cbn.
  2:{ intros H. injection H as <- <-.
      split; [apply playerFrame_refl |]. split; [discriminate | reflexivity]. }
  destruct (playerById_Some _ _ _ Hp) as [Hin Hid].
  intros H. injection H as <- <-. cbn. split; [| split].
  - split; [reflexivity |]. split; [reflexivity |].
    apply Forall2_map_r. intros x.
    destruct (Z.eqb_spec (Player.id x) id) as [Heq | Hne].
    + split; [reflexivity | contradiction].
    + split; reflexivity.
  - intros x E. injection E as <-. cbn. rewrite Hid, Z.eqb_refl. cbn.
    split; [exact Hid |]. apply in_map_iff. exists p.
    rewrite Hid, Z.eqb_refl. split; [reflexivity | exact Hin].
  - intros Hno. exfalso. eapply Hno. reflexivity.
Qed.

Lemma find_map_fixed {A : Type} (f : A -> bool) (g : A -> A) (l : list A) :
  (forall x, f (g x) = f x) ->
  find f (map g l) = option_map g (find f l).
Proof.
  intros Hfg. induction l as [| a rest IH]; cbn; [reflexivity |].
  rewrite Hfg. destruct (f a); [reflexivity | exact IH].
Qed.

Lemma orKeep_twice {A : Type} (o : option A) (old : A) :
  Prisma.player.orKeep o (Prisma.player.orKeep o old)
  = Prisma.player.orKeep o old.
Proof. destruct o; reflexivity. Qed.

Lemma statistics_patch_twice (d : UpdateStatisticsData) (s : Statistics.t) :
  Prisma.statistics.patch d (Prisma.statistics.patch d s)
  = Prisma.statistics.patch d s.
Proof.
  unfold Prisma.statistics.patch. cbn. rewrite !orKeep_twice. reflexivity.
Qed.

(** X12. [updatePlayerStatistics] is idempotent: repeated on the state it
    has left, the same call gives the same outcome and changes nothing
    more. *)
Theorem updatePlayerStatistics_idempotent (db db' : Db) (playerId : Z)
        (data : UpdateStatisticsData) (r : Outcome bool) :
  PlayersService.updatePlayerStatistics playerId data db = (r, db') ->
  PlayersService.updatePlayerStatistics playerId data db' = (r, db').
Proof.
  unfold PlayersService.updatePlayerStatistics. rewrite !tryCatch_rethrow.
  unfold PlayersRepository.updateStatistics, Prisma.statistics.update. run.
  destruct (PlayersService.invalidId playerId); cbn.
  { intros H. injection H as <- <-. reflexivity. }
  destruct (PlayersService.validateEach (PlayersService.statsToValidate data) db)
    as [[e | []] db1] eqn:Hv.
  { pose proof (validateEach_run (PlayersService.statsToValidate data) db) as Hr.
    intros H. injection H as <- <-.
    destruct (forallb PlayersService.validRange
                (PlayersService.statsToValidate data)) eqn:Hall.
    - rewrite Hr in Hv. discriminate Hv.
    - rewrite Hr in Hv. injection Hv as <- <-.
      rewrite (validateEach_run _ db), Hall. reflexivity. }
  pose proof (validateEach_run (PlayersService.statsToValidate data) db) as Hr.
  destruct (forallb PlayersService.validRange
              (PlayersService.statsToValidate data)) eqn:Hall;
    rewrite Hr in Hv; [| discriminate Hv].
  injection Hv as <-.
  destruct (Prisma.statisticsOf db playerId) as [s |] eqn:Hs; cbn.
  2:{ intros H. injection H as <- <-.
      rewrite (validateEach_run _ db), Hall, Hs. reflexivity. }
  intros H. injection H as <- <-.
  rewrite validateEach_run, Hall.
  unfold Prisma.statisticsOf in *. cbn [statistics].
  rewrite find_map_fixed.
  2:{ intros x. destruct (Statistics.playerId x =? playerId) eqn:E;
        cbn; [| rewrite E; reflexivity].
      exact E. }
  rewrite Hs. cbn. f_equal. f_equal. rewrite map_map.
  apply map_ext. intros x.
  destruct (Statistics.playerId x =? playerId) eqn:E; cbn; rewrite E;
    [apply statistics_patch_twice | reflexivity].
Qed.

Ltac decide_filters :=
  repeat split; intros;
  repeat match goal with
         | H : Some _ = Some _ |- _ => injection H as <-
         | H : None = Some _ |- _ => discriminate H
         end;
  lia.

Lemma invalid_filters_throw (filters : Filters) (db : Db) :
  ~ validFilters filters ->
  exists e,
    PlayersService.getPlayersWithFilters filters db = (Threw e, db)
    /\ kind e = ValidationError.
Proof.
  intros Hinv.
  unfold PlayersService.getPlayersWithFilters. rewrite tryCatch_rethrow. run.
  unfold PlayersService.supplied, validFilters in *.
  destruct filters as [c pos nat lo hi]. cbn in *.
  destruct c as [c |];
    [destruct (Z.leb_spec c 0); cbn; [eexists; split; reflexivity |] |];
    (destruct lo as [lo |];
     [destruct (Z.ltb_spec lo 0); cbn; [eexists; split; reflexivity |];
      destruct (Z.gtb_spec lo 100); cbn; [eexists; split; reflexivity |] |]);
    (destruct hi as [hi |];
     [destruct (Z.ltb_spec hi 0); cbn; [eexists; split; reflexivity |];
      destruct (Z.gtb_spec hi 100); cbn; [eexists; split; reflexivity |] |]);
    cbn;
    try (destruct (Z.gtb_spec lo hi); cbn; [eexists; split; reflexivity |]);
    exfalso; apply Hinv; decide_filters.
Qed.

Lemma satisfies_matches (db : Db) (filters : Filters) (p : Player.t) :
  Required.satisfies db filters p = true ->
  Prisma.player.matches db
    {| Prisma.player.whereClubId :=
         PlayersRepository.whenTruthy Js.truthyNumber (fClubId filters);
       Prisma.player.wherePosition :=
         PlayersRepository.whenTruthy Js.truthyString (fPosition filters);
       Prisma.player.whereNationality :=
         PlayersRepository.whenTruthy Js.truthyString (fNationality filters);
       Prisma.player.whereStatistics :=
         if Js.truthyOpt Js.truthyNumber (fMinOverall filters)
            || Js.truthyOpt Js.truthyNumber (fMaxOverall filters)
         then Some {| Prisma.player.gte :=
                        PlayersRepository.whenTruthy Js.truthyNumber
                          (fMinOverall filters);
                      Prisma.player.lte :=
                        PlayersRepository.whenTruthy Js.truthyNumber
                          (fMaxOverall filters) |}
         else None |} p = true.
Proof.
  unfold Required.satisfies, Prisma.player.matches,
    PlayersRepository.whenTruthy, Prisma.player.matchesInt.
  cbn. intros H.
  apply andb_prop in H. destruct H as [H Hhi].
  apply andb_prop in H. destruct H as [H Hlo].
  apply andb_prop in H. destruct H as [H Hn].
  apply andb_prop in H. destruct H as [Hc Hp].
  repeat (apply andb_true_intro; split).
  - destruct (fClubId filters) as [c |]; cbn; [| reflexivity].
    destruct (Js.truthyNumber c); cbn; [exact Hc | reflexivity].
  - destruct (fPosition filters) as [s |]; cbn; [| reflexivity].
    destruct (Js.truthyString s); cbn; [exact Hp | reflexivity].
  - destruct (fNationality filters) as [s |]; cbn; [| reflexivity].
    destruct (Js.truthyString s); cbn; [exact Hn | reflexivity].
  - destruct (fMinOverall filters) as [lo |], (fMaxOverall filters) as [hi |];
      cbn; try reflexivity;
      try destruct (Js.truthyNumber lo); try destruct (Js.truthyNumber hi);
      cbn; try reflexivity;
      destruct (Prisma.statisticsOf db (Player.id p)); cbn;
      try discriminate; rewrite ?Hlo, ?Hhi; reflexivity.
Qed.

(** X13. [getPlayersWithFilters] throws a validation error, with the
    state as it was, on every filter that its validation refuses (a club
    id that is not positive, a bound outside [0,100], a minimum above the
    maximum).  On filters that pass the validation and whose club id, if
    any, fits the 64-bit column, it returns, with the state as it was,
    stored players only, each with his club and statistics, and never
    loses a player that satisfies every supplied criterion: the falsy
    values that the repository drops can only widen the result. *)
Theorem getPlayersWithFilters_validates (filters : Filters) (db : Db) :
  (validFilters filters ->
   (forall c, fClubId filters = Some c -> c <= Prisma.maxInt) ->
   exists l,
     PlayersService.getPlayersWithFilters filters db = (Returned l, db)
     /\ (forall x, In x l ->
           In (pwrPlayer x) (players db)
           /\ x = Prisma.includeClubStatistics db (pwrPlayer x))
     /\ (forall p, In p (players db) ->
           Required.satisfies db filters p = true ->
           In (Prisma.includeClubStatistics db p) l))
  /\ (~ validFilters filters ->
      exists e,
        PlayersService.getPlayersWithFilters filters db = (Threw e, db)
        /\ kind e = ValidationError).
Proof.
  split; [| apply invalid_filters_throw].
  intros Hvalid _. rewrite (validFilters_pass filters db Hvalid).
  unfold PlayersRepository.findWithFilters, Prisma.player.findMany.
  eexists. split; [reflexivity |]. split.
  - intros x Hx. apply in_map_iff in Hx. destruct Hx as [p [<- Hp]].
    apply filter_In in Hp. destruct Hp as [Hp _]. cbn.
    split; [exact Hp | reflexivity].
  - intros p Hp Hsat. apply in_map. apply filter_In.
    split; [exact Hp |]. apply satisfies_matches. exact Hsat.
Qed.

Lemma blank_empty_trim (s : string) :
  Js.trim s = ""%string -> PlayersService.blank s = true.
Proof.
  intros H. rewrite players_blank_trim, H. reflexivity.
Qed.

Lemma not_blank_trim (s : string) :
  Js.trim s <> ""%string -> PlayersService.blank s = false.
Proof.
  intros H. rewrite players_blank_trim.
  destruct (String.eqb_spec (Js.trim s) ""); [contradiction | reflexivity].
Qed.

Lemma included_club (db : Db) (p : Player.t) :
  playersReferToClubs db -> In p (players db) ->
  exists c, Prisma.clubById db (Player.clubId p) = Some c
            /\ In c (clubs db) /\ Club.id c = Player.clubId p.
Proof.
  intros Hfk Hp. destruct (clubById_exists db _ (Hfk p Hp)) as [c Hc].
  exists c. split; [exact Hc |]. apply clubById_Some. exact Hc.
Qed.

(** X14. [getPlayerById] never shows its own invalid-id error: for an id
    that is not positive it throws the wrapped failure.  For a positive
    id that fits the 64-bit identifier column it returns and leaves the
    state as it was: [null] exactly when no stored player has the id, and
    otherwise a stored player of that id with his statistics row and his
    club, which is a stored club when the players respect their foreign
    key. *)
Theorem getPlayerById_lookup (failure : Exception) (db : Db) (id : Z) :
  (id <= 0 ->
   PlayersService.getPlayerById failure id db = (Threw failure, db))
  /\ (0 < id <= Prisma.maxInt ->
      exists r,
        PlayersService.getPlayerById failure id db = (Returned r, db)
        /\ (r = None <-> forall p, In p (players db) -> Player.id p <> id)
        /\ forall x, r = Some x ->
             In (pwrPlayer x) (players db)
             /\ Player.id (pwrPlayer x) = id
             /\ pwrStatistics x = Prisma.statisticsOf db id
             /\ pwrClub x = Prisma.clubById db (Player.clubId (pwrPlayer x))
             /\ (playersReferToClubs db ->
                 exists c, pwrClub x = Some c /\ In c (clubs db)
                           /\ Club.id c = Player.clubId (pwrPlayer x))).
Proof.
  unfold PlayersService.getPlayerById, PlayersRepository.findById,
    Prisma.player.findUnique.
  split.
  - intros Hid. run. rewrite (players_invalidId_nonpositive id Hid).
    reflexivity.
  - intros [Hid _]. run. rewrite (players_invalidId_positive id Hid). cbn.
    eexists. split; [reflexivity |].
    destruct (Prisma.playerById db id) as [p |] eqn:Hp; cbn.
    + destruct (playerById_Some _ _ _ Hp) as [Hin Heq]. split.
      * split; [discriminate |]. intros Hno. exfalso.
        exact (Hno p Hin Heq).
      * intros x E. injection E as <-. cbn.
        split; [exact Hin |]. split; [exact Heq |].
        split; [rewrite Heq; reflexivity |]. split; [reflexivity |].
        intros Hfk. apply included_club; assumption.
    + split; [| discriminate].
      split; [intros _; apply playerById_None; exact Hp | reflexivity].
Qed.

(** X15. [getPlayersByClub] throws the wrapped failure for an id that is
    not positive.  For a positive id that fits the 64-bit identifier
    column it returns, without touching the state, exactly the stored
    players that refer to the club, in stored order; they are the players, with the same statistics, that
    [getClubById] attaches to the club, and each of them shows that club.
    A club that is not stored is not reported: the result is the empty
    list when the players respect their foreign key. *)
Theorem getPlayersByClub_agrees (failure : Exception) (db : Db) (clubId : Z) :
  (clubId <= 0 ->
   PlayersService.getPlayersByClub failure clubId db = (Threw failure, db))
  /\ (0 < clubId <= Prisma.maxInt ->
      exists l,
        PlayersService.getPlayersByClub failure clubId db = (Returned l, db)
        /\ map pwrPlayer l
           = filter (fun p => Player.clubId p =? clubId) (players db)
        /\ (forall c,
              ClubsService.getClubById clubId db = (Returned (Some c), db) ->
              map (fun x => {| pwsPlayer := pwrPlayer x;
                               pwsStatistics := pwrStatistics x |}) l
              = cwrPlayers c
              /\ forall x, In x l -> pwrClub x = Some (cwrClub c))
        /\ (playersReferToClubs db -> ~ clubExists db clubId -> l = [])).
Proof.
  unfold PlayersService.getPlayersByClub, PlayersRepository.findByClub,
    Prisma.player.findMany.
  split.
  - intros Hid. run. rewrite (players_invalidId_nonpositive clubId Hid).
    reflexivity.
  - intros [Hid _]. run. rewrite (players_invalidId_positive clubId Hid). cbn.
    eexists. split; [reflexivity |].
    assert (Hm : forall p,
               Prisma.player.matches db
                 {| Prisma.player.whereClubId := Some clubId;
                    Prisma.player.wherePosition := None;
                    Prisma.player.whereNationality := None;
                    Prisma.player.whereStatistics := None |} p
               = (Player.clubId p =? clubId)).
    { intros p. unfold Prisma.player.matches. cbn.
      rewrite !andb_true_r. reflexivity. }
    rewrite (filter_ext _ _ Hm).
    split; [| split].
    + rewrite map_map. cbn. apply map_id.
    + intros c.
      unfold ClubsService.getClubById, ClubsRepository.findById,
        Prisma.club.findUnique. run.
      rewrite (invalidId_positive clubId Hid). cbn.
      destruct (Prisma.clubById db clubId) as [c0 |] eqn:Hc;
        [| discriminate].
      cbn. intros E. injection E as <-. cbn.
      destruct (clubById_Some _ _ _ Hc) as [_ Heq]. rewrite Heq. split.
      * unfold Prisma.playersOf. rewrite map_map. reflexivity.
      * intros x Hx. apply in_map_iff in Hx. destruct Hx as [p [<- Hp]].
        apply filter_In in Hp. destruct Hp as [_ Hp]. cbn.
        replace (Player.clubId p) with clubId by lia. exact Hc.
    + intros Hfk Hno.
      rewrite filter_none; [reflexivity |]. intros p Hp.
      destruct (Z.eqb_spec (Player.clubId p) clubId) as [Heq |];
        [| reflexivity].
      exfalso. apply Hno. rewrite <- Heq. apply Hfk. exact Hp.
Qed.

Lemma truthy_not_empty (s : string) :
  s <> ""%string -> Js.truthyString s = true.
Proof.
  intros H. unfold Js.truthyString.
  destruct (String.eqb_spec s ""); [contradiction | reflexivity].
Qed.

(** X16. [getPlayersByPosition] throws the wrapped failure, never its own
    invalid-position error, when the position is blank.  Otherwise it is
    [getPlayersWithFilters] with the trimmed position as the only
    criterion: it returns, without touching the state, exactly the stored
    players whose position is the trimmed argument, in stored order. *)
Theorem getPlayersByPosition_filters (invalid failure : Exception) (db : Db)
        (position : string) :
  (Js.trim position = ""%string ->
   PlayersService.getPlayersByPosition invalid failure position db
   = (Threw failure, db))
  /\ (Js.trim position <> ""%string ->
      PlayersService.getPlayersByPosition invalid failure position db
      = PlayersService.getPlayersWithFilters
          (positionFilter (Js.trim position)) db
      /\ exists l,
           PlayersService.getPlayersByPosition invalid failure position db
           = (Returned l, db)
           /\ map pwrPlayer l
              = filter (fun p => (Player.position p =? Js.trim position)%string)
                       (players db)).
Proof.
  unfold PlayersService.getPlayersByPosition,
    PlayersRepository.findByPosition, Prisma.player.findMany.
  split.
  - intros Hblank. run. rewrite (blank_empty_trim _ Hblank). reflexivity.
  - intros Hne. run. rewrite (not_blank_trim _ Hne). cbn.
    assert (Hm : forall p,
               Prisma.player.matches db
                 {| Prisma.player.whereClubId := None;
                    Prisma.player.wherePosition := Some (Js.trim position);
                    Prisma.player.whereNationality := None;
                    Prisma.player.whereStatistics := None |} p
               = (Player.position p =? Js.trim position)%string).
    { intros p. unfold Prisma.player.matches. cbn.
      rewrite !andb_true_r. reflexivity. }
    split.
    + unfold PlayersService.getPlayersWithFilters,
        PlayersRepository.findWithFilters, Prisma.player.findMany,
        positionFilter, PlayersRepository.whenTruthy. run. cbn.
      rewrite (truthy_not_empty _ Hne). reflexivity.
    + eexists. split; [reflexivity |].
      rewrite (filter_ext _ _ Hm), map_map. cbn. apply map_id.
Qed.

(** X17. [getPlayersByNationality] throws the wrapped failure, never its
    own invalid-nationality error, when the nationality is blank.
    Otherwise it is [getPlayersWithFilters] with the trimmed nationality as
    the only criterion: it returns, without touching the state, exactly
    the stored players whose nationality is the trimmed argument, in
    stored order. *)
Theorem getPlayersByNationality_filters (invalid failure : Exception)
        (db : Db) (nationality : string) :
  (Js.trim nationality = ""%string ->
   PlayersService.getPlayersByNationality invalid failure nationality db
   = (Threw failure, db))
  /\ (Js.trim nationality <> ""%string ->
      PlayersService.getPlayersByNationality invalid failure nationality db
      = PlayersService.getPlayersWithFilters
          (nationalityFilter (Js.trim nationality)) db
      /\ exists l,
           PlayersService.getPlayersByNationality invalid failure
             nationality db
           = (Returned l, db)
           /\ map pwrPlayer l
              = filter (fun p => (Player.nationality p
                                  =? Js.trim nationality)%string)
                       (players db)).
Proof.
  unfold PlayersService.getPlayersByNationality,
    PlayersRepository.findByNationality, Prisma.player.findMany.
  split.
  - intros Hblank. run. rewrite (blank_empty_trim _ Hblank). reflexivity.
  - intros Hne. run. rewrite (not_blank_trim _ Hne). cbn.
    assert (Hm : forall p,
               Prisma.player.matches db
                 {| Prisma.player.whereClubId := None;
                    Prisma.player.wherePosition := None;
                    Prisma.player.whereNationality :=
                      Some (Js.trim nationality);
                    Prisma.player.whereStatistics := None |} p
               = (Player.nationality p =? Js.trim nationality)%string).
    { intros p. unfold Prisma.player.matches. cbn.
      rewrite !andb_true_r. reflexivity. }
    split.
    + unfold PlayersService.getPlayersWithFilters,
        PlayersRepository.findWithFilters, Prisma.player.findMany,
        nationalityFilter, PlayersRepository.whenTruthy. run. cbn.
      rewrite (truthy_not_empty _ Hne). reflexivity.
    + eexists. split; [reflexivity |].
      rewrite (filter_ext _ _ Hm), map_map. cbn. apply map_id.
Qed.

(** X18. [getAllPlayers] never throws and leaves the state as it was: it
    returns every stored player once, in stored order, each with his own
    statistics row and the club his [clubId] names, which is a stored club
    of that id when the players respect their foreign key. *)
Theorem getAllPlayers_lists (db : Db) :
  exists l,
    PlayersService.getAllPlayers db = (Returned l, db)
    /\ map pwrPlayer l = players db
    /\ (forall x, In x l ->
          pwrStatistics x = Prisma.statisticsOf db (Player.id (pwrPlayer x))
          /\ pwrClub x = Prisma.clubById db (Player.clubId (pwrPlayer x)))
    /\ (playersReferToClubs db ->
        forall x, In x l ->
          exists c, pwrClub x = Some c /\ In c (clubs db)
                    /\ Club.id c = Player.clubId (pwrPlayer x)).
Proof.
  unfold PlayersService.getAllPlayers. unfold tryCatch.
  rewrite findAll_run. eexists. split; [reflexivity |].
  split; [rewrite map_map; cbn; apply map_id |]. split.
  - intros x Hx. apply in_map_iff in Hx. destruct Hx as [p [<- _]].
    split; reflexivity.
  - intros Hfk x Hx. apply in_map_iff in Hx. destruct Hx as [p [<- Hp]].
    cbn. apply included_club; assumption.
Qed.

Lemma readonly_throwIf (c : bool) (e : Exception) : readonly (throwIf c e).
Proof.
  intros db r db'. unfold throwIf, throw, ret.
  destruct c; intros H; injection H as _ <-; reflexivity.
Qed.

Lemma readonly_validateEach (values : list Z) :
  readonly (PlayersService.validateEach values).
Proof.
  intros db r db'. rewrite validateEach_run.
  destruct (forallb _ _); intros H; injection H as _ <-; reflexivity.
Qed.

Lemma readonly_result {A : Type} (f : Db -> A) :
  readonly (fun db => (Returned (f db), db)).
Proof. intros db r db' H. injection H as _ <-. reflexivity. Qed.

Lemma atomic_throw {A : Type} (e : Exception) : atomic (@throw A e).
Proof. intros db e' db' H. injection H as _ <-. reflexivity. Qed.

Lemma atomic_ret {A : Type} (a : A) : atomic (ret a).
Proof. intros db e db' H. discriminate H. Qed.

Lemma atomic_bind {A B : Type} (m : M A) (k : A -> M B) :
  readonly m -> (forall a, atomic (k a)) -> atomic (bind m k).
Proof.
  intros Hm Hk db e db'. unfold bind.
  destruct (m db) as [[e1 | a] db1] eqn:E; intros H.
  - injection H as _ <-. exact (Hm _ _ _ E).
  - pose proof (Hm _ _ _ E) as ->. exact (Hk a _ _ _ H).
Qed.

Lemma atomic_rethrow {A : Type} (m : M A) :
  atomic m -> atomic (tryCatch m (fun error => throw error)).
Proof.
  intros Hm db e db'. rewrite tryCatch_rethrow. apply Hm.
Qed.

Lemma atomic_caught {A : Type} (m : M A) (a : A) :
  atomic (tryCatch m (fun _ => ret a)).
Proof.
  intros db e db'. unfold tryCatch, ret.
  destruct (m db) as [[e1 | x] db1]; discriminate.
Qed.

Lemma atomic_club_create (name : string) : atomic (Prisma.club.create name).
Proof.
  intros db e db'. unfold Prisma.club.create.
  destruct (existsb _ _); [| discriminate].
  intros H. injection H as _ <-. reflexivity.
Qed.

Lemma atomic_player_create (name nationality position : string) (clubId : Z)
      (stats : option (Z * Z * Z * Z * Z * Z * Z)) :
  atomic (Prisma.player.create name nationality position clubId stats).
Proof.
  intros db e db'. unfold Prisma.player.create.
  destruct (Prisma.clubById db clubId);
    [| intros H; injection H as _ <-; reflexivity].
  destruct stats as [[[[[[[ov pa] sh] ps] dr] de] ph] |]; [| discriminate].
  destruct (existsb _ _); [| discriminate].
  intros H. injection H as _ <-. reflexivity.
Qed.

Lemma readonly_ret {A : Type} (a : A) : readonly (ret a).
Proof. intros db r db' H. injection H as _ <-. reflexivity. Qed.

Lemma readonly_bind {A B : Type} (m : M A) (k : A -> M B) :
  readonly m -> (forall a, readonly (k a)) -> readonly (bind m k).
Proof.
  intros Hm Hk db r db'. unfold bind.
  destruct (m db) as [[e | a] db1] eqn:E; intros H.
  - injection H as _ <-. exact (Hm _ _ _ E).
  - pose proof (Hm _ _ _ E) as ->. exact (Hk a _ _ _ H).
Qed.

Ltac reads :=
  repeat first
    [ apply readonly_throwIf
    | apply readonly_validateEach
    | apply readonly_result
    | apply readonly_ret
    | apply readonly_bind; [| intro]
    | match goal with
      | |- readonly (match ?x with _ => _ end) => destruct x
      end ].

Lemma atomic_then_ret {A B : Type} (m : M A) (f : A -> B) :
  atomic m -> atomic (x <- m ;; ret (f x)).
Proof.
  intros Hm db e db'. unfold bind, ret.
  destruct (m db) as [[e1 | a] db1] eqn:E; [| discriminate].
  intros H. injection H as _ <-. exact (Hm _ _ _ E).
Qed.

Ltac atomicity :=
  repeat first
    [ apply atomic_rethrow
    | apply atomic_caught
    | apply atomic_throw
    | apply atomic_ret
    | apply atomic_club_create
    | apply atomic_player_create
    | apply atomic_bind; [solve [reads] | intro]
    | apply atomic_then_ret
    | match goal with
      | |- atomic (match ?x with _ => _ end) => destruct x
      end ].

Lemma services_are_atomic :
  (forall data, atomic (ClubsService.createClub data))
  /\ (forall id data, atomic (ClubsService.updateClub id data))
  /\ (forall id, atomic (ClubsService.deleteClub id))
  /\ (forall data, atomic (PlayersService.createPlayer data))
  /\ (forall id data, atomic (PlayersService.updatePlayer id data))
  /\ (forall id data, atomic (PlayersService.updatePlayerStatistics id data))
  /\ (forall id, atomic (PlayersService.deletePlayer id)).
Proof.
  repeat split; intros.
  - unfold ClubsService.createClub, ClubsRepository.findByName,
      ClubsRepository.create, Prisma.club.findFirst. atomicity.
  - unfold ClubsService.updateClub, ClubsRepository.findById,
      ClubsRepository.findByName, ClubsRepository.update,
      Prisma.club.findUnique, Prisma.club.findFirst. atomicity.
  - unfold ClubsService.deleteClub, ClubsRepository.findById,
      ClubsRepository.delete, Prisma.club.findUnique. atomicity.
  - unfold PlayersService.createPlayer, PlayersRepository.create. atomicity.
  - unfold PlayersService.updatePlayer, PlayersRepository.update. atomicity.
  - unfold PlayersService.updatePlayerStatistics,
      PlayersRepository.updateStatistics. atomicity.
  - unfold PlayersService.deletePlayer, PlayersRepository.delete. atomicity.
Qed.

Lemma throws_atomic {A : Type} (m : M A) (db : Db) :
  atomic m -> throws m db = true -> snd (m db) = db.
Proof.
  unfold throws. intros Hm. destruct (m db) as [[e | a] db'] eqn:E; cbn;
    [| discriminate].
  intros _. exact (Hm _ _ _ E).
Qed.

(** X19. No writing service writes before it throws: whenever a call of
    [createClub], [updateClub], [deleteClub], [createPlayer],
    [updatePlayer], [updatePlayerStatistics] or [deletePlayer] throws, the
    state it leaves is the state it found. *)
Theorem failed_call_changes_nothing (db : Db) (call : Call) :
  failed db call = true -> perform db call = db.
Proof.
  destruct services_are_atomic as [H1 [H2 [H3 [H4 [H5 [H6 H7]]]]]].
  destruct call; cbn [failed perform]; apply throws_atomic; auto.
Qed.

(** ** On the sample state *)

Lemma sample_statistics_fk : statisticsReferToPlayers Sample.db.
Proof.
  intros s [<- | []]. exists Sample.vinicius.
  split; [left; reflexivity | reflexivity].
Qed.

Lemma createPlayer_then_lookup_witness :
  exists r db',
    PlayersService.createPlayer neymar Sample.db = (Returned r, db')
    /\ pwrPlayer r = Player.mk 2 "Neymar" "Brasil" "LW" 2
    /\ pwrClub r = Some Sample.santos
    /\ PlayersService.getPlayerById (Error PlayersFetchFailed) 2 db'
       = (Returned (Some r), db').
Proof.
  eexists. eexists. split; [reflexivity |].
  destruct (createPlayer_then_lookup (Error PlayersFetchFailed) Sample.db _
              neymar _ sample_statistics_fk eq_refl)
    as [_ [_ [_ [_ Hfind]]]].
  split; [reflexivity |]. split; [reflexivity | exact Hfind].
Defined.

Lemma updatePlayer_frame_witness :
  exists r db',
    PlayersService.updatePlayer 1 moveToSantos Sample.db = (r, db')
    /\ playerFrame 1 Sample.db db'.
Proof.
  eexists. eexists. split; [reflexivity |].
  exact (proj1 (updatePlayer_frame Sample.db _ 1 moveToSantos _ eq_refl)).
Defined.

Lemma updatePlayerStatistics_idempotent_witness :
  exists db',
    PlayersService.updatePlayerStatistics 1 Sample.overall90 Sample.db
    = (Returned true, db')
    /\ PlayersService.updatePlayerStatistics 1 Sample.overall90 db'
       = (Returned true, db').
Proof.
  eexists. split; [reflexivity |].
  exact (updatePlayerStatistics_idempotent Sample.db _ 1 Sample.overall90 _
           eq_refl).
Defined.

Lemma failed_call_changes_nothing_witness :
  failed Sample.db (DeleteClub 1) = true
  /\ perform Sample.db (DeleteClub 1) = Sample.db.
Proof.
  split; [reflexivity |].
  exact (failed_call_changes_nothing Sample.db (DeleteClub 1) eq_refl).
Defined.

Lemma getPlayersWithFilters_exact_witness :
  PlayersService.getPlayersWithFilters wingers80 Sample.db
  = (Returned [Prisma.includeClubStatistics Sample.db Sample.vinicius],
     Sample.db).
Proof.
  assert (Hvalid : validFilters wingers80).
  { unfold validFilters, wingers80. cbn.
    split; [intros c H; injection H as <-; lia |].
    split; [intros lo H; injection H as <-; lia |].
    split; [intros hi H; discriminate H |].
    intros lo hi _ H. discriminate H. }
  assert (Htruthy : truthyFilters wingers80).
  { unfold truthyFilters, wingers80. cbn.
    split; [discriminate |]. split; [discriminate |].
    split; discriminate. }
  assert (Hfits : forall c, fClubId wingers80 = Some c -> c <= Prisma.maxInt)
    by (intros c H; injection H as <-; unfold Prisma.maxInt; lia).
  exact (getPlayersWithFilters_exact wingers80 Sample.db Hvalid Htruthy Hfits).
Defined.

Lemma updateClub_conflict_trimmed_witness :
  ClubsService.updateClub 2 {| ucName := Some "Real Madrid"%string |} Sample.db
  = (Threw (Error ClubNameExists), Sample.db).
Proof.
  apply (proj2 (updateClub_conflict_trimmed Sample.db 2 "Real Madrid"
                  Sample.santos eq_refl eq_refl eq_refl
                  ltac:(discriminate) ltac:(discriminate))).
  exists Sample.realMadrid. split; [left; reflexivity | reflexivity].
Defined.

Lemma updatePlayer_applies_witness :
  exists r db',
    PlayersService.updatePlayer 1 moveToSantos Sample.db
    = (Returned (Some r), db')
    /\ Player.name (pwrPlayer r) = "Vini Jr"%string
    /\ Player.clubId (pwrPlayer r) = 2.
Proof.
  destruct (updatePlayer_applies Sample.db 1 moveToSantos Sample.vinicius
              eq_refl eq_refl eq_refl eq_refl eq_refl)
    as [r [db' [Hrun [_ [Hname [_ [_ [Hclub _]]]]]]]].
  - intros c H. injection H as <-. exists Sample.santos.
    split; [right; left; reflexivity | reflexivity].
  - exists r, db'. split; [exact Hrun |]. split; [exact Hname | exact Hclub].
Defined.

Lemma updatePlayer_blank_rejected_witness :
  exists e,
    PlayersService.updatePlayer 1 blankName Sample.db = (Threw e, Sample.db)
    /\ kind e = ValidationError.
Proof.
  apply (updatePlayer_blank_rejected Sample.db 1 blankName eq_refl).
  left. reflexivity.
Defined.

(* ================================================================== *)
(** * The answers of the controllers *)
(* ================================================================== *)

Lemma invalidParam_nonpositive (id : option Z) :
  (forall n, id = Some n -> n <= 0) -> invalidParam id = true.
Proof.
  intros H. destruct id as [n |]; [| reflexivity]. cbn.
  specialize (H n eq_refl). destruct (Z.leb_spec n 0); [reflexivity | lia].
Qed.

Lemma invalidParam_positive (n : Z) : 0 < n -> invalidParam (Some n) = false.
Proof. intros H. cbn. destruct (Z.leb_spec n 0); [lia | reflexivity]. Qed.

Lemma getClubById_run (db : Db) (n : Z) :
  0 < n ->
  ClubsService.getClubById n db
  = (Returned (option_map (Prisma.includePlayers db) (Prisma.clubById db n)),
     db).
Proof.
  intros Hn. unfold ClubsService.getClubById, ClubsRepository.findById,
    Prisma.club.findUnique. run. rewrite (invalidId_positive n Hn).
  reflexivity.
Qed.

(** X24. [GET /clubs/:id] answers 400 with 'ID do clube inválido' to a
    parameter that is not a positive number; to a positive id that fits
    the 64-bit identifier column it answers 404 with 'Clube não
    encontrado' when no club is stored under it, and 200 with the club
    and its players otherwise; the state is as it was in every case. *)
Theorem ClubsController_findById_answers (db : Db) (id : option Z) :
  ((forall n, id = Some n -> n <= 0) ->
   ClubsController.findById id db
   = (failure400 "ID do clube inválido", db))
  /\ (forall n, id = Some n -> 0 < n <= Prisma.maxInt -> ~ clubExists db n ->
      ClubsController.findById id db
      = (failure404 "Clube não encontrado", db))
  /\ (forall n c, id = Some n -> 0 < n <= Prisma.maxInt ->
      Prisma.clubById db n = Some c ->
      ClubsController.findById id db
      = (HttpResponse.ok (HttpResponse.OneClub (Prisma.includePlayers db c)),
         db)).
Proof.
  unfold ClubsController.findById. split; [| split].
  - intros Hid. rewrite (invalidParam_nonpositive id Hid). reflexivity.
  - intros n -> [Hn _] Hno. rewrite (invalidParam_positive n Hn).
    unfold respond. cbn [numberOf]. rewrite (getClubById_run db n Hn).
    apply clubById_None in Hno. rewrite Hno. reflexivity.
  - intros n c -> [Hn _] Hc. rewrite (invalidParam_positive n Hn).
    unfold respond. cbn [numberOf]. rewrite (getClubById_run db n Hn), Hc.
    reflexivity.
Qed.

Lemma missingString_blank (name : BodyValue) :
  (forall s, name = Str s -> Js.trim s = ""%string) ->
  missingString name = true.
Proof.
  intros H. destruct name as [| s |]; try reflexivity. cbn.
  rewrite (H s eq_refl). apply orb_true_r.
Qed.

Lemma missingString_filled (s : string) :
  Js.trim s <> ""%string -> missingString (Str s) = false.
Proof.
  intros H. cbn. fold (ClubsService.blank s). rewrite blank_trim.
  destruct (String.eqb_spec (Js.trim s) ""); [contradiction | reflexivity].
Qed.

Lemma createClub_run (db : Db) (s : string) :
  s <> ""%string -> Js.trim s = s ->
  ClubsService.createClub {| ccName := s |} db
  = match find (fun c => (Club.name c =? s)%string) (clubs db) with
    | Some _ => (Threw (Error ClubNameExists), db)
    | None =>
        let c := Club.mk (Prisma.nextId (seqClubs db) (map Club.id (clubs db)))
                         s in
        let db' := {| clubs := clubs db ++ [c];
                      players := players db;
                      statistics := statistics db;
                      seqClubs := Club.id c;
                      seqPlayers := seqPlayers db;
                      seqStatistics := seqStatistics db |} in
        (Returned (Prisma.includePlayers db' c), db')
    end.
Proof.
  intros Hne Htrim.
  unfold ClubsService.createClub. rewrite tryCatch_rethrow.
  unfold ClubsRepository.findByName, ClubsRepository.create,
    Prisma.club.findFirst, Prisma.club.create. run. cbn.
  rewrite blank_trim, Htrim.
  destruct (String.eqb_spec s ""); [contradiction |]. cbn.
  destruct (find _ (clubs db)) as [x |] eqn:Hfind; cbn; [reflexivity |].
  destruct (existsb _ _) eqn:Ex; [| reflexivity].
  exfalso. apply (proj1 (existsb_name _ _)) in Ex.
  apply (proj1 (findByName_None _ _)) in Hfind. contradiction.
Qed.

Lemma trim_not_empty (s : string) : Js.trim s <> ""%string -> s <> ""%string.
Proof. intros H ->. apply H. reflexivity. Qed.

(** X25. [POST /clubs] answers 400 with 'Nome do clube é obrigatório',
    leaving the state as it was, when the name is absent, not a string or
    blank; 400 with 'Já existe um clube com este nome', leaving the state
    as it was, when a stored club has the trimmed name; and otherwise 201
    with the new club, which carries the trimmed name and is stored after
    the clubs there were, players and statistics being untouched. *)
Theorem ClubsController_create_answers (db : Db) (name : BodyValue) :
  ((forall s, name = Str s -> Js.trim s = ""%string) ->
   ClubsController.create name db
   = (failure400 "Nome do clube é obrigatório", db))
  /\ (forall s, name = Str s -> Js.trim s <> ""%string ->
      nameTaken db (Js.trim s) ->
      ClubsController.create name db
      = (failure400 "Já existe um clube com este nome", db))
  /\ (forall s, name = Str s -> Js.trim s <> ""%string ->
      ~ nameTaken db (Js.trim s) ->
      exists c db',
        ClubsController.create name db
        = ({| HttpResponse.statusCode := 201;
              HttpResponse.body := HttpResponse.OneClub c |}, db')
        /\ Club.name (cwrClub c) = Js.trim s
        /\ clubs db' = clubs db ++ [cwrClub c]
        /\ players db' = players db
        /\ statistics db' = statistics db).
Proof.
  unfold ClubsController.create. split; [| split].
  - intros Hblank. rewrite (missingString_blank name Hblank). reflexivity.
  - intros s -> Hne Htaken. rewrite (missingString_filled s Hne).
    unfold respond. cbn [trimOf].
    rewrite (createClub_run db (Js.trim s) Hne (trim_idempotent s)).
    destruct (find _ (clubs db)) as [x |] eqn:Hfind; [reflexivity |].
    apply (proj1 (findByName_None _ _)) in Hfind. contradiction.
  - intros s -> Hne Hfree. rewrite (missingString_filled s Hne).
    unfold respond. cbn [trimOf].
    rewrite (createClub_run db (Js.trim s) Hne (trim_idempotent s)).
    apply (proj2 (findByName_None _ _)) in Hfree. rewrite Hfree. cbn.
    eexists. eexists. split; [reflexivity |]. cbn. repeat split.
Qed.

Lemma deleteClub_run (db : Db) (n : Z) :
  0 < n ->
  ClubsService.deleteClub n db
  = match Prisma.clubById db n with
    | None => (Threw (Error ClubNotFound), db)
    | Some _ =>
        match filter (fun p => Player.clubId p =? n) (players db) with
        | [] => (Returned true, snd (Prisma.club.delete n db))
        | _ :: _ => (Threw (Error ClubHasPlayers), db)
        end
    end.
Proof.
  intros Hn. unfold ClubsService.deleteClub. rewrite tryCatch_rethrow.
  unfold ClubsRepository.findById, ClubsRepository.delete,
    Prisma.club.findUnique, Prisma.club.delete. run.
  rewrite (invalidId_positive n Hn). cbn.
  destruct (Prisma.clubById db n) as [c |] eqn:Hc; cbn; [| reflexivity].
  destruct (clubById_Some _ _ _ Hc) as [_ Hid]. rewrite Hid.
  unfold Prisma.playersOf.
  destruct (filter (fun p => Player.clubId p =? n) (players db))
    as [| p rest] eqn:Hf; cbn; [| reflexivity].
  rewrite Hc. cbn. rewrite Hf. reflexivity.
Qed.

Lemma owned_players (db : Db) (n : Z) :
  filter (fun p => Player.clubId p =? n) (players db) = []
  <-> ~ ownsPlayers db n.
Proof.
  rewrite <- playersOf_nil. unfold Prisma.playersOf. split.
  - intros ->. reflexivity.
  - intros H. apply map_eq_nil in H. exact H.
Qed.

(** X26. [DELETE /clubs/:id] answers 200 or 400, never 404: the
    not-found branch of the controller is not reached.  A parameter that
    is not a positive number is answered 400 with 'ID do clube inválido'.
    For a positive id that fits the 64-bit identifier column: an id
    without a stored club and a club that still has players are each
    answered 400, with the message of the case and the state as it was; a
    stored club without players is answered 200, after which the club is
    gone, the other clubs are kept and players and statistics are as
    before. *)
Theorem ClubsController_delete_answers (db : Db) (id : option Z) :
  ((forall n, id = Some n -> n <= 0) ->
   ClubsController.delete id db = (failure400 "ID do clube inválido", db))
  /\ (forall n, id = Some n -> 0 < n <= Prisma.maxInt ->
      (~ clubExists db n ->
       ClubsController.delete id db
       = (failure400 "Clube não encontrado", db))
      /\ (clubExists db n -> ownsPlayers db n ->
          ClubsController.delete id db
          = (failure400
               "Não é possível remover um clube que possui jogadores", db))
      /\ (clubExists db n -> ~ ownsPlayers db n ->
          exists db',
            ClubsController.delete id db
            = (HttpResponse.ok
                 (HttpResponse.Notice "Clube removido com sucesso"), db')
            /\ ~ clubExists db' n
            /\ (forall c, In c (clubs db) -> Club.id c <> n ->
                          In c (clubs db'))
            /\ players db' = players db
            /\ statistics db' = statistics db))
  /\ (HttpResponse.statusCode (fst (ClubsController.delete id db)) = 200
      \/ HttpResponse.statusCode (fst (ClubsController.delete id db)) = 400).
Proof.
  unfold ClubsController.delete. split; [| split].
  - intros Hid. rewrite (invalidParam_nonpositive id Hid). reflexivity.
  - intros n -> [Hn _]. rewrite (invalidParam_positive n Hn).
    unfold respond. cbn [numberOf]. rewrite (deleteClub_run db n Hn).
    split; [| split].
    + intros Hno. apply clubById_None in Hno. rewrite Hno. reflexivity.
    + intros Hex Hown. destruct (clubById_exists db n Hex) as [c Hc].
      rewrite Hc.
      destruct (filter (fun p => Player.clubId p =? n) (players db))
        as [| p rest] eqn:Hf; [| reflexivity].
      apply owned_players in Hf. contradiction.
    + intros Hex Hfree. destruct (clubById_exists db n Hex) as [c Hc].
      rewrite Hc. apply owned_players in Hfree. rewrite Hfree.
      unfold Prisma.club.delete. rewrite Hc. cbn. rewrite Hfree.
      eexists. split; [reflexivity |]. cbn. split; [| split; [| split]].
      * intros [x [Hx Hid]]. cbn in Hx. apply filter_In in Hx.
        destruct Hx as [_ Hx]. rewrite Hid, Z.eqb_refl in Hx.
        discriminate Hx.
      * intros x Hx Hne. apply filter_In. split; [exact Hx |].
        destruct (Z.eqb_spec (Club.id x) n); [contradiction | reflexivity].
      * apply filter_all. intros p Hp.
        destruct (Z.eqb_spec (Player.clubId p) n) as [Heq |]; [| reflexivity].
        assert (Hin : In p (filter (fun p => Player.clubId p =? n)
                              (players db)))
          by (apply filter_In; split; [exact Hp | lia]).
        rewrite Hfree in Hin. contradiction.
      * apply filter_all. intros s _. reflexivity.
  - destruct (invalidParam id) eqn:Hinv; [right; reflexivity |].
    destruct id as [n |]; [| discriminate Hinv]. cbn in Hinv.
    assert (Hn : 0 < n) by (destruct (Z.leb_spec n 0); [discriminate | lia]).
    unfold respond. cbn [numberOf]. rewrite (deleteClub_run db n Hn).
    destruct (Prisma.clubById db n); [| right; reflexivity].
    destruct (filter _ _); [left | right]; reflexivity.
Qed.

Lemma NoDup_map_same {A B : Type} (f : A -> B) (l : list A) (x y : A) :
  NoDup (map f l) -> In x l -> In y l -> f x = f y -> x = y.
Proof.
  induction l as [| a rest IH]; cbn; intros Hnd Hx Hy Heq; [contradiction |].
  inversion Hnd as [| b l' Hnotin Hrest]; subst.
  destruct Hx as [-> | Hx], Hy as [-> | Hy].
  - reflexivity.
  - exfalso. apply Hnotin. rewrite Heq. apply in_map. exact Hy.
  - exfalso. apply Hnotin. rewrite <- Heq. apply in_map. exact Hx.
  - apply IH; assumption.
Qed.

Lemma updateClub_trimmed_run (db : Db) (n : Z) (nm : option string)
      (c : Club.t) :
  0 < n -> NoDup (map Club.name (clubs db)) ->
  Prisma.clubById db n = Some c ->
  (forall s, nm = Some s -> s <> ""%string /\ Js.trim s = s) ->
  ClubsService.updateClub n {| ucName := nm |} db
  = match nm with
    | None => (Returned (Some (Prisma.includePlayers db c)), db)
    | Some s =>
        if negb (s =? Club.name c)%string
           && match find (fun c' => (Club.name c' =? s)%string) (clubs db) with
              | Some _ => true
              | None => false
              end
        then (Threw (Error ClubNameExists), db)
        else (Returned
                (Some (Prisma.includePlayers (renamed n s db)
                         (Prisma.club.rename n s c))),
              renamed n s db)
    end.
Proof.
  intros Hn Hnd Hc Hnm.
  unfold ClubsService.updateClub. rewrite tryCatch_rethrow.
  unfold ClubsRepository.findById, ClubsRepository.findByName,
    ClubsRepository.update, Prisma.club.findUnique, Prisma.club.findFirst,
    Prisma.club.update. run.
  rewrite (invalidId_positive n Hn). cbn.
  destruct nm as [s |]; cbn.
  2:{ rewrite Hc. cbn. rewrite Hc. reflexivity. }
  destruct (Hnm s eq_refl) as [Hne Htrim]. rewrite Htrim.
  destruct (String.eqb_spec s ""); [contradiction |]. cbn.
  rewrite Hc. cbn.
  unfold Js.truthyString.
  destruct (String.eqb_spec s ""); [contradiction |]. cbn.
  destruct (clubById_Some _ _ _ Hc) as [Hin Hid].
  destruct (String.eqb_spec s (Club.name c)) as [Hsame | Hdiff]; cbn.
  - rewrite Hc.
    replace (existsb _ (clubs db)) with false; [reflexivity |].
    symmetry. destruct (existsb _ _) eqn:Ex; [| reflexivity].
    exfalso. apply existsb_exists in Ex. destruct Ex as [x [Hx Hb]].
    apply andb_prop in Hb. destruct Hb as [Hname Hother].
    apply String.eqb_eq in Hname.
    assert (x = c)
      by (apply (NoDup_map_same Club.name (clubs db)); congruence).
    subst x. rewrite Hid, Z.eqb_refl in Hother. discriminate Hother.
  - destruct (find _ (clubs db)) as [x |] eqn:Hfind; cbn; [reflexivity |].
    rewrite Hc.
    replace (existsb _ (clubs db)) with false; [reflexivity |].
    symmetry. destruct (existsb _ _) eqn:Ex; [| reflexivity].
    exfalso. apply existsb_exists in Ex. destruct Ex as [x [Hx Hb]].
    apply andb_prop in Hb. destruct Hb as [Hname _].
    pose proof (find_none _ _ Hfind x Hx) as Hno. cbn in Hno.
    rewrite Hname in Hno. discriminate Hno.
Qed.

Lemma emptyString_filled (name : BodyValue) :
  emptyString name = false ->
  forall s, trimmedString name = Some s -> s <> ""%string /\ Js.trim s = s.
Proof.
  destruct name as [| x |]; cbn; intros He s E; try discriminate.
  injection E as <-. split; [| apply trim_idempotent].
  destruct (String.eqb_spec (Js.trim x) ""); [discriminate | assumption].
Qed.

(** X27. [PUT /clubs/:id], in a state whose club names are unique,
    answers 200 or 400, never 404.  A parameter that is not a positive
    number is answered 400 with 'ID do clube inválido'.  For a positive
    id that fits the 64-bit identifier column: a name that is not a
    string or is blank, an id without a stored club, and a trimmed name,
    other than the club's own, that a stored club has, are each answered
    400 with the message of the case and the state as it was; without a
    name the stored club is answered as it is; with a name that trims to
    the club's own name or to a name that no stored club has, the answer
    is 200 with the club under the trimmed name, which is then stored. *)
Theorem ClubsController_update_answers (db : Db) (id : option Z)
        (name : BodyValue) :
  NoDup (map Club.name (clubs db)) ->
  ((forall n, id = Some n -> n <= 0) ->
   ClubsController.update id name db
   = (failure400 "ID do clube inválido", db))
  /\ (forall n, id = Some n -> 0 < n <= Prisma.maxInt ->
      (emptyString name = true ->
       ClubsController.update id name db
       = (failure400 "Nome do clube não pode estar vazio", db))
      /\ (emptyString name = false -> ~ clubExists db n ->
          ClubsController.update id name db
          = (failure400 "Clube não encontrado", db))
      /\ (forall c, Prisma.clubById db n = Some c ->
          (name = Undefined ->
           ClubsController.update id name db
           = (HttpResponse.ok
                (HttpResponse.OneClub (Prisma.includePlayers db c)), db))
          /\ (forall s, name = Str s -> Js.trim s <> ""%string ->
              Js.trim s <> Club.name c -> nameTaken db (Js.trim s) ->
              ClubsController.update id name db
              = (failure400 "Já existe um clube com este nome", db))
          /\ (forall s, name = Str s -> Js.trim s <> ""%string ->
              Js.trim s = Club.name c \/ ~ nameTaken db (Js.trim s) ->
              exists c',
                ClubsController.update id name db
                = (HttpResponse.ok (HttpResponse.OneClub c'),
                   renamed n (Js.trim s) db)
                /\ cwrClub c' = Club.mk n (Js.trim s)
                /\ In (cwrClub c') (clubs (renamed n (Js.trim s) db)))))
  /\ (HttpResponse.statusCode (fst (ClubsController.update id name db)) = 200
      \/ HttpResponse.statusCode (fst (ClubsController.update id name db))
         = 400).
Proof.
  intros Hnd. unfold ClubsController.update. split; [| split].
  - intros Hid. rewrite (invalidParam_nonpositive id Hid). reflexivity.
  - intros n -> [Hn _]. rewrite (invalidParam_positive n Hn). cbn [numberOf].
    split; [| split].
    + intros ->. reflexivity.
    + intros He Hno. rewrite He. unfold respond.
      unfold ClubsService.updateClub. rewrite tryCatch_rethrow.
      unfold ClubsRepository.findById, Prisma.club.findUnique. run.
      rewrite (invalidId_positive n Hn). apply clubById_None in Hno.
      destruct name as [| x |]; cbn in *; [| | discriminate He].
      { rewrite Hno. reflexivity. }
      destruct (String.eqb_spec (Js.trim x) ""); [discriminate |].
      rewrite trim_idempotent.
      destruct (String.eqb_spec (Js.trim x) ""); [contradiction |].
      cbn. rewrite Hno. reflexivity.
    + intros c Hc. destruct (clubById_Some _ _ _ Hc) as [Hin Hid].
      split; [| split].
      * intros ->. cbn. unfold respond.
        rewrite (updateClub_trimmed_run db n None c Hn Hnd Hc);
          [reflexivity | discriminate].
      * intros s -> Hne Hdiff Htaken. cbn.
        destruct (String.eqb_spec (Js.trim s) ""); [contradiction |].
        unfold respond.
        rewrite (updateClub_trimmed_run db n (Some (Js.trim s)) c Hn Hnd Hc).
        2:{ intros x E. injection E as <-.
            split; [assumption | apply trim_idempotent]. }
        destruct (String.eqb_spec (Js.trim s) (Club.name c));
          [contradiction |]. cbn.
        destruct (find _ (clubs db)) as [x |] eqn:Hfind; [reflexivity |].
        apply (proj1 (findByName_None _ _)) in Hfind. contradiction.
      * intros s -> Hne Hok. cbn.
        destruct (String.eqb_spec (Js.trim s) ""); [contradiction |].
        unfold respond.
        rewrite (updateClub_trimmed_run db n (Some (Js.trim s)) c Hn Hnd Hc).
        2:{ intros x E. injection E as <-.
            split; [assumption | apply trim_idempotent]. }
        assert (Hpass : negb (Js.trim s =? Club.name c)%string
                        && match find (fun c' => (Club.name c' =? Js.trim s)%string)
                                      (clubs db) with
                           | Some _ => true
                           | None => false
                           end = false).
        { destruct Hok as [Hsame | Hfree].
          - rewrite Hsame, String.eqb_refl. reflexivity.
          - apply (proj2 (findByName_None _ _)) in Hfree. rewrite Hfree.
            apply andb_false_r. }
        rewrite Hpass. eexists. split; [reflexivity |].
        cbn. unfold Prisma.club.rename at 1. rewrite Hid, Z.eqb_refl.
        split; [reflexivity |].
        apply in_map_iff. exists c. split; [| exact Hin].
        unfold Prisma.club.rename. rewrite Hid, Z.eqb_refl. reflexivity.
  - destruct (invalidParam id) eqn:Hinv; [right; reflexivity |].
    destruct id as [n |]; [| discriminate Hinv]. cbn in Hinv.
    assert (Hn : 0 < n) by (destruct (Z.leb_spec n 0); [discriminate | lia]).
    destruct (emptyString name) eqn:He; [right; reflexivity |].
    cbn [numberOf]. unfold respond.
    destruct (Prisma.clubById db n) as [c |] eqn:Hc.
    + rewrite (updateClub_trimmed_run db n (trimmedString name) c Hn Hnd Hc
                 (emptyString_filled name He)).
      destruct (trimmedString name) as [s |]; [| left; reflexivity].
      destruct (negb _ && _); [right | left]; reflexivity.
    + unfold ClubsService.updateClub. rewrite tryCatch_rethrow.
      unfold ClubsRepository.findById, Prisma.club.findUnique. run.
      rewrite (invalidId_positive n Hn).
      destruct name as [| x |]; cbn in *; [| | discriminate He].
      { rewrite Hc. right. reflexivity. }
      destruct (Js.trim (Js.trim x) =? "")%string; cbn;
        [| rewrite Hc]; right; reflexivity.
Qed.

Lemma getPlayerById_run (failure : Exception) (db : Db) (n : Z) :
  0 < n ->
  PlayersService.getPlayerById failure n db
  = (Returned (option_map (Prisma.includeClubStatistics db)
                          (Prisma.playerById db n)), db).
Proof.
  intros Hn. unfold PlayersService.getPlayerById, PlayersRepository.findById,
    Prisma.player.findUnique. run.
  rewrite (players_invalidId_positive n Hn). reflexivity.
Qed.

(** X28. [GET /players/:id] answers 400 with 'ID do jogador inválido' to
    a parameter that is not a positive number; to a positive id that fits
    the 64-bit identifier column it answers 404 with 'Jogador não
    encontrado' when no player is stored under it, and 200 with the
    player, his club and his statistics otherwise; the state is as it was
    in every case. *)
Theorem PlayersController_findById_answers (failure : Exception) (db : Db)
        (id : option Z) :
  ((forall n, id = Some n -> n <= 0) ->
   PlayersController.findById failure id db
   = (failure400 "ID do jogador inválido", db))
  /\ (forall n, id = Some n -> 0 < n <= Prisma.maxInt ->
      Prisma.playerById db n = None ->
      PlayersController.findById failure id db
      = (failure404 "Jogador não encontrado", db))
  /\ (forall n p, id = Some n -> 0 < n <= Prisma.maxInt ->
      Prisma.playerById db n = Some p ->
      PlayersController.findById failure id db
      = (HttpResponse.ok
           (HttpResponse.OnePlayer (Prisma.includeClubStatistics db p)), db)).
Proof.
  unfold PlayersController.findById. split; [| split].
  - intros Hid. rewrite (invalidParam_nonpositive id Hid). reflexivity.
  - intros n -> [Hn _] Hno. rewrite (invalidParam_positive n Hn).
    unfold respond. cbn [numberOf].
    rewrite (getPlayerById_run failure db n Hn), Hno. reflexivity.
  - intros n p -> [Hn _] Hp. rewrite (invalidParam_positive n Hn).
    unfold respond. cbn [numberOf].
    rewrite (getPlayerById_run failure db n Hn), Hp. reflexivity.
Qed.

Lemma deletePlayer_run (db : Db) (n : Z) :
  0 < n ->
  PlayersService.deletePlayer n db
  = match Prisma.playerById db n with
    | None => (Returned false, db)
    | Some _ => (Returned true, snd (Prisma.player.delete n db))
    end.
Proof.
  intros Hn. unfold PlayersService.deletePlayer. rewrite tryCatch_rethrow.
  unfold PlayersRepository.delete, Prisma.player.delete. run.
  rewrite (players_invalidId_positive n Hn). cbn.
  destruct (Prisma.playerById db n); reflexivity.
Qed.

(** X29. [DELETE /players/:id] answers 400 with 'ID do jogador inválido'
    for a parameter that is not a positive number and, unlike the
    deletion of a club, 404 with 'Jogador não encontrado' for a positive
    id without a stored player, the state being as it was in both cases.
    The id of a stored player is answered 200; afterwards neither the
    player nor a statistics row of his is stored, the clubs and the other
    players are kept. *)
Theorem PlayersController_delete_answers (db : Db) (id : option Z) :
  ((forall n, id = Some n -> n <= 0) ->
   PlayersController.delete id db
   = (failure400 "ID do jogador inválido", db))
  /\ (forall n, id = Some n -> 0 < n -> Prisma.playerById db n = None ->
      PlayersController.delete id db
      = (failure404 "Jogador não encontrado", db))
  /\ (forall n p, id = Some n -> 0 < n -> Prisma.playerById db n = Some p ->
      exists db',
        PlayersController.delete id db
        = (HttpResponse.ok
             (HttpResponse.Notice "Jogador removido com sucesso"), db')
        /\ Prisma.playerById db' n = None
        /\ Prisma.statisticsOf db' n = None
        /\ clubs db' = clubs db
        /\ (forall x, In x (players db) -> Player.id x <> n ->
                      In x (players db'))).
Proof.
  unfold PlayersController.delete. split; [| split].
  - intros Hid. rewrite (invalidParam_nonpositive id Hid). reflexivity.
  - intros n -> Hn Hno. rewrite (invalidParam_positive n Hn).
    unfold respond. cbn [numberOf].
    rewrite (deletePlayer_run db n Hn), Hno. reflexivity.
  - intros n p -> Hn Hp. rewrite (invalidParam_positive n Hn).
    unfold respond. cbn [numberOf].
    rewrite (deletePlayer_run db n Hn), Hp.
    unfold Prisma.player.delete. rewrite Hp. cbn.
    eexists. split; [reflexivity |].
    unfold Prisma.playerById, Prisma.statisticsOf. cbn.
    split; [| split; [| split]].
    + apply find_absent. intros x Hx. apply filter_In in Hx.
      destruct Hx as [_ Hx].
      destruct (Player.id x =? n); [discriminate Hx | reflexivity].
    + apply find_absent. intros x Hx. apply filter_In in Hx.
      destruct Hx as [_ Hx].
      destruct (Statistics.playerId x =? n); [discriminate Hx | reflexivity].
    + reflexivity.
    + intros x Hx Hne. apply filter_In. split; [exact Hx |].
      destruct (Z.eqb_spec (Player.id x) n); [contradiction | reflexivity].
Qed.

(** X30. [GET /clubs] and [GET /players] never answer 500 and leave the
    state as it was: each answers 204 without a body when nothing is
    stored, and otherwise 200 with every stored club and its players, or
    every stored player with his club and statistics, in stored order. *)
Theorem findAll_answers (db : Db) :
  (clubs db = [] ->
   ClubsController.findAll db = (HttpResponse.noContent, db))
  /\ (clubs db <> [] ->
      ClubsController.findAll db
      = (HttpResponse.ok
           (HttpResponse.Clubs (map (Prisma.includePlayers db) (clubs db))),
         db))
  /\ (players db = [] ->
      PlayersController.findAll db = (HttpResponse.noContent, db))
  /\ (players db <> [] ->
      PlayersController.findAll db
      = (HttpResponse.ok
           (HttpResponse.Players
              (map (Prisma.includeClubStatistics db) (players db))),
         db)).
Proof.
  unfold ClubsController.findAll, PlayersController.findAll, respond,
    ClubsService.getAllClubs, PlayersService.getAllPlayers, tryCatch,
    ClubsRepository.findAll, Prisma.club.findMany.
  rewrite findAll_run.
  split; [| split; [| split]].
  - intros ->. reflexivity.
  - intros Hne. destruct (clubs db); [contradiction | reflexivity].
  - intros ->. reflexivity.
  - intros Hne. destruct (players db); [contradiction | reflexivity].
Qed.

(** ** On the sample state *)

Lemma sample_club_names : NoDup (map Club.name (clubs Sample.db)).
Proof.
  cbn. constructor; [intros [H | []]; discriminate H |].
  constructor; [intros [] | constructor].
Qed.

Lemma ClubsController_update_answers_witness :
  exists c,
    ClubsController.update (Some 2) (Str " Santos ") Sample.db
    = (HttpResponse.ok (HttpResponse.OneClub c), renamed 2 "Santos" Sample.db)
    /\ cwrClub c = Sample.santos.
Proof.
  destruct (ClubsController_update_answers Sample.db (Some 2) (Str " Santos ")
              sample_club_names) as [_ [H _]].
  assert (Hfits : 0 < 2 <= Prisma.maxInt) by (unfold Prisma.maxInt; lia).
  destruct (H 2 eq_refl Hfits) as [_ [_ Hc]].
  destruct (Hc Sample.santos eq_refl) as [_ [_ Hok]].
  destruct (Hok " Santos "%string eq_refl) as [c [Hrun [Hclub _]]].
  - discriminate.
  - left. reflexivity.
  - exists c. split; [exact Hrun | exact Hclub].
Defined.
